(* ===== verification/_CoqProject ===== *)
-Q . S2P
Prelude.v
Binary64.v
NumberString.v
NumberRoundTrip.v
Evaluate.v
MathJs.v
Newton.v
FixedStep.v
Euler.v
RungeKutta.v
Page.v
Render.v
Dom.v
JsValues.v
EndToEnd.v
Rational.v
