(* ===== verification/Prelude.v ===== *)
(** * A verification development of NUMERICAL-METHODS-SOLVER (src/index.js)

    The program is one browser script, [src/index.js].  Its algorithmic core
    is five functions:
    - [evaluateFunction(eq, x)] (lines 138-144): substitutes the number [x]
      for every character ['x'] of the expression text [eq]
      ([eq.replace(/x/g, x)], which converts [x] with JavaScript's
      Number::toString), hands the text to the math.js library
      ([math.evaluate]) and maps any exception to [NaN];
    - [derivative(eq, x, h = 1e-5)] (lines 147-151): the central difference
      [(f(x+h) - f(x-h)) / (2*h)];
    - [newtonRaphson(eq, x0, maxIter = 10, tol = 1e-6)] (lines 63-88): a
      bounded loop with an early return when [|f(x)| < tol];
    - [eulerMethod(eq, x0, h = 0.1, steps = 10)] (lines 91-107) and
      [rungeKuttaMethod(eq, x0, h = 0.1, steps = 10)] (lines 110-135): fixed
      step integrators of [y' = f(x)] from [y(x0) = f(x0)].
    Each method appends its steps to an HTML string; the rest of the file
    (lines 1-60) is page wiring: three buttons set the shared variable
    [method], and the Solve button parses the inputs and dispatches.

    ** Layout of the development (files in dependency order)

    - [Prelude] (this file): the number interface [Arith] (a class: the
      operations [+ - * /], [Math.abs], [<] and decimal literals) that the
      numerical code is written against, its notation scope [nm_scope],
      the hint databases [nm] and [nm_rw], the tactics [case_if] and
      [inv], the counted-loop combinator [for_loop] with its
      specification lemma, and shared lemmas on [seq], [find], [flat_map].
    - [Binary64]: JavaScript Numbers as IEEE-754 binary64, with the
      Standard Library's executable, axiom-free [SpecFloat] ([prec = 53],
      [emax = 1024]): the operators, the NaN sentinel, decimal literals
      rounded to nearest-even ([of_decimal]), the [Arith] instance the
      program uses, NaN absorption and division by zero.
    - [NumberString]: the runtime's conversions, from ECMAScript: the
      global [parseFloat] (19.2.4: white space, the longest
      [StrDecimalLiteral] prefix, correct rounding), Number::toString
      (6.1.6.1.20: the shortest digit string that rounds back, in its four
      layouts) and [Number.prototype.toFixed] (21.1.3.3).
    - [NumberRoundTrip]: the round trip of those conversions.  The digit
      count [digits10], the decimal string [Z_digits] and the four
      layouts are characterised, the digit search of Number::toString is
      shown to return digits [s] with [s * 10^(n-k)] rounding to the
      Number, and [parseFloat] reads every layout back:
      [parseFloat (Number_toString x) = x] for every [x] but [-0]
      ([Number_toString_roundtrip]), under the hypothesis [digits_found x]
      that the search of 1 to 17 digits succeeds (see the bounds below).
    - [Evaluate]: [evaluateFunction] (lines 138-144) with its try/catch,
      the textual substitution [eq.replace(/x/g, x)] character by character
      ([replace_x]); math.js and Number::toString are the interfaces
      [MathEvaluate] and [NumberToString], the latter with its instance
      [NumberString.Number_toString].  [derivative] (lines 147-151) is
      [central_difference] over any [Arith] carrier.
    - [MathJs]: a fragment of math.js's expression language (numbers,
      [NaN], [Infinity], [+ - * /], unary signs, parentheses, [^] with the
      exponent 2, math.js precedence), a tokenizer and a recursive-descent
      parser with fuel, as an instance of [MathEvaluate].  It is written
      from math.js's documentation (the library is not code of the
      repository); text outside the fragment fails as an exception would.
      The fragment reads every text Number::toString prints back as the
      Number printed ([mathjs_fragment_toString]), and its fuel is
      proved enough: the tokenizer and each of the six mutually recursive
      parsing functions give the same result with any more fuel
      ([tokenize_enough], [p_expr_enough], from a bound per function,
      [fuel_expr] .. [fuel_primary]).
    - [Newton]: [newtonRaphson] (lines 63-88).  Its HTML string is modelled
      as the list of lines it appends, with the values they print
      ([nr_line]).  Abstract specification: the Newton iterates
      [nr_iterate] and the first index passing [|f| < tol]
      ([nr_first_converged]); the loop is proved to produce exactly the
      trace they determine ([newtonRaphson_refines]), and its outcome,
      bounds, soundness of [Root found], NaN propagation and the
      flat-tangent behaviour follow.
    - [FixedStep]: the update [y = y + increment; x = x + h] both
      integrators share ([fs_step]), and the facts they inherit.
    - [Euler], [RungeKutta]: [eulerMethod] (lines 91-107) and
      [rungeKuttaMethod] (lines 110-135) as [for_loop]s over [(x, y)];
      each refines the iterated [fs_step] with its increment, and each
      trace satisfies the design's invariant (an inductive relation
      [euler_chain], [rk_chain]: steps numbered [1 .. steps],
      [x_after = x_before + h], the next step starts where the previous
      ended).
    - [Page]: lines 1-60.  The page state ([method] and what the output
      element shows), the events (three method buttons, Solve with the
      three input texts), the step function [page_step] and the reachable
      states ([reachable], by rule induction): the method invariant, the
      validation branch, the dead [default] branch, the empty step-size
      defect.
    - [Render]: the HTML text: each trace line rendered to the template
      the source appends ([toFixed(6)] for values, [toFixed(2)] for
      abscissas, Number::toString for counters and [${x}]), and the output
      element's [innerHTML]; the text of any Newton run begins with its
      title and ends with the line of its outcome ([newtonRaphson_html]),
      that of an integrator run with its final state ([integrators_html]),
      and the approximate root it prints with [${x}] reads back as the
      iterate itself ([newtonRaphson_approx_roundtrip]).
    - [Dom]: lines 1-60 as the browser runs them: the document (elements
      with [id], [value], content), [document.getElementById], the
      script's top level (lookups, [let method], the footer year of line
      13, the four [addEventListener] calls) and the listeners, in a
      state-and-exception monad [js] over a [world] (document, the
      constants, [method], the registered listeners, the console); a
      [null] element throws a [TypeError] that stops the running code.
      [dom_refines_page] proves that on a document with every element the
      run of the script and of any user actions is the run of
      [Page.page_step] on the clicks ([dom_abstracts], by induction on the
      actions); well-formedness of every reachable world, liveness of a
      Solve click, and what a missing output or footer element does
      follow.
    - [JsValues]: the results of [math.evaluate] that are not Numbers
      ([mvalue]: [undefined], [null], and booleans, strings, Complex
      numbers and other values without [toFixed], each with its
      ToNumber).  The three
      methods, the Solve handler and the page are defined again over such
      results ([newtonRaphson_v_core], [eulerMethod_v_core],
      [rungeKuttaMethod_v_core], [solve_v], [on_solve_v], [dom_run_v]):
      arithmetic applies ToNumber, and [toFixed] on a value that is not a
      Number throws a [TypeError] ([toFixed_receiver], with the message
      V8 gives for [undefined], [null] and other values), which leaves
      the listener.  Each method is characterised exactly (where it
      throws, and otherwise the trace of the Number model), an evaluator
      that returns only Numbers gives back the run of [Dom]
      ([dom_run_v_numbers]), and a throwing Solve click leaves the page as
      it was, the console apart ([on_solve_v_throw_keeps_page]).
    - [EndToEnd]: [evaluateFunction] with [MathJs] and
      [Number_toString], for every argument: [x] alone evaluates to the
      Number itself, [-0] apart (written [0])
      ([evaluateFunction_substitution_exact]), and a negative argument
      [-a] under [^] is the text [-a^2], which math.js reads as [-(a^2)]
      ([evaluateFunction_negative_power]: [x^2] gives [-(a*a)] where
      [(x)^2] gives [x*x]).
    - [Rational]: the [Arith] instance on [Q] with its [Proper]
      morphisms for [Qeq]; in exact arithmetic RK4 is exact on cubic
      slopes, Euler misses by exactly [n b h^2 / 2] on affine slopes, and
      the central difference is exact on quadratics.

    ** What the theorems show

    Refinement theorems tie each loop to an abstract step function
    ([newtonRaphson_refines], [eulerMethod_refines],
    [rungeKuttaMethod_refines]); the properties of the traces (outcome,
    bounds, invariants) are proved from them.  Error paths are values:
    NaN flows through the operations ([Binary64]'s absorption lemmas) and
    the theorems state where it ends up (NaN propagation in Newton and in
    both integrators, the NaN step size of an empty field, the infinity a
    flat tangent produces, and the design's undefined propagation: a
    NaN slope sample poisons every later value of both integrators).
    The page's handlers are a step function: an invariant of its
    reachable states, idempotence of Solve, the validation branch, and
    the text the output element shows ([Render]); [Dom] refines it from
    the browser's view, with the exceptions of missing elements as
    values of the monad, and [JsValues] adds the exceptions of results
    that are not Numbers: the stale output a throwing Solve click
    leaves.  The substitution leaves no ['x'] in the text for any formula
    and Number ([replace_x_leaves_no_x]).  Round trips: Number::toString is inverted by
    [parseFloat] and by the math.js fragment, so the numbers the program
    prints with [${x}] and substitutes into the text are exact, the sign
    of a negative argument apart.  The design's own test cases are
    evaluated in binary64 by [vm_compute] on the exact functions
    ([newton_sqrt2_example], [newton_no_root_example],
    [euler_linear_example], [rk4_linear_example]).

    ** Not modelled (and plan)

    - math.js itself: its syntax outside the fragment of [MathJs]
      (functions, implicit multiplication, other exponents) and which
      value each text gives; [JsValues] takes the results as an input
      ([MathEvaluateV]).  Its values with a [toFixed] of their own
      (BigNumber, Fraction, produced only by [bignumber(...)] and
      [fraction(...)]) are not modelled: [toFixed] on them returns a
      string and [+] then concatenates.
    - The browser beyond what the script observes: the event loop is a
      sequence of user actions, rendering and the console's formatting
      are not modelled; the current year is an input of the load.
    - That 17 significant digits always suffice for binary64 (the search
      of Number::toString then always succeeds) is not proved; the round
      trip theorems take it as the hypothesis [digits_found x], which
      [vm_compute] discharges on each concrete Number.

    ** Bounds and fuel

    Every loop of the source is a counted [for] loop, modelled by
    structural recursion on the number of iterations left ([maxIter - i],
    [steps - i + 1]).  Fuel appears only in the runtime's and the
    library's text processing: [MathJs.tokenize] gets one more unit than
    the length of the text (each token consumes a character),
    [MathJs.p_expr] gets [8 * (tokens + 1)] (a token opens at most six
    nested calls: an operator one tail call, a parenthesis the five calls
    down to [p_primary]; both bounds are proved enough in [MathJs]), and
    Number::toString searches 1 to 17 digits ([digits_found]).
    [digits10 m] gets [log2 m + 1] steps and [Z_digits m] [digits10 m]
    steps, both proved enough in [NumberRoundTrip] ([digits10_spec],
    [Z_digits_spec]).  [maxIter] and [steps] are
    [nat]: the page only passes the defaults 10 and 10.  Numbers are kept
    at their width: every arithmetic operation of the program rounds to
    binary64 in the [Binary64] instance; [Rational] is the only place
    where arithmetic is exact, and it says so in each statement. *)

From Stdlib Require Import ZArith List Lia.
Import ListNotations.

(** ** The number interface

    The numerical functions of [src/index.js] only use [+], [-], [*], [/],
    [Math.abs], [<] and decimal literals.  They are modelled once, over any
    carrier with these operations; [Binary64] provides the instance that is
    the JavaScript semantics. *)

Class Arith (N : Type) := {
  n_add : N -> N -> N;
  n_sub : N -> N -> N;
  n_mul : N -> N -> N;
  n_div : N -> N -> N;
  n_abs : N -> N;
  n_ltb : N -> N -> bool;
  (** [n_lit m e] is the literal [m * 10^e] as the source writes it,
      e.g. [1e-5] is [n_lit 1 (-5)]. *)
  n_lit : Z -> Z -> N
}.

Declare Scope nm_scope.
Delimit Scope nm_scope with nm.
Notation "x + y" := (n_add x y) : nm_scope.
Notation "x - y" := (n_sub x y) : nm_scope.
Notation "x * y" := (n_mul x y) : nm_scope.
Notation "x / y" := (n_div x y) : nm_scope.
Notation "x <? y" := (n_ltb x y) : nm_scope.

(** ** Tactics and hint databases *)

(** [nm] collects the structural lemmas on traces; [nm_rw] the rewrite
    rules (NaN absorption, list shapes). *)
Create HintDb nm discriminated.
Create Rewrite HintDb nm_rw.

(** Case analysis on the guard of an [if] in the goal, keeping the equation. *)
Ltac case_if :=
  match goal with
  | |- context [if ?c then _ else _] => let E := fresh "E" in destruct c eqn:E
  end.

Ltac inv H := inversion H; subst; clear H.

(** ** Shared list lemmas *)

Lemma seq_S_app (s n : nat) : seq s (S n) = seq s n ++ [s + n].
Proof. apply seq_S. Qed.

Lemma flat_map_seq_S {A} (g : nat -> list A) (s n : nat) :
  flat_map g (seq s (S n)) = flat_map g (seq s n) ++ g (s + n).
Proof. rewrite seq_S, flat_map_app; simpl. now rewrite app_nil_r. Qed.

(** Peeling the first index off a [flat_map] over [seq]. *)
Lemma flat_map_seq_cons {A} (g : nat -> list A) (s n : nat) :
  flat_map g (seq s (S n)) = g s ++ flat_map g (seq (S s) n).
Proof. reflexivity. Qed.

Lemma iter_S_r {A} (g : A -> A) (n : nat) (a : A) :
  Nat.iter (S n) g a = Nat.iter n g (g a).
Proof. induction n as [|n IH]; simpl in *; [reflexivity | now rewrite <- IH]. Qed.

#[export] Hint Rewrite @flat_map_seq_S @app_nil_r : nm_rw.

Lemma flat_map_seq_shift {A} (g : nat -> list A) (s n : nat) :
  flat_map g (seq (S s) n) = flat_map (fun j => g (S j)) (seq s n).
Proof. rewrite <- seq_shift, flat_map_concat_map, map_map. now rewrite <- flat_map_concat_map. Qed.

Lemma find_seq_shift (p : nat -> bool) (s n : nat) :
  find p (seq (S s) n) = option_map S (find (fun j => p (S j)) (seq s n)).
Proof.
  revert s. induction n as [|n IH]; intros s; simpl; [reflexivity|].
  destruct (p (S s)); [reflexivity | apply IH].
Qed.

(** The first index of [seq s n] where [p] holds is the first one: every
    index before it fails [p]. *)
Lemma find_seq_Some (p : nat -> bool) (s n k : nat) :
  find p (seq s n) = Some k -> s <= k < s + n /\ p k = true /\ forall j, s <= j < k -> p j = false.
Proof.
  revert s. induction n as [|n IH]; intros s; simpl; [discriminate|].
  destruct (p s) eqn:Ps.
  - intros [= <-]. repeat split; auto; lia.
  - intros Hf. destruct (IH (S s) Hf) as (Hk & Pk & Hbefore). repeat split; auto; try lia.
    intros j Hj. destruct (Nat.eq_dec j s) as [->|]; auto. apply Hbefore; lia.
Qed.

Lemma find_seq_None (p : nat -> bool) (s n : nat) :
  find p (seq s n) = None -> forall j, s <= j < s + n -> p j = false.
Proof.
  revert s. induction n as [|n IH]; intros s; simpl; [lia|].
  destruct (p s) eqn:Ps; [discriminate|].
  intros Hf j Hj. destruct (Nat.eq_dec j s) as [->|]; auto. apply (IH (S s)); auto; lia.
Qed.

Lemma find_ext {A} (p q : A -> bool) (l : list A) :
  (forall a, p a = q a) -> find p l = find q l.
Proof. intros Hpq. induction l as [|a l IH]; simpl; [reflexivity|]. now rewrite Hpq, IH. Qed.

Lemma find_seq_all_false (p : nat -> bool) (s n : nat) :
  (forall j, s <= j < s + n -> p j = false) -> find p (seq s n) = None.
Proof.
  revert s. induction n as [|n IH]; intros s Hall; simpl; [reflexivity|].
  rewrite Hall by lia. apply IH. intros j Hj. apply Hall. lia.
Qed.

Lemma last_cons_snoc {A} (c : A) (l : list A) (a d : A) : last (c :: l ++ [a]) d = a.
Proof. rewrite app_comm_cons. apply last_last. Qed.

Lemma last_cons_snoc2 {A} (c : A) (l : list A) (a b d : A) : last (c :: l ++ [a; b]) d = b.
Proof. change (l ++ [a; b]) with (l ++ [a] ++ [b]). rewrite app_assoc. apply last_cons_snoc. Qed.

(** ** Counted loops

    [for (let i = i0; i < i0 + n; i++) { body }] where the body appends
    lines to an output and updates a loop state: [body i s] is the lines
    iteration [i] appends and the next state. *)
Section ForLoop.
Context {St L : Type}.
Variable body : nat -> St -> list L * St.

Fixpoint for_loop (fuel i : nat) (s : St) : list L :=
  match fuel with
  | O => []
  | S fuel' => let '(out, s') := body i s in out ++ for_loop fuel' (S i) s'
  end.

(** When the state update does not depend on the counter, the loop's
    output is the concatenation of the iterations' outputs on the
    iterated states. *)
Lemma for_loop_spec (next : St -> St) (out : nat -> St -> list L) :
  (forall i s, body i s = (out i s, next s)) ->
  forall n i s, for_loop n i s = flat_map (fun j => out (i + j) (Nat.iter j next s)) (seq 0 n).
Proof.
  intros Hbody n. induction n as [|n IH]; intros i s; [reflexivity|].
  cbn [for_loop]. rewrite Hbody, IH, flat_map_seq_cons, flat_map_seq_shift, Nat.add_0_r.
  f_equal. apply flat_map_ext. intros j. now rewrite Nat.add_succ_r, iter_S_r.
Qed.
End ForLoop.

(** The loop depends on its body only through the body's results. *)
Lemma for_loop_ext {St L : Type} (b1 b2 : nat -> St -> list L * St) :
  (forall i s, b1 i s = b2 i s) -> forall n i s, for_loop b1 n i s = for_loop b2 n i s.
Proof.
  intros Hb n. induction n as [|n IH]; intros i s; [reflexivity|].
  cbn [for_loop]. rewrite Hb. destruct (b2 i s). now rewrite IH.
Qed.

(** Folding pointwise equal functions gives the same result. *)
Lemma fold_left_pointwise {A B : Type} (f g : A -> B -> A) (l : list B) (a : A) :
  (forall x y, f x y = g x y) -> fold_left f l a = fold_left g l a.
Proof. intros Hfg. revert a. induction l as [|b l IH]; intros a; simpl; [reflexivity|]. now rewrite Hfg, IH. Qed.

(** The first index of [seq 0 (S n)] where [p] holds: [0], or one more
    than the first index of [seq 0 n] where [p] holds one further. *)
Lemma find_seq_0_S (p : nat -> bool) (n : nat) :
  find p (seq 0 (S n)) = if p 0 then Some 0 else option_map S (find (fun j => p (S j)) (seq 0 n)).
Proof. cbn [seq find]. destruct (p 0); [reflexivity|]. apply find_seq_shift. Qed.
