(* ===== verification/Binary64.v ===== *)
(** * JavaScript numbers as IEEE-754 binary64

    Every number of [src/index.js] is a JavaScript Number, an IEEE-754
    double.  This file models them with the Standard Library's
    [SpecFloat] (an executable, axiom-free specification of IEEE
    arithmetic, the same definitions as Flocq's [Binary]) at [prec = 53],
    [emax = 1024].  [SpecFloat] has a single NaN, which is faithful for
    JavaScript, where NaN payloads are not observable.

    The file gives the operators the source uses, the decimal literals it
    writes (rounded to nearest, ties to even, as ECMAScript's numeric
    literal grammar requires), the [Arith] instance, and the lemmas on
    NaN and on division by zero that the numerical components rely on. *)

From Stdlib Require Import ZArith Bool SpecFloat.
From S2P Require Import Prelude.

Local Open Scope Z_scope.

Definition prec : Z := 53.
Definition emax : Z := 1024.

(** A JavaScript Number. *)
Definition number : Type := spec_float.

Definition NaN : number := S754_nan.
Definition Infinity : number := S754_infinity false.

(** The binary operators [+ - * /] of ECMAScript on Numbers
    (Number::add, Number::subtract, Number::multiply, Number::divide):
    IEEE-754 operations rounded to nearest, ties to even. *)
Definition js_add : number -> number -> number := SFadd prec emax.
Definition js_sub : number -> number -> number := SFsub prec emax.
Definition js_mul : number -> number -> number := SFmul prec emax.
Definition js_div : number -> number -> number := SFdiv prec emax.

(** [Math.abs]. *)
Definition js_abs : number -> number := SFabs.

(** The relational operator [x < y] on Numbers: [false] when either
    operand is NaN, and [-0 < +0] is [false]. *)
Definition js_lt (x y : number) : bool := SFltb x y.

(** The global [isNaN] on a Number argument. *)
Definition isNaN (x : number) : bool :=
  match x with S754_nan => true | _ => false end.

Definition is_finite (x : number) : bool :=
  match x with S754_zero _ | S754_finite _ _ _ => true | _ => false end.

Definition is_zero (x : number) : bool :=
  match x with S754_zero _ => true | _ => false end.

Definition is_infinity (x : number) : bool :=
  match x with S754_infinity _ => true | _ => false end.

(** The Number denoted by a decimal literal [m * 10^e]: the exact value
    rounded once to nearest-even.  For [e < 0] the rounding is the one of
    an IEEE division of [|m|] by [10^-e], computed on the exact integers
    (not on their rounded doubles), so it is a single rounding. *)
Definition of_decimal (m e : Z) : number :=
  if 0 <=? e then binary_normalize prec emax (m * 10 ^ e) 0 false
  else match m with
       | Z0 => S754_zero false
       | _ => let '(mz, ez, lz) := SFdiv_core_binary prec emax (Z.abs m) 0 (10 ^ (- e)) 0 in
              binary_round_aux prec emax (m <? 0) mz ez lz
       end.

#[export] Instance binary64_arith : Arith number := {
  n_add := js_add;
  n_sub := js_sub;
  n_mul := js_mul;
  n_div := js_div;
  n_abs := js_abs;
  n_ltb := js_lt;
  n_lit := of_decimal
}.

Definition number_eq_dec (x y : number) : {x = y} + {x <> y}.
Proof. decide equality; first [apply Z.eq_dec | apply Pos.eq_dec | apply bool_dec]. Defined.

(** ** NaN absorbs every operation the program applies *)

Lemma add_nan_l x : js_add NaN x = NaN.  Proof. reflexivity. Qed.
Lemma add_nan_r x : js_add x NaN = NaN.  Proof. now destruct x. Qed.
Lemma sub_nan_l x : js_sub NaN x = NaN.  Proof. reflexivity. Qed.
Lemma sub_nan_r x : js_sub x NaN = NaN.  Proof. now destruct x. Qed.
Lemma mul_nan_l x : js_mul NaN x = NaN.  Proof. reflexivity. Qed.
Lemma mul_nan_r x : js_mul x NaN = NaN.  Proof. now destruct x. Qed.
Lemma div_nan_l x : js_div NaN x = NaN.  Proof. reflexivity. Qed.
Lemma div_nan_r x : js_div x NaN = NaN.  Proof. now destruct x. Qed.
Lemma abs_nan : js_abs NaN = NaN.  Proof. reflexivity. Qed.
Lemma lt_nan_l x : js_lt NaN x = false.  Proof. reflexivity. Qed.
Lemma lt_nan_r x : js_lt x NaN = false.  Proof. now destruct x. Qed.

#[export] Hint Rewrite add_nan_l add_nan_r sub_nan_l sub_nan_r mul_nan_l mul_nan_r
  div_nan_l div_nan_r abs_nan lt_nan_l lt_nan_r : nm_rw.

(** The same facts through the [Arith] instance, as the generic code sees
    them. *)
Lemma n_add_nan_l x : (NaN + x)%nm = NaN.  Proof. reflexivity. Qed.
Lemma n_add_nan_r x : (x + NaN)%nm = NaN.  Proof. apply add_nan_r. Qed.
Lemma n_sub_nan_l x : (NaN - x)%nm = NaN.  Proof. reflexivity. Qed.
Lemma n_sub_nan_r x : (x - NaN)%nm = NaN.  Proof. apply sub_nan_r. Qed.
Lemma n_mul_nan_l x : (NaN * x)%nm = NaN.  Proof. reflexivity. Qed.
Lemma n_mul_nan_r x : (x * NaN)%nm = NaN.  Proof. apply mul_nan_r. Qed.
Lemma n_div_nan_l x : (NaN / x)%nm = NaN.  Proof. reflexivity. Qed.
Lemma n_div_nan_r x : (x / NaN)%nm = NaN.  Proof. apply div_nan_r. Qed.
Lemma n_abs_nan : n_abs NaN = NaN.  Proof. reflexivity. Qed.
Lemma n_ltb_nan_l x : (NaN <? x)%nm = false.  Proof. reflexivity. Qed.

#[export] Hint Rewrite n_add_nan_l n_add_nan_r n_sub_nan_l n_sub_nan_r n_mul_nan_l
  n_mul_nan_r n_div_nan_l n_div_nan_r n_abs_nan n_ltb_nan_l : nm_rw.

(** ** Division by zero and infinities

    Dividing a finite non-zero Number by a zero gives an infinity, not
    NaN; subtracting an infinity from a finite Number gives the opposite
    infinity. *)

Lemma div_by_zero x z :
  is_finite x = true -> is_zero x = false -> is_zero z = true ->
  is_infinity (js_div x z) = true.
Proof. destruct x, z; easy. Qed.

Lemma sub_infinity x i :
  is_finite x = true -> is_infinity i = true -> is_infinity (js_sub x i) = true.
Proof. destruct x, i; easy. Qed.
