(* ===== verification/NumberString.v ===== *)
(** * Strings to Numbers: the global [parseFloat]

    The Solve handler (src/index.js, lines 37-38) reads the initial value
    and the step size with [parseFloat].  ECMAScript (sec. 19.2.4) defines
    it as: skip leading white space; take the longest prefix that is a
    [StrDecimalLiteral]
<<
      StrDecimalLiteral ::= [+|-] StrUnsignedDecimalLiteral
      StrUnsignedDecimalLiteral ::= Infinity
          | DecimalDigits . [DecimalDigits] [ExponentPart]
          | . DecimalDigits [ExponentPart]
          | DecimalDigits [ExponentPart]
      ExponentPart ::= (e|E) [+|-] DecimalDigits
>>
    and return its value rounded to the nearest Number (NaN when no
    prefix qualifies); a [-] sign applied to a zero gives [-0].  Strings
    are modelled as Stdlib strings of 8-bit characters; the white space
    skipped is the ASCII part of ECMAScript's WhiteSpace and
    LineTerminator (tab, line feed, vertical tab, form feed, carriage
    return, space). *)

From Stdlib Require Import ZArith String Ascii List Bool SpecFloat.
From S2P Require Import Prelude Binary64.
Import ListNotations.
Local Open Scope Z_scope.

Definition js_neg : number -> number := SFopp.

Definition is_ws (c : ascii) : bool :=
  let n := nat_of_ascii c in
  (Nat.eqb n 32 || Nat.eqb n 9 || Nat.eqb n 10 || Nat.eqb n 11 || Nat.eqb n 12 || Nat.eqb n 13)%bool.

Definition digit_value (c : ascii) : option Z :=
  let n := nat_of_ascii c in
  if (Nat.leb 48 n && Nat.leb n 57)%bool then Some (Z.of_nat n - 48) else None.

Fixpoint trim_start (s : string) : string :=
  match s with
  | String c rest => if is_ws c then trim_start rest else s
  | EmptyString => EmptyString
  end.

(** [DecimalDigits]: the longest run of digits, as [(value, count, rest)];
    [acc] and [n] are the value and count read so far. *)
Fixpoint read_digits (s : string) (acc : Z) (n : nat) : Z * nat * string :=
  match s with
  | String c rest =>
      match digit_value c with
      | Some d => read_digits rest (10 * acc + d) (S n)
      | None => (acc, n, s)
      end
  | EmptyString => (acc, n, s)
  end.

(** [ExponentPart] when one is present and complete: the signed exponent;
    [0] when the text does not continue with a complete exponent (it is
    then not part of the longest prefix). *)
Definition read_exponent (s : string) : Z :=
  match s with
  | String c rest =>
      if (Ascii.eqb c "e" || Ascii.eqb c "E")%bool then
        let '(sg, body) :=
          match rest with
          | String c' rest' =>
              if Ascii.eqb c' "+" then (1, rest')
              else if Ascii.eqb c' "-" then (-1, rest')
              else (1, rest)
          | EmptyString => (1, rest)
          end in
        let '(v, n, _) := read_digits body 0 0 in
        if Nat.eqb n 0 then 0 else sg * v
      else 0
  | EmptyString => 0
  end.

(** The number of decimal digits of a positive integer. *)
Fixpoint digits10_fuel (fuel : nat) (m : Z) : Z :=
  match fuel with
  | O => 0
  | S fuel' => if m <? 10 then 1 else 1 + digits10_fuel fuel' (m / 10)
  end.

Definition digits10 (m : Z) : Z := digits10_fuel (Z.to_nat (Z.log2 m + 1)) m.

(** The value of [m * 10^e] rounded to a Number.  Beyond the range where
    the result is an infinity ([m * 10^e >= 10^309]) or a zero
    ([m * 10^e < 10^-324], below half the least subnormal) the result is
    given without computing the power, which keeps the definition
    executable on long exponents. *)
Definition decimal_value (m e : Z) : number :=
  if m =? 0 then S754_zero false
  else if 309 <=? e then Infinity
  else if digits10 m + e <=? -324
  then S754_zero false
  else of_decimal m e.

(** [StrUnsignedDecimalLiteral] at the start of [s], as a Number. *)
Definition read_unsigned (s : string) : option number :=
  if String.prefix "Infinity" s then Some Infinity
  else
    let '(ip, ni, rest) := read_digits s 0 0 in
    let '(m, nf, rest') :=
      match rest with
      | String c after => if Ascii.eqb c "." then read_digits after ip 0 else (ip, 0%nat, rest)
      | EmptyString => (ip, 0%nat, rest)
      end in
    if Nat.eqb (ni + nf) 0 then None
    else Some (decimal_value m (read_exponent rest' - Z.of_nat nf)).

Definition parseFloat (s : string) : number :=
  let t := trim_start s in
  let r :=
    match t with
    | String c rest =>
        if Ascii.eqb c "-" then option_map js_neg (read_unsigned rest)
        else if Ascii.eqb c "+" then read_unsigned rest
        else read_unsigned t
    | EmptyString => None
    end in
  match r with Some v => v | None => NaN end.

(** * Numbers to strings: Number::toString and Number.prototype.toFixed

    [String(x)], [${x}] and [eq.replace(/x/g, x)] convert a Number with
    Number::toString (ECMAScript 6.1.6.1.20, radix 10): NaN is ["NaN"],
    both zeros are ["0"], infinities are ["Infinity"] and ["-Infinity"],
    a negative number is ["-"] followed by the string of its opposite;
    otherwise, with [k] the least number of digits such that some
    [k]-digit integer [s] has [s * 10^(n-k)] rounding to [x] (the nearest
    such [s] when there are two), the digits of [s] are laid out in one
    of four shapes depending on [n]. *)

(** The exact value of [m * 2^e] as a fraction [num / den]. *)
Definition pos_ratio (m : positive) (e : Z) : Z * Z :=
  if 0 <=? e then (Zpos m * 2 ^ e, 1) else (Zpos m, 2 ^ (- e)).

(** Whether [num / den >= 10^t]. *)
Definition ge_pow10 (num den t : Z) : bool :=
  if 0 <=? t then 10 ^ t * den <=? num else den <=? num * 10 ^ (- t).

(** The [n] with [10^(n-1) <= num / den < 10^n] (for positive values). *)
Definition dec_exponent (num den : Z) : Z :=
  let n0 := digits10 num - digits10 den in
  if ge_pow10 num den n0 then n0 + 1 else n0.

(** [num / den * 10^t] as a fraction. *)
Definition scale10 (num den t : Z) : Z * Z :=
  if 0 <=? t then (num * 10 ^ t, den) else (num, den * 10 ^ (- t)).

(** The [k]-digit integers next to [x = num / den]: [(s, n)] pairs whose
    [s * 10^(n-k)] rounds to [x], the nearer one first (ties: the even
    one first).  An upward candidate [10^k] is written [10^(k-1)] with
    [n + 1]. *)
Definition candidates (x : number) (num den k : Z) : list (Z * Z) :=
  let n := dec_exponent num den in
  let '(a, b) := scale10 num den (k - n) in
  let lo := a / b in
  let r := a mod b in
  let up := if lo + 1 =? 10 ^ k then (10 ^ (k - 1), n + 1) else (lo + 1, n) in
  let cands :=
    if r =? 0 then [(lo, n)]
    else if (2 * r <? b) || ((2 * r =? b) && Z.even lo) then [(lo, n); up]
    else [up; (lo, n)] in
  filter (fun '(s, n') => if number_eq_dec (decimal_value s (n' - k)) x then true else false) cands.

(** The least [k] in [k0 .. k0 + fuel - 1] with a candidate, and its
    digits [(s, n, k)]. *)
Fixpoint shortest (x : number) (num den : Z) (k0 : Z) (fuel : nat) : option (Z * Z * Z) :=
  match fuel with
  | O => None
  | S fuel' =>
      match candidates x num den k0 with
      | (s, n) :: _ => Some (s, n, k0)
      | [] => shortest x num den (k0 + 1) fuel'
      end
  end.

(** The decimal digits of a non-negative integer. *)
Fixpoint digits_fuel (fuel : nat) (s : Z) (acc : string) : string :=
  match fuel with
  | O => acc
  | S fuel' =>
      let acc' := String (ascii_of_nat (48 + Z.to_nat (s mod 10))) acc in
      if s <? 10 then acc' else digits_fuel fuel' (s / 10) acc'
  end.

Definition Z_digits (s : Z) : string := digits_fuel (Z.to_nat (digits10 s)) s EmptyString.

Fixpoint zeros (n : nat) : string :=
  match n with O => EmptyString | S n' => String "0" (zeros n') end.

(** The four shapes of Number::toString for the digits [s] ([k] of them)
    of a value [s * 10^(n-k)]. *)
Definition layout (s n k : Z) : string :=
  let ds := Z_digits s in
  if (k <=? n) && (n <=? 21) then (ds ++ zeros (Z.to_nat (n - k)))%string
  else if (0 <? n) && (n <=? 21) then
    (substring 0 (Z.to_nat n) ds ++ "." ++ substring (Z.to_nat n) (Z.to_nat (k - n)) ds)%string
  else if (-6 <? n) && (n <=? 0) then ("0." ++ zeros (Z.to_nat (- n)) ++ ds)%string
  else
    let e := n - 1 in
    let sign := if e <? 0 then "-"%string else "+"%string in
    let es := (sign ++ Z_digits (Z.abs e))%string in
    if k =? 1 then (ds ++ "e" ++ es)%string
    else (substring 0 1 ds ++ "." ++ substring 1 (Z.to_nat (k - 1)) ds ++ "e" ++ es)%string.

(** Number::toString.  The search stops at 17 digits, which always
    suffice for binary64; the fallback is never reached on the values
    the development evaluates. *)
Definition Number_toString (x : number) : string :=
  match x with
  | S754_nan => "NaN"
  | S754_zero _ => "0"
  | S754_infinity false => "Infinity"
  | S754_infinity true => "-Infinity"
  | S754_finite sg m e =>
      let '(num, den) := pos_ratio m e in
      let sign := if sg then "-"%string else EmptyString in
      match shortest (S754_finite false m e) num den 1 17 with
      | Some (s, n, k) => (sign ++ layout s n k)%string
      | None => (sign ++ layout (num * 10 ^ 17 / den) (dec_exponent num den) 17)%string
      end
  end.

(** Number.prototype.toFixed(f) (ECMAScript 21.1.3.3) for the [f] the
    program uses: the integer [n] nearest to [x * 10^f] (the larger on a
    tie), written with [f] digits after the point; a leading ["-"] when
    [x < 0] (so [-0] prints without sign, and a small negative number as
    ["-0.000000"]); Number::toString when [|x| >= 10^21] or [x] is not
    finite. *)
Definition fixed_layout (n : Z) (f : nat) : string :=
  let m := Z_digits n in
  match f with
  | O => m
  | S _ =>
      let m' := if Nat.leb (String.length m) f then (zeros (S f - String.length m) ++ m)%string else m in
      let k := String.length m' in
      (substring 0 (k - f) m' ++ "." ++ substring (k - f) f m')%string
  end.

Definition toFixed (x : number) (f : nat) : string :=
  match x with
  | S754_nan => "NaN"
  | S754_infinity _ => Number_toString x
  | S754_zero _ => fixed_layout 0 f
  | S754_finite sg m e =>
      let '(num, den) := pos_ratio m e in
      if 10 ^ 21 * den <=? num then Number_toString x
      else
        let n := (2 * num * 10 ^ Z.of_nat f + den) / (2 * den) in
        let sign := if sg then "-"%string else EmptyString in
        (sign ++ fixed_layout n f)%string
  end.

(** ** Strings *)

Lemma string_app_assoc (a b c : string) : ((a ++ b) ++ c = a ++ (b ++ c))%string.
Proof. induction a as [|ch a IH]; simpl; congruence. Qed.

Lemma string_app_empty_r (s : string) : (s ++ EmptyString)%string = s.
Proof. induction s as [|c s IH]; simpl; congruence. Qed.

Lemma string_length_app (a b : string) : String.length (a ++ b) = (String.length a + String.length b)%nat.
Proof. induction a as [|c a IH]; simpl; congruence. Qed.
