(* ===== verification/NumberRoundTrip.v ===== *)
(** * Printing and reading back Numbers

    [NumberString] models Number::toString (the shortest digits that
    round back, laid out in one of four shapes) and [parseFloat].  This
    file proves that they are inverse: reading back with [parseFloat] the
    text Number::toString prints gives the Number printed, for every
    Number but [-0] (printed ["0"], read back as [+0]).  The proof has
    three layers:
    - decimal digit strings: [Z_digits] prints [digits10 s] digits that
      [read_digits] reads back as [s];
    - the four layouts: [parseFloat (layout s n k)] is the value
      [s * 10^(n-k)] rounded ([decimal_value s (n - k)]) whenever [s]
      has [k] digits;
    - the digit search: the digits [(s, n, k)] Number::toString chooses
      have [k] digits and [decimal_value s (n - k)] is the Number.
    The search tries 1 to 17 digits; the theorems take as hypothesis that
    it finds digits, which ECMAScript guarantees for binary64 and which
    the development does not prove (it would need the correctness of
    binary64 rounding). *)

From Stdlib Require Import ZArith String Ascii List Bool Lia SpecFloat.
From S2P Require Import Prelude Binary64 NumberString.
Import ListNotations.
Local Open Scope Z_scope.

(** ** Definitions *)

Definition digit_char (c : ascii) : bool := match digit_value c with Some _ => true | None => false end.

Fixpoint all_digits (t : string) : bool :=
  match t with
  | EmptyString => true
  | String c t' => digit_char c && all_digits t'
  end.

(** The value [read_digits] accumulates over a digit string. *)
Fixpoint dval (t : string) (acc : Z) : Z :=
  match t with
  | EmptyString => acc
  | String c t' => match digit_value c with Some d => dval t' (10 * acc + d) | None => acc end
  end.

(** A text that does not continue with a digit. *)
Definition no_digit_next (t : string) : bool :=
  match t with EmptyString => true | String c _ => negb (digit_char c) end.

(** A text that starts with a decimal digit. *)
Definition starts_with_digit (t : string) : bool :=
  match t with String c _ => digit_char c | EmptyString => false end.

(** Whether the search of Number::toString (1 to 17 significant digits)
    finds the digits of [x]; [true] for the Numbers it does not search. *)
Definition digits_found (x : number) : bool :=
  match x with
  | S754_finite _ m e =>
      let '(num, den) := pos_ratio m e in
      match shortest (S754_finite false m e) num den 1 17 with Some _ => true | None => false end
  | _ => true
  end.

(** ** The number of decimal digits *)

Lemma digits10_fuel_spec (f : nat) (m : Z) :
  0 < m -> m < 2 ^ Z.of_nat f ->
  1 <= digits10_fuel f m /\ 10 ^ (digits10_fuel f m - 1) <= m < 10 ^ digits10_fuel f m.
Proof.
  revert m. induction f as [|f IH]; intros m Hm Hf; [simpl in Hf; lia|].
  change (digits10_fuel (S f) m) with (if m <? 10 then 1 else 1 + digits10_fuel f (m / 10)).
  destruct (Z.ltb_spec m 10) as [Hlt|Hge]; [simpl; lia|].
  assert (Hq : 1 <= m / 10) by (apply Z.div_le_lower_bound; lia).
  assert (Hq' : m / 10 < 2 ^ Z.of_nat f).
  { rewrite Nat2Z.inj_succ, Z.pow_succ_r in Hf by lia.
    apply Z.div_lt_upper_bound; lia. }
  destruct (IH (m / 10) ltac:(lia) Hq') as (Hd & Hlo & Hhi).
  set (d := digits10_fuel f (m / 10)) in *.
  replace (1 + d - 1) with (Z.succ (d - 1)) by lia.
  replace (1 + d) with (Z.succ d) by lia.
  rewrite !Z.pow_succ_r by lia.
  pose proof (Z.mul_div_le m 10 ltac:(lia)). pose proof (Z.mod_pos_bound m 10 ltac:(lia)).
  pose proof (Z.div_mod m 10 ltac:(lia)). split; [lia|]. split; nia.
Qed.

Lemma digits10_spec (m : Z) : 0 < m -> 1 <= digits10 m /\ 10 ^ (digits10 m - 1) <= m < 10 ^ digits10 m.
Proof.
  intros Hm. unfold digits10. apply digits10_fuel_spec; [exact Hm|].
  rewrite Z2Nat.id by (pose proof (Z.log2_nonneg m); lia).
  apply Z.log2_spec in Hm. rewrite Z.pow_succ_r in Hm by (apply Z.log2_nonneg).
  rewrite Z.add_1_r, Z.pow_succ_r by (apply Z.log2_nonneg). lia.
Qed.

(** The digit count is the [d] with [10^(d-1) <= m < 10^d]. *)
Lemma digits10_unique (m d : Z) : 10 ^ (d - 1) <= m < 10 ^ d -> 1 <= d -> digits10 m = d.
Proof.
  intros [Hlo Hhi] Hd.
  assert (Hm : 0 < m) by (pose proof (Z.pow_pos_nonneg 10 (d - 1) ltac:(lia) ltac:(lia)); lia).
  destruct (digits10_spec m Hm) as (Hd' & Hlo' & Hhi').
  destruct (Z.lt_trichotomy (digits10 m) d) as [Hlt|[Heq|Hgt]]; [|exact Heq|].
  - assert (10 ^ digits10 m <= 10 ^ (d - 1)) by (apply Z.pow_le_mono_r; lia). lia.
  - assert (10 ^ d <= 10 ^ (digits10 m - 1)) by (apply Z.pow_le_mono_r; lia). lia.
Qed.

(** ** Digit strings *)

Lemma all_digits_app (a b : string) : all_digits (a ++ b) = all_digits a && all_digits b.
Proof. induction a as [|c a IH]; simpl; [reflexivity|]. now rewrite IH, andb_assoc. Qed.

Lemma read_digits_app (t rest : string) (acc : Z) (n : nat) :
  all_digits t = true -> read_digits (t ++ rest) acc n = read_digits rest (dval t acc) (n + String.length t).
Proof.
  revert acc n. induction t as [|c t IH]; intros acc n Ht; simpl; [now rewrite Nat.add_0_r|].
  simpl in Ht. unfold digit_char in Ht. destruct (digit_value c) as [d|]; [|discriminate].
  rewrite IH by exact Ht. now rewrite Nat.add_succ_r.
Qed.

Lemma read_digits_stop (rest : string) (acc : Z) (n : nat) :
  no_digit_next rest = true -> read_digits rest acc n = (acc, n, rest).
Proof.
  destruct rest as [|c rest]; [reflexivity|]. simpl. unfold digit_char.
  destruct (digit_value c); [discriminate | reflexivity].
Qed.

Lemma dval_app (a b : string) (acc : Z) : all_digits a = true -> dval (a ++ b) acc = dval b (dval a acc).
Proof.
  revert acc. induction a as [|c a IH]; intros acc Ha; [reflexivity|]. simpl in *.
  unfold digit_char in Ha. destruct (digit_value c); [now apply IH | discriminate].
Qed.

Lemma dval_linear (t : string) (acc : Z) :
  all_digits t = true -> dval t acc = acc * 10 ^ Z.of_nat (String.length t) + dval t 0.
Proof.
  revert acc. induction t as [|c t IH]; intros acc Ht; [simpl; lia|].
  cbn [dval String.length all_digits] in *.
  unfold digit_char in Ht. destruct (digit_value c) as [d|]; [|discriminate].
  rewrite (IH (10 * acc + d)), (IH (10 * 0 + d)) by exact Ht.
  rewrite Nat2Z.inj_succ, Z.pow_succ_r by lia. ring.
Qed.

Lemma digit_of (d : Z) : 0 <= d < 10 -> digit_value (ascii_of_nat (48 + Z.to_nat d)) = Some d.
Proof.
  intros Hd. assert (d = 0 \/ d = 1 \/ d = 2 \/ d = 3 \/ d = 4 \/ d = 5 \/ d = 6 \/ d = 7 \/ d = 8 \/ d = 9)
    as Hc by lia.
  repeat destruct Hc as [-> | Hc]; try reflexivity. subst. reflexivity.
Qed.

(** [digits_fuel] prints [f] digits of a number with [f] digits in front
    of what it has printed so far. *)
Lemma digits_fuel_spec (f : nat) (s : Z) (acc : string) :
  0 < s -> 10 ^ (Z.of_nat f - 1) <= s < 10 ^ Z.of_nat f ->
  exists p, digits_fuel f s acc = (p ++ acc)%string /\ all_digits p = true /\
            String.length p = f /\ dval p 0 = s.
Proof.
  revert s acc. induction f as [|f IH]; intros s acc Hs [Hlo Hhi]; [simpl in Hhi; lia|].
  assert (Hdig : digit_value (ascii_of_nat (48 + Z.to_nat (s mod 10))) = Some (s mod 10))
    by (apply digit_of, Z.mod_pos_bound; lia).
  change (digits_fuel (S f) s acc) with
    (let c := ascii_of_nat (48 + Z.to_nat (s mod 10)) in
     if s <? 10 then String c acc else digits_fuel f (s / 10) (String c acc)).
  set (c := ascii_of_nat (48 + Z.to_nat (s mod 10))) in *. clearbody c. cbv zeta.
  rewrite Nat2Z.inj_succ in Hlo, Hhi.
  assert (Hc : all_digits (String c EmptyString) = true) by (simpl; unfold digit_char; now rewrite Hdig).
  destruct (Z.ltb_spec s 10) as [Hlt|Hge].
  - assert (f = 0%nat).
    { destruct f as [|f]; [reflexivity|]. rewrite Nat2Z.inj_succ in Hlo.
      replace (Z.succ (Z.succ (Z.of_nat f)) - 1) with (Z.succ (Z.of_nat f)) in Hlo by lia.
      rewrite Z.pow_succ_r in Hlo by lia. pose proof (Z.pow_pos_nonneg 10 (Z.of_nat f)). lia. }
    subst f. exists (String c EmptyString). split; [reflexivity|]. split; [exact Hc|].
    split; [reflexivity|]. cbn [dval]. rewrite Hdig, Z.mod_small by lia. lia.
  - destruct (IH (s / 10) (String c acc)) as (p & Hp & Hd & Hl & Hv).
    + apply Z.div_str_pos; lia.
    + replace (Z.succ (Z.of_nat f) - 1) with (Z.of_nat f) in Hlo by lia.
      rewrite Z.pow_succ_r in Hhi by lia. split.
      * destruct f as [|f]; [simpl in *; lia|].
        apply Z.div_le_lower_bound; [lia|]. rewrite <- Z.pow_succ_r by lia.
        replace (Z.succ (Z.of_nat (S f) - 1)) with (Z.of_nat (S f)) by lia. exact Hlo.
      * apply Z.div_lt_upper_bound; lia.
    + exists (p ++ String c EmptyString)%string.
      rewrite Hp, string_app_assoc. split; [reflexivity|].
      rewrite all_digits_app, Hd, Hc. split; [reflexivity|].
      rewrite string_length_app, Hl. split; [simpl; lia|].
      rewrite dval_app by exact Hd. cbn [dval]. rewrite Hdig, Hv.
      pose proof (Z.div_mod s 10 ltac:(lia)). lia.
Qed.

(** [Z_digits s] is a digit string of [digits10 s] digits with value [s]. *)
Lemma Z_digits_spec (s : Z) :
  0 < s -> all_digits (Z_digits s) = true /\ String.length (Z_digits s) = Z.to_nat (digits10 s) /\
           dval (Z_digits s) 0 = s.
Proof.
  intros Hs. destruct (digits10_spec s Hs) as (Hd & Hlo & Hhi).
  destruct (digits_fuel_spec (Z.to_nat (digits10 s)) s EmptyString Hs) as (p & Hp & Ha & Hl & Hv);
    [rewrite Z2Nat.id by lia; lia|].
  unfold Z_digits. rewrite Hp, string_app_empty_r. auto.
Qed.

Lemma all_digits_zeros (j : nat) : all_digits (zeros j) = true.
Proof. induction j as [|j IH]; [reflexivity|]. exact IH. Qed.

Lemma length_zeros (j : nat) : String.length (zeros j) = j.
Proof. induction j as [|j IH]; simpl; congruence. Qed.

Lemma dval_zeros (j : nat) (acc : Z) : dval (zeros j) acc = acc * 10 ^ Z.of_nat j.
Proof.
  revert acc. induction j as [|j IH]; intros acc; [simpl; lia|].
  change (dval (zeros (S j)) acc) with (dval (zeros j) (10 * acc + 0)).
  rewrite IH, Nat2Z.inj_succ, Z.pow_succ_r by lia. ring.
Qed.

(** ** Substrings of digit strings *)

Lemma substring_all (t : string) : substring 0 (String.length t) t = t.
Proof. induction t as [|c t IH]; simpl; congruence. Qed.

Lemma substring_split (t : string) (n : nat) :
  (n <= String.length t)%nat -> (substring 0 n t ++ substring n (String.length t - n) t)%string = t.
Proof.
  revert n. induction t as [|c t IH]; intros [|n] Hn; simpl in *; try lia; try reflexivity.
  - f_equal. apply substring_all.
  - f_equal. apply IH. lia.
Qed.

Lemma length_substring (t : string) (n m : nat) :
  (n + m <= String.length t)%nat -> String.length (substring n m t) = m.
Proof.
  revert n m. induction t as [|c t IH]; intros [|n] [|m] Hnm; simpl in *; try lia; try reflexivity.
  - f_equal. apply (IH 0%nat). lia.
  - apply IH. lia.
  - apply IH. lia.
Qed.

Lemma all_digits_substring (t : string) (n m : nat) :
  all_digits t = true -> all_digits (substring n m t) = true.
Proof.
  revert n m. induction t as [|c t IH]; intros [|n] [|m] Ht; simpl in *; try reflexivity.
  - apply andb_true_iff in Ht as [Hc Ht]. now rewrite Hc, IH.
  - apply andb_true_iff in Ht as [_ Ht]. now apply IH.
  - apply andb_true_iff in Ht as [_ Ht]. now apply IH.
Qed.

(** ** Reading numerals *)

Lemma digit_char_facts (c : ascii) :
  digit_char c = true ->
  is_ws c = false /\ Ascii.eqb c "-" = false /\ Ascii.eqb c "+" = false /\
  Ascii.eqb c "." = false /\ Ascii.eqb c "e" = false /\ Ascii.eqb c "E" = false /\ c <> "I"%char.
Proof.
  intros H. destruct c as [[] [] [] [] [] [] [] []]; vm_compute in H; try discriminate H;
    repeat split; first [reflexivity | discriminate].
Qed.

(** A text that starts with a digit is read by [read_unsigned]. *)
Lemma parseFloat_digit (c : ascii) (t : string) :
  digit_char c = true ->
  parseFloat (String c t) = match read_unsigned (String c t) with Some v => v | None => NaN end.
Proof.
  intros Hc. destruct (digit_char_facts c Hc) as (Hws & Hm & Hp & _).
  unfold parseFloat. simpl trim_start. rewrite Hws. simpl. now rewrite Hm, Hp.
Qed.

Lemma prefix_infinity_digit (c : ascii) (t : string) :
  digit_char c = true -> String.prefix "Infinity" (String c t) = false.
Proof.
  intros H. destruct c as [[] [] [] [] [] [] [] []]; vm_compute in H; try discriminate H; reflexivity.
Qed.

Lemma starts_with_digit_app (a b : string) :
  starts_with_digit a = true -> starts_with_digit (a ++ b) = true.
Proof. destruct a; [discriminate | exact (fun H => H)]. Qed.

Lemma read_unsigned_prefix (t : string) :
  starts_with_digit t = true ->
  read_unsigned t =
  let '(ip, ni, rest) := read_digits t 0 0 in
  let '(m, nf, rest') :=
    match rest with
    | String c after => if Ascii.eqb c "." then read_digits after ip 0 else (ip, 0%nat, rest)
    | EmptyString => (ip, 0%nat, rest)
    end in
  if Nat.eqb (ni + nf) 0 then None
  else Some (decimal_value m (read_exponent rest' - Z.of_nat nf)).
Proof.
  destruct t as [|c t]; [discriminate|]. intros Hc. unfold read_unsigned.
  now rewrite (prefix_infinity_digit c t Hc).
Qed.

(** An integer part followed by a text that is not a fraction. *)
Lemma read_unsigned_int (a r : string) :
  all_digits a = true -> starts_with_digit a = true -> no_digit_next r = true ->
  match r with String c _ => Ascii.eqb c "." = false | EmptyString => True end ->
  read_unsigned (a ++ r) = Some (decimal_value (dval a 0) (read_exponent r)).
Proof.
  intros Ha Hs Hr Hdot. rewrite read_unsigned_prefix by now apply starts_with_digit_app.
  rewrite read_digits_app, read_digits_stop by assumption.
  assert (Hl : String.length a <> 0%nat) by (destruct a; [discriminate | simpl; lia]).
  destruct r as [|c r]; [|rewrite Hdot]; simpl;
    destruct (Nat.eqb_spec (String.length a + 0) 0); try lia; f_equal; f_equal; simpl; lia.
Qed.

(** An integer part, a point, a fraction, and a text that is not a
    digit. *)
Lemma read_unsigned_frac (a b r : string) :
  all_digits a = true -> starts_with_digit a = true -> all_digits b = true -> no_digit_next r = true ->
  read_unsigned (a ++ String "." (b ++ r)) =
  Some (decimal_value (dval b (dval a 0)) (read_exponent r - Z.of_nat (String.length b))).
Proof.
  intros Ha Hs Hb Hr. rewrite read_unsigned_prefix by now apply starts_with_digit_app.
  rewrite read_digits_app by exact Ha. rewrite read_digits_stop by reflexivity.
  simpl Ascii.eqb. cbv iota beta. rewrite read_digits_app, read_digits_stop by assumption.
  assert (Hl : String.length a <> 0%nat) by (destruct a; [discriminate | simpl; lia]).
  destruct (Nat.eqb_spec (0 + String.length a + (0 + String.length b)) 0); [lia|]. reflexivity.
Qed.

Lemma parseFloat_starts_digit (t : string) :
  starts_with_digit t = true -> parseFloat t = match read_unsigned t with Some v => v | None => NaN end.
Proof. destruct t as [|c t]; [discriminate|]. apply parseFloat_digit. Qed.

Lemma starts_with_digit_all (t : string) :
  all_digits t = true -> t <> EmptyString -> starts_with_digit t = true.
Proof. destruct t as [|c t]; [contradiction|]. simpl. now intros [Hc _]%andb_true_iff. Qed.

(** The exponent part [e+v] or [e-v] of a numeral. *)
Lemma read_exponent_sci (v : Z) (neg : bool) :
  0 < v ->
  read_exponent (String "e" ((if neg then "-" else "+") ++ Z_digits v)) = if neg then - v else v.
Proof.
  intros Hv. destruct (Z_digits_spec v Hv) as (Ha & Hl & Hd).
  assert (Hn : String.length (Z_digits v) <> 0%nat)
    by (destruct (digits10_spec v Hv); rewrite Hl; lia).
  unfold read_exponent. destruct neg; cbn -[read_digits Z_digits];
    rewrite <- (string_app_empty_r (Z_digits v)), read_digits_app, read_digits_stop by (assumption || reflexivity);
    rewrite Hd; destruct (Nat.eqb_spec (0 + String.length (Z_digits v)) 0); try lia.
  all: destruct v; reflexivity.
Qed.

(** Moving a power of ten from the digits to the exponent does not
    change the Number. *)
Lemma decimal_value_shift (s : Z) (j : Z) :
  0 < s -> 0 <= j < 309 -> decimal_value (s * 10 ^ j) 0 = decimal_value s j.
Proof.
  intros Hs Hj. pose proof (Z.pow_pos_nonneg 10 j ltac:(lia) ltac:(lia)).
  pose proof (proj1 (digits10_spec s Hs)).
  pose proof (proj1 (digits10_spec (s * 10 ^ j) ltac:(nia))).
  unfold decimal_value.
  destruct (Z.eqb_spec (s * 10 ^ j) 0); [nia|]. destruct (Z.eqb_spec s 0); [lia|].
  destruct (Z.leb_spec 309 0); [lia|]. destruct (Z.leb_spec 309 j); [lia|].
  destruct (Z.leb_spec (digits10 (s * 10 ^ j) + 0) (-324)); [lia|].
  destruct (Z.leb_spec (digits10 s + j) (-324)); [lia|].
  unfold of_decimal. destruct (Z.leb_spec 0 0); [|lia]. destruct (Z.leb_spec 0 j); [|lia].
  now rewrite Z.mul_1_r.
Qed.

(** ** The four layouts read back *)

Section Layouts.
Variables s k : Z.
Hypothesis s_pos : 0 < s.
Hypothesis s_digits : digits10 s = k.

Let ds := Z_digits s.

Lemma ds_facts : all_digits ds = true /\ String.length ds = Z.to_nat k /\ dval ds 0 = s /\ 1 <= k.
Proof.
  destruct (Z_digits_spec s s_pos) as (? & ? & ?). destruct (digits10_spec s s_pos) as [? _].
  subst k. now repeat split.
Qed.

Lemma ds_start : starts_with_digit ds = true.
Proof.
  destruct ds_facts as (Ha & Hl & _ & Hk). apply starts_with_digit_all; [exact Ha|].
  intros He. rewrite He in Hl. simpl in Hl. lia.
Qed.

Lemma sub_start (m : nat) : (1 <= m)%nat -> starts_with_digit (substring 0 m ds) = true.
Proof.
  intros Hm. pose proof ds_start as Hs. pose proof (proj1 ds_facts) as Ha.
  destruct ds as [|c t]; [discriminate|]. destruct m as [|m]; [lia|]. exact Hs.
Qed.

(** [ds] followed by zeros. *)
Lemma layout_int (j : Z) :
  0 <= j < 309 -> read_unsigned (ds ++ zeros (Z.to_nat j)) = Some (decimal_value s j).
Proof.
  intros Hj. destruct ds_facts as (Ha & _ & Hv & _).
  rewrite <- (string_app_empty_r (ds ++ zeros _)), read_unsigned_int; try reflexivity.
  - rewrite dval_app, dval_zeros, Hv, Z2Nat.id by (assumption || lia). simpl read_exponent.
    f_equal. now apply decimal_value_shift.
  - now rewrite all_digits_app, Ha, all_digits_zeros.
  - apply starts_with_digit_app, ds_start.
Qed.

(** The first [n] digits, a point, the other [k - n]. *)
Lemma layout_point (n : Z) :
  0 < n < k ->
  read_unsigned (substring 0 (Z.to_nat n) ds ++ "." ++ substring (Z.to_nat n) (Z.to_nat (k - n)) ds)
  = Some (decimal_value s (n - k)).
Proof.
  intros Hn. destruct ds_facts as (Ha & Hl & Hv & Hk).
  change ("." ++ ?b)%string with (String "." b).
  rewrite <- (string_app_empty_r (substring (Z.to_nat n) _ ds)), read_unsigned_frac;
    try apply all_digits_substring; try reflexivity; try assumption; [|apply sub_start; lia].
  rewrite <- dval_app by (apply all_digits_substring, Ha).
  assert (Hm : Z.to_nat (k - n) = (String.length ds - Z.to_nat n)%nat).
  { rewrite Hl. apply Z2Nat.inj_sub. lia. }
  rewrite Hm.
  rewrite substring_split, Hv by lia. rewrite length_substring by lia.
  simpl read_exponent. do 2 f_equal. lia.
Qed.

(** [0.], zeros, the digits. *)
Lemma layout_small (n : Z) :
  -6 < n <= 0 -> read_unsigned ("0." ++ zeros (Z.to_nat (- n)) ++ ds) = Some (decimal_value s (n - k)).
Proof.
  intros Hn. destruct ds_facts as (Ha & Hl & Hv & Hk).
  change ("0." ++ ?b)%string with ("0" ++ String "." b)%string.
  rewrite <- (string_app_empty_r (zeros _ ++ ds)).
  rewrite read_unsigned_frac; [| reflexivity | reflexivity | rewrite all_digits_app, all_digits_zeros; exact Ha
                              | reflexivity].
  rewrite dval_app, dval_zeros, string_length_app, length_zeros by apply all_digits_zeros.
  change (dval "0" 0) with 0. rewrite Z.mul_0_l, Hv, Hl. simpl read_exponent. do 2 f_equal. lia.
Qed.
Lemma exponent_text (e : Z) :
  e <> 0 -> read_exponent (String "e" ((if e <? 0 then "-" else "+") ++ Z_digits (Z.abs e))) = e.
Proof.
  intros He. rewrite read_exponent_sci by lia. destruct (Z.ltb_spec e 0); lia.
Qed.

(** One digit and an exponent. *)
Lemma layout_sci1 (e : Z) :
  k = 1 -> e <> 0 ->
  read_unsigned (ds ++ "e" ++ ((if e <? 0 then "-" else "+") ++ Z_digits (Z.abs e)))
  = Some (decimal_value s e).
Proof.
  intros Hk He. destruct ds_facts as (Ha & Hl & Hv & _).
  change ("e" ++ ?b)%string with (String "e" b).
  rewrite read_unsigned_int by (reflexivity || exact Ha || apply ds_start).
  now rewrite Hv, exponent_text.
Qed.

(** A digit, a point, the other digits and an exponent. *)
Lemma layout_sci (e : Z) :
  1 < k -> e <> 0 ->
  read_unsigned (substring 0 1 ds ++ "." ++ substring 1 (Z.to_nat (k - 1)) ds ++ "e" ++
                 ((if e <? 0 then "-" else "+") ++ Z_digits (Z.abs e)))
  = Some (decimal_value s (e - (k - 1))).
Proof.
  intros Hk He. destruct ds_facts as (Ha & Hl & Hv & _).
  change ("." ++ ?b)%string with (String "." b). change ("e" ++ ?b)%string with (String "e" b).
  rewrite read_unsigned_frac; [| apply all_digits_substring, Ha | apply sub_start; lia
                              | apply all_digits_substring, Ha | reflexivity].
  rewrite <- dval_app by (apply all_digits_substring, Ha).
  assert (Hm : Z.to_nat (k - 1) = (String.length ds - 1)%nat).
  { rewrite Hl. apply (Z2Nat.inj_sub k 1). lia. }
  rewrite Hm. change 1%nat with (Z.to_nat 1) at 1 3.
  rewrite substring_split, Hv, length_substring, exponent_text by (lia || assumption).
  do 2 f_equal. lia.
Qed.
End Layouts.

(** Every layout of [k] digits [s] reads back as [s * 10^(n-k)] rounded. *)
Lemma layout_read (s n k : Z) :
  0 < s -> digits10 s = k -> read_unsigned (layout s n k) = Some (decimal_value s (n - k)).
Proof.
  intros Hs Hk. destruct (ds_facts s k Hs Hk) as (_ & _ & _ & Hk1).
  unfold layout. cbv zeta.
  destruct ((k <=? n) && (n <=? 21)) eqn:H1.
  { apply andb_true_iff in H1 as [H1 H1']. apply Z.leb_le in H1, H1'.
    apply (layout_int s k Hs Hk). lia. }
  destruct ((0 <? n) && (n <=? 21)) eqn:H2.
  { apply andb_true_iff in H2 as [H2 H2']. apply Z.ltb_lt in H2. apply Z.leb_le in H2'.
    apply (layout_point s k Hs Hk). destruct (Z.leb_spec k n); simpl in H1; [|lia].
    apply Z.leb_gt in H1. lia. }
  destruct ((-6 <? n) && (n <=? 0)) eqn:H3.
  { apply andb_true_iff in H3 as [H3 H3']. apply Z.ltb_lt in H3. apply Z.leb_le in H3'.
    apply (layout_small s k Hs Hk). lia. }
  assert (Hn : n <> 1).
  { intros ->. simpl in H2. destruct (Z.leb_spec 1 21); [|lia]. discriminate. }
  destruct (Z.eqb_spec k 1) as [Hk1'|Hk1'].
  - rewrite (layout_sci1 s k Hs Hk) by lia. do 2 f_equal. lia.
  - rewrite (layout_sci s k Hs Hk) by lia. do 2 f_equal. lia.
Qed.

Lemma layout_starts (s n k : Z) : 0 < s -> digits10 s = k -> starts_with_digit (layout s n k) = true.
Proof.
  intros Hs Hk. destruct (ds_facts s k Hs Hk) as (_ & _ & _ & Hk1).
  unfold layout. cbv zeta.
  destruct ((k <=? n) && (n <=? 21)); [apply starts_with_digit_app, (ds_start s k Hs Hk)|].
  destruct ((0 <? n) && (n <=? 21)) eqn:H2.
  { apply starts_with_digit_app, (sub_start s k Hs Hk).
    apply andb_true_iff in H2 as [H2 _]. apply Z.ltb_lt in H2. lia. }
  destruct ((-6 <? n) && (n <=? 0)); [reflexivity|].
  destruct (k =? 1); [apply starts_with_digit_app, (ds_start s k Hs Hk)|].
  apply starts_with_digit_app, (sub_start s k Hs Hk). lia.
Qed.

(** ** The decimal exponent and the candidates *)

Lemma pow10_add (a b : Z) : 0 <= a -> 0 <= b -> 10 ^ (a + b) = 10 ^ a * 10 ^ b.
Proof. intros; now apply Z.pow_add_r. Qed.

Lemma pow10_pos (a : Z) : 0 <= a -> 0 < 10 ^ a.
Proof. intros; now apply Z.pow_pos_nonneg. Qed.

(** [num / den >= 10^t] as a comparison of integers, whatever the sign
    of [t]: [ge_pow10] scales the side that needs it. *)
Lemma ge_pow10_scaled (num den t u : Z) :
  0 < den -> 0 <= u -> 0 <= t + u ->
  ge_pow10 num den t = (10 ^ (t + u) * den <=? num * 10 ^ u).
Proof.
  intros Hd Hu Htu. unfold ge_pow10. destruct (Z.leb_spec 0 t) as [Ht|Ht].
  - rewrite pow10_add by lia. pose proof (pow10_pos t Ht). pose proof (pow10_pos u Hu).
    apply eq_true_iff_eq. rewrite !Z.leb_le. split; intros; nia.
  - replace u with ((t + u) + - t) at 2 by lia. rewrite (pow10_add (t + u) (- t)) by lia.
    pose proof (pow10_pos (t + u) Htu). pose proof (pow10_pos (- t) ltac:(lia)).
    apply eq_true_iff_eq. rewrite !Z.leb_le. split; intros; nia.
Qed.

(** [dec_exponent] finds the [n] with [10^(n-1) <= num / den < 10^n]. *)
Lemma dec_exponent_spec (num den : Z) :
  0 < num -> 0 < den ->
  ge_pow10 num den (dec_exponent num den - 1) = true /\ ge_pow10 num den (dec_exponent num den) = false.
Proof.
  intros Hn Hd. destruct (digits10_spec num Hn) as (Hn1 & Hnlo & Hnhi).
  destruct (digits10_spec den Hd) as (Hd1 & Hdlo & Hdhi).
  set (dn := digits10 num) in *. set (dd := digits10 den) in *.
  set (P := 10 ^ (dn - 1)) in *. set (Q := 10 ^ (dd - 1)) in *.
  assert (HP : 10 ^ dn = 10 * P) by (unfold P; rewrite <- Z.pow_succ_r by lia; f_equal; lia).
  assert (HQ : 10 ^ dd = 10 * Q) by (unfold Q; rewrite <- Z.pow_succ_r by lia; f_equal; lia).
  assert (HQ1 : 10 ^ (dd + 1) = Q * 100)
    by (unfold Q; replace (dd + 1) with ((dd - 1) + 2) by lia; rewrite pow10_add by lia; reflexivity).
  assert (HP1 : 10 ^ (dn + 1) = P * 100)
    by (unfold P; replace (dn + 1) with ((dn - 1) + 2) by lia; rewrite pow10_add by lia; reflexivity).
  assert (HP2 : 10 ^ (dn + 2) = P * 1000)
    by (unfold P; replace (dn + 2) with ((dn - 1) + 3) by lia; rewrite pow10_add by lia; reflexivity).
  assert (Hlow : ge_pow10 num den (dn - dd - 1) = true).
  { rewrite (ge_pow10_scaled _ _ _ (dd + 1)) by lia. replace (dn - dd - 1 + (dd + 1)) with dn by lia.
    rewrite HP, HQ1. apply Z.leb_le. rewrite HQ in Hdhi. nia. }
  assert (Hhigh : ge_pow10 num den (dn - dd + 1) = false).
  { rewrite (ge_pow10_scaled _ _ _ (dd + 1)) by lia. replace (dn - dd + 1 + (dd + 1)) with (dn + 2) by lia.
    rewrite HP2, HQ1. apply Z.leb_gt. rewrite HP in Hnhi. nia. }
  unfold dec_exponent. fold dn dd.
  destruct (ge_pow10 num den (dn - dd)) eqn:Hmid.
  - replace (dn - dd + 1 - 1) with (dn - dd) by lia. now split.
  - now split.
Qed.

(** Scaled by [10^(k-n)], the value lies between [10^(k-1)] and [10^k]. *)
Lemma scale10_bounds (num den k : Z) :
  0 < num -> 0 < den -> 1 <= k ->
  let n := dec_exponent num den in
  let '(a, b) := scale10 num den (k - n) in
  0 < b /\ 10 ^ (k - 1) * b <= a < 10 ^ k * b.
Proof.
  intros Hn Hd Hk n. destruct (dec_exponent_spec num den Hn Hd) as [Hlo Hhi]. fold n in Hlo, Hhi.
  unfold scale10. destruct (Z.leb_spec 0 (k - n)) as [Hkn|Hkn].
  - rewrite (ge_pow10_scaled _ _ _ (k - n)) in Hlo by lia.
    rewrite (ge_pow10_scaled _ _ _ (k - n)) in Hhi by lia.
    replace (n - 1 + (k - n)) with (k - 1) in Hlo by lia. replace (n + (k - n)) with k in Hhi by lia.
    apply Z.leb_le in Hlo. apply Z.leb_gt in Hhi. repeat split; lia.
  - rewrite (ge_pow10_scaled _ _ _ 0) in Hlo by lia. rewrite (ge_pow10_scaled _ _ _ 0) in Hhi by lia.
    rewrite !Z.add_0_r, Z.mul_1_r in Hlo. rewrite !Z.add_0_r, Z.mul_1_r in Hhi.
    apply Z.leb_le in Hlo. apply Z.leb_gt in Hhi.
    assert (Hp : 0 < 10 ^ (- (k - n))) by (apply pow10_pos; lia).
    replace (10 ^ (n - 1)) with (10 ^ (k - 1) * 10 ^ (- (k - n))) in Hlo
      by (rewrite <- pow10_add by lia; f_equal; lia).
    replace (10 ^ n) with (10 ^ k * 10 ^ (- (k - n))) in Hhi by (rewrite <- pow10_add by lia; f_equal; lia).
    repeat split; nia.
Qed.

(** Every candidate has [k] digits and rounds to [x]. *)
Lemma candidates_spec (x : number) (num den k s n : Z) :
  0 < num -> 0 < den -> 1 <= k -> In (s, n) (candidates x num den k) ->
  decimal_value s (n - k) = x /\ 10 ^ (k - 1) <= s < 10 ^ k.
Proof.
  intros Hn Hd Hk Hin. pose proof (scale10_bounds num den k Hn Hd Hk) as Hb.
  unfold candidates in Hin. cbv zeta in Hb, Hin.
  destruct (scale10 num den (k - dec_exponent num den)) as [a b].
  destruct Hb as (Hb & Hlo & Hhi).
  apply filter_In in Hin as [Hin Hx].
  split; [destruct (number_eq_dec (decimal_value s (n - k)) x); [assumption | discriminate]|].
  assert (Hq : 10 ^ (k - 1) <= a / b < 10 ^ k).
  { split; [apply Z.div_le_lower_bound | apply Z.div_lt_upper_bound]; lia. }
  assert (Hpk : 10 ^ (k - 1) < 10 ^ k) by (apply Z.pow_lt_mono_r; lia).
  assert (Hup : forall s' n', (s', n') = (if a / b + 1 =? 10 ^ k then (10 ^ (k - 1), dec_exponent num den + 1)
                                           else (a / b + 1, dec_exponent num den)) ->
                              10 ^ (k - 1) <= s' < 10 ^ k).
  { intros s' n' Heq. destruct (Z.eqb_spec (a / b + 1) (10 ^ k)); injection Heq as -> ->; lia. }
  assert (Hcases : (s, n) = (a / b, dec_exponent num den) \/
                   (s, n) = (if a / b + 1 =? 10 ^ k then (10 ^ (k - 1), dec_exponent num den + 1)
                             else (a / b + 1, dec_exponent num den))).
  { destruct (a mod b =? 0); [|destruct (_ || _)%bool]; simpl in Hin;
      repeat destruct Hin as [Hin|Hin]; try contradiction; (left; congruence) || (right; congruence). }
  destruct Hcases as [Heq|Heq]; [injection Heq as -> ->; lia | exact (Hup s n Heq)].
Qed.

Lemma shortest_spec (x : number) (num den k0 : Z) (fuel : nat) (s n k : Z) :
  shortest x num den k0 fuel = Some (s, n, k) -> k0 <= k /\ In (s, n) (candidates x num den k).
Proof.
  revert k0. induction fuel as [|fuel IH]; intros k0 Hs; [discriminate|]. simpl in Hs.
  destruct (candidates x num den k0) as [|[s' n'] rest] eqn:Hc.
  - destruct (IH (k0 + 1) Hs). split; [lia | assumption].
  - injection Hs as <- <- <-. rewrite Hc. split; [lia | now left].
Qed.

Lemma pos_ratio_pos (m : positive) (e : Z) : 0 < fst (pos_ratio m e) /\ 0 < snd (pos_ratio m e).
Proof.
  unfold pos_ratio. pose proof (Z.pow_pos_nonneg 2 e) as H1. pose proof (Z.pow_pos_nonneg 2 (- e)) as H2.
  destruct (Z.leb_spec 0 e); cbn [fst snd]; split; nia.
Qed.

Lemma parseFloat_minus (t : string) (v : number) :
  read_unsigned t = Some v -> parseFloat (String "-" t) = js_neg v.
Proof. intros Ht. unfold parseFloat. simpl. now rewrite Ht. Qed.

(** What Number::toString prints for a finite Number whose digits the
    search finds: its sign, then the layout of [k] digits [s] with
    decimal exponent [n], where [s * 10^(n-k)] rounds to its magnitude. *)
Lemma toString_finite_layout (sg : bool) (m : positive) (e : Z) :
  digits_found (S754_finite sg m e) = true ->
  exists s n k, 0 < s /\ digits10 s = k /\
    Number_toString (S754_finite sg m e) = ((if sg then "-" else "") ++ layout s n k)%string /\
    decimal_value s (n - k) = S754_finite false m e.
Proof.
  unfold Number_toString, digits_found. intros Hd.
  pose proof (pos_ratio_pos m e) as [Hnum Hden].
  destruct (pos_ratio m e) as [num den]. simpl in Hnum, Hden.
  destruct (shortest (S754_finite false m e) num den 1 17) as [[[s n] k]|] eqn:Hs; [|discriminate].
  destruct (shortest_spec _ _ _ _ _ _ _ _ Hs) as [Hk Hin].
  destruct (candidates_spec _ _ _ _ _ _ Hnum Hden Hk Hin) as [Hv Hb].
  assert (Hpos : 0 < s) by (pose proof (Z.pow_pos_nonneg 10 (k - 1) ltac:(lia) ltac:(lia)); lia).
  exists s, n, k. repeat split; try assumption. apply digits10_unique; [exact Hb | lia].
Qed.

(** The round trip: reading back what Number::toString prints gives the
    Number, except for [-0], printed ["0"]; for a finite Number, provided
    the digit search (1 to 17 digits) finds its digits. *)
Theorem Number_toString_roundtrip (x : number) :
  x <> S754_zero true -> digits_found x = true ->
  parseFloat (Number_toString x) = x.
Proof.
  intros Hz Hd. destruct x as [[]|[]| |sg m e];
    [contradiction | vm_compute; reflexivity .. |].
  destruct (toString_finite_layout sg m e Hd) as (s & n & k & Hpos & Hdig & -> & Hv).
  pose proof (layout_read s n k Hpos Hdig) as Hr. rewrite Hv in Hr.
  destruct sg; simpl.
  - now rewrite (parseFloat_minus _ _ Hr).
  - rewrite parseFloat_starts_digit by now apply layout_starts. now rewrite Hr.
Qed.
