(* ===== verification/Evaluate.v ===== *)
(** * Evaluating the user's expression: [evaluateFunction] and [derivative]

    [evaluateFunction(eq, x)] (src/index.js, lines 138-144) is
<<
    try { return math.evaluate(eq.replace(/x/g, x)); }
    catch (e) { return NaN; }
>>
    Two pieces of it are not code of the repository and are interfaces
    here: the math.js library ([MathEvaluate]: a string either evaluates
    to a Number or throws, [None]) and the conversion of the Number [x] to
    the replacement string, which ECMAScript's [String.prototype.replace]
    does with Number::toString ([NumberToString]).  The substitution
    itself is modelled as the code performs it: every character ['x'] of
    the text is replaced, wherever it occurs ([replace_x]).

    [derivative(eq, x, h)] (lines 147-151) is the central difference over
    any [Arith] carrier ([central_difference]); the program's derivative
    is its instance on [evaluateFunction eq]. *)

From Stdlib Require Import ZArith String Ascii List Bool Lia.
From S2P Require Import Prelude Binary64 NumberString.
Import ListNotations.

Local Open Scope string_scope.

(** ** The interfaces of the external collaborators *)

(** [math.evaluate] on a string: [Some v] when it returns the Number [v],
    [None] when it throws. *)
Class MathEvaluate := math_evaluate : string -> option number.

(** Number::toString (radix 10), the string [replace] substitutes. *)
Class NumberToString := number_to_string : number -> string.

(** JavaScript's own conversion, modelled in [NumberString]. *)
#[export] Instance js_number_to_string : NumberToString := Number_toString.

(** ** The substitution [eq.replace(/x/g, r)] *)

(** The regular expression [/x/g] matches each single character ['x'];
    each match is replaced by [r] (a number's string never contains [$],
    so no replacement pattern applies). *)
Fixpoint replace_x (eq r : string) : string :=
  match eq with
  | EmptyString => EmptyString
  | String c rest =>
      if Ascii.eqb c "x"%char then r ++ replace_x rest r
      else String c (replace_x rest r)
  end.

(** Whether a string contains the character ['x']. *)
Fixpoint has_x (s : string) : bool :=
  match s with
  | EmptyString => false
  | String c rest => Ascii.eqb c "x"%char || has_x rest
  end.

Section EvaluateFunction.
Context `{MathEvaluate} `{NumberToString}.

Definition evaluateFunction (eq : string) (x : number) : number :=
  match math_evaluate (replace_x eq (number_to_string x)) with
  | Some v => v
  | None => NaN
  end.
End EvaluateFunction.

(** ** The central difference *)

Section CentralDifference.
Context {N : Type} `{Arith N}.
Local Open Scope nm_scope.

(** [const f1 = f(x + h); const f2 = f(x - h); return (f1 - f2) / (2 * h);] *)
Definition central_difference (f : N -> N) (x h : N) : N :=
  let f1 := f (x + h) in
  let f2 := f (x - h) in
  (f1 - f2) / (n_lit 2 0 * h).

(** The step [h = 1e-5], the default the program always uses. *)
Definition derivative_step : N := n_lit 1 (-5).
End CentralDifference.

(** The program's [derivative(eq, x)]: its default [h = 1e-5]. *)
Definition derivative `{MathEvaluate} `{NumberToString} (eq : string) (x : number) : number :=
  central_difference (evaluateFunction eq) x derivative_step.

(** ** Lemmas on the substitution *)

Lemma replace_x_app (a b r : string) :
  replace_x (a ++ b) r = replace_x a r ++ replace_x b r.
Proof.
  induction a as [|c a IH]; simpl; [reflexivity|].
  rewrite IH. destruct (Ascii.eqb c "x"%char); [symmetry; apply string_app_assoc | reflexivity].
Qed.

Lemma has_x_app (a b : string) : has_x (a ++ b) = has_x a || has_x b.
Proof. induction a as [|c a IH]; simpl; [reflexivity|]. now rewrite IH, orb_assoc. Qed.

Lemma replace_x_no_x (eq r : string) : has_x eq = false -> replace_x eq r = eq.
Proof.
  induction eq as [|c eq IH]; simpl; [reflexivity|].
  intros Hx. apply orb_false_iff in Hx as [Hc Hrest]. rewrite Hc, IH; auto.
Qed.

(** Number::toString writes digits, [.], [e], signs, [NaN] and
    [Infinity]: never an ['x']. *)
Lemma digit_char_not_x (d : nat) : d < 10 -> Ascii.eqb (ascii_of_nat (48 + d)) "x"%char = false.
Proof.
  intros Hd. destruct (Ascii.eqb_spec (ascii_of_nat (48 + d)) "x"%char) as [E|]; [|reflexivity].
  apply (f_equal nat_of_ascii) in E. rewrite nat_ascii_embedding in E by lia. change (nat_of_ascii "x"%char) with 120 in E. lia.
Qed.

Lemma has_x_digits_fuel (f : nat) (s : Z) (acc : string) :
  has_x (digits_fuel f s acc) = has_x acc.
Proof.
  revert s acc. induction f as [|f IH]; intros s acc; [reflexivity|]. cbn [digits_fuel].
  assert (Hc : has_x (String (ascii_of_nat (48 + Z.to_nat (s mod 10))) acc) = has_x acc).
  { cbn [has_x]. rewrite digit_char_not_x; [reflexivity|].
    pose proof (Z.mod_pos_bound s 10 ltac:(lia)). lia. }
  destruct (s <? 10)%Z; [exact Hc | now rewrite IH].
Qed.

Lemma has_x_Z_digits (s : Z) : has_x (Z_digits s) = false.
Proof. unfold Z_digits. now rewrite has_x_digits_fuel. Qed.

Lemma has_x_substring (t : string) (i j : nat) : has_x t = false -> has_x (substring i j t) = false.
Proof.
  revert i j. induction t as [|c t IH]; intros [|i] [|j] Ht; try reflexivity; simpl in *.
  - apply orb_false_iff in Ht as [Hc Ht]. now rewrite Hc, IH.
  - apply orb_false_iff in Ht as [_ Ht]. now apply IH.
  - apply orb_false_iff in Ht as [_ Ht]. now apply IH.
Qed.

Lemma has_x_zeros (j : nat) : has_x (zeros j) = false.
Proof. induction j as [|j IH]; [reflexivity | exact IH]. Qed.

Create Rewrite HintDb has_x_rw.
#[export] Hint Rewrite has_x_app has_x_Z_digits has_x_zeros : has_x_rw.

Lemma has_x_layout (s n k : Z) : has_x (layout s n k) = false.
Proof.
  pose proof (has_x_Z_digits s) as Hd. unfold layout. cbv zeta.
  repeat match goal with |- context [if ?b then _ else _] => destruct b end;
    autorewrite with has_x_rw; rewrite ?has_x_substring by exact Hd; reflexivity.
Qed.

Lemma has_x_Number_toString (x : number) : has_x (Number_toString x) = false.
Proof.
  destruct x as [[]|[]| |sg m e]; try reflexivity. unfold Number_toString.
  destruct (pos_ratio m e) as [num den]. destruct (shortest _ _ _ _ _) as [[[s n] k]|];
    rewrite has_x_app, has_x_layout; now destruct sg.
Qed.

(** ** Properties *)

(** The substitution is complete: when the replacement text has no
    ['x'] (true of every Number's string: digits, [.], [e], [+], [-],
    [NaN], [Infinity]), no ['x'] is left in the text handed to math.js. *)
Theorem replace_x_complete (eq r : string) :
  has_x r = false -> has_x (replace_x eq r) = false.
Proof.
  intros Hr. induction eq as [|c eq IH]; simpl; [reflexivity|].
  destruct (Ascii.eqb c "x"%char) eqn:Ec; simpl.
  - now rewrite has_x_app, Hr, IH.
  - now rewrite Ec, IH.
Qed.

Lemma replace_x_complete_witness :
  has_x "2" = false /\ has_x (replace_x "x^2-x" "2") = false.
Proof. split; [reflexivity | apply replace_x_complete; reflexivity]. Defined.

(** An expression text without the character ['x'] is evaluated to
    the same value at every point: [evaluateFunction eq] is a constant
    function (the Number's text is never inserted). *)
Theorem evaluateFunction_constant `{MathEvaluate} `{NumberToString} (eq : string) (x y : number) :
  has_x eq = false -> evaluateFunction eq x = evaluateFunction eq y.
Proof. intros Hx. unfold evaluateFunction. now rewrite !replace_x_no_x by exact Hx. Qed.

(** C33: after [eq.replace(/x/g, x)] no character ['x'] is left in the
    text math.js evaluates, for every formula and every Number: the
    replacement is global, and no string Number::toString prints
    contains an ['x'].  The substitution is textual, not syntactic: an
    ['x'] inside an identifier ([exp], [max]) is replaced as well. *)
Theorem replace_x_leaves_no_x (eq : string) (x : number) :
  has_x (replace_x eq (Number_toString x)) = false.
Proof. apply replace_x_complete, has_x_Number_toString. Qed.

(** The central difference propagates the undefined value: if either
    sample [f(x+h)] or [f(x-h)] is NaN, the derivative is NaN. *)
Theorem central_difference_nan (f : number -> number) (x h : number) :
  f (x + h)%nm = NaN \/ f (x - h)%nm = NaN -> central_difference f x h = NaN.
Proof.
  unfold central_difference. intros [E | E]; rewrite E; autorewrite with nm_rw; reflexivity.
Qed.

Lemma central_difference_nan_witness :
  ((fun _ : number => NaN) (of_decimal 1 0 + of_decimal 1 (-5))%nm = NaN
   \/ (fun _ : number => NaN) (of_decimal 1 0 - of_decimal 1 (-5))%nm = NaN)
  /\ central_difference (fun _ => NaN) (of_decimal 1 0) (of_decimal 1 (-5)) = NaN.
Proof.
  split; [left; reflexivity|].
  apply (central_difference_nan (fun _ => NaN) (of_decimal 1 0) (of_decimal 1 (-5))).
  left; reflexivity.
Defined.

Lemma evaluateFunction_constant_witness :
  has_x "2+3" = false /\
  @evaluateFunction (fun _ => None) (fun _ => EmptyString) "2+3" NaN
  = @evaluateFunction (fun _ => None) (fun _ => EmptyString) "2+3" Infinity.
Proof.
  split; [reflexivity|].
  apply (@evaluateFunction_constant (fun _ => None) (fun _ => EmptyString) "2+3" NaN Infinity).
  reflexivity.
Defined.
