(* ===== verification/MathJs.v ===== *)
(** * A fragment of math.js, as an instance of [MathEvaluate]

    [math.evaluate] is a library the program calls, not code of the
    repository.  To run the program end to end, this file gives an
    evaluator for a fragment of math.js's expression language, written
    from math.js's documented syntax and operator precedence:
<<
      expr    ::= term (('+' | '-') term)*          left associative
      term    ::= unary (('*' | '/') unary)*        left associative
      unary   ::= ('-' | '+') unary | power
      power   ::= primary ['^' unary]               binds tighter than unary minus
      primary ::= number | NaN | Infinity | '(' expr ')'
>>
    Numbers are decimal literals ([1.5], [.5], [1e-7], [1.5e+21]) rounded
    to the nearest Number, as math.js does with [Number(text)]; arithmetic
    is binary64.  Powers are limited to the exponent 2, computed as
    [a * a] (what [Math.pow(a, 2)] returns).  Any other text (identifiers,
    functions, implicit multiplication, other exponents) is outside the
    fragment and makes the evaluator fail ([None]), as a thrown exception
    would.  The point of the fragment is the precedence of unary minus:
    in math.js [-1^2] is [-(1^2) = -1].

    The second part shows that the fragment reads back every text
    Number::toString prints as the Number printed ([-0] apart, printed
    [0]): [read_number] reads each of the four layouts of
    [NumberString.layout] whole, with the value [read_unsigned] gives it,
    so the substitution [eq.replace(/x/g, x)] loses nothing. *)

From Stdlib Require Import ZArith String Ascii List Bool Lia SpecFloat.
From S2P Require Import Prelude Binary64 NumberString NumberRoundTrip Evaluate.
Import ListNotations.
Local Open Scope Z_scope.

Inductive token : Type :=
  | TNum (v : number)
  | TIdent (name : string)
  | TSym (c : ascii).

Definition is_letter (c : ascii) : bool :=
  let n := nat_of_ascii c in
  ((Nat.leb 65 n && Nat.leb n 90) || (Nat.leb 97 n && Nat.leb n 122) || Nat.eqb n 95)%bool.

Definition is_digit (c : ascii) : bool :=
  match digit_value c with Some _ => true | None => false end.

(** An identifier: the longest run of letters. *)
Fixpoint read_ident (s : string) (acc : string) : string * string :=
  match s with
  | String c rest => if is_letter c then read_ident rest (acc ++ String c EmptyString)%string else (acc, s)
  | EmptyString => (acc, s)
  end.

(** A number literal at the start of [s]: digits, an optional fraction,
    an optional exponent; its value and the rest of the text. *)
Definition read_number (s : string) : option (number * string) :=
  let '(ip, ni, rest) := read_digits s 0 0 in
  let '(m, nf, rest') :=
    match rest with
    | String c after => if Ascii.eqb c "." then read_digits after ip 0 else (ip, 0%nat, rest)
    | EmptyString => (ip, 0%nat, rest)
    end in
  if Nat.eqb (ni + nf) 0 then None
  else
    let '(ex, rest'') :=
      match rest' with
      | String c after =>
          if (Ascii.eqb c "e" || Ascii.eqb c "E")%bool then
            let '(sg, body) :=
              match after with
              | String c' after' =>
                  if Ascii.eqb c' "+" then (1, after')
                  else if Ascii.eqb c' "-" then (-1, after') else (1, after)
              | EmptyString => (1, after)
              end in
            let '(v, n, r) := read_digits body 0 0 in
            if Nat.eqb n 0 then (0, rest') else (sg * v, r)
          else (0, rest')
      | EmptyString => (0, rest')
      end in
    Some (decimal_value m (ex - Z.of_nat nf), rest'').

(** The tokens of a text; [fuel] bounds the number of tokens. *)
Fixpoint tokenize (fuel : nat) (s : string) : option (list token) :=
  match fuel with
  | O => None
  | S fuel' =>
      match s with
      | EmptyString => Some []
      | String c rest =>
          if is_ws c then tokenize fuel' rest
          else if is_digit c || Ascii.eqb c "." then
            match read_number s with
            | Some (v, rest') => option_map (cons (TNum v)) (tokenize fuel' rest')
            | None => None
            end
          else if is_letter c then
            let '(name, rest') := read_ident s EmptyString in
            option_map (cons (TIdent name)) (tokenize fuel' rest')
          else option_map (cons (TSym c)) (tokenize fuel' rest)
      end
  end.

(** [a ^ b] within the fragment. *)
Definition pow_fragment (a b : number) : option number :=
  if number_eq_dec b (of_decimal 2 0) then Some (js_mul a a) else None.

Local Open Scope char_scope.

Fixpoint p_expr (fuel : nat) (ts : list token) : option (number * list token) :=
  match fuel with
  | O => None
  | S f => match p_term f ts with Some (v, r) => p_expr_tail f v r | None => None end
  end
with p_expr_tail (fuel : nat) (acc : number) (ts : list token) : option (number * list token) :=
  match fuel with
  | O => None
  | S f =>
      match ts with
      | TSym "+" :: r => match p_term f r with Some (v, r') => p_expr_tail f (js_add acc v) r' | None => None end
      | TSym "-" :: r => match p_term f r with Some (v, r') => p_expr_tail f (js_sub acc v) r' | None => None end
      | _ => Some (acc, ts)
      end
  end
with p_term (fuel : nat) (ts : list token) : option (number * list token) :=
  match fuel with
  | O => None
  | S f => match p_unary f ts with Some (v, r) => p_term_tail f v r | None => None end
  end
with p_term_tail (fuel : nat) (acc : number) (ts : list token) : option (number * list token) :=
  match fuel with
  | O => None
  | S f =>
      match ts with
      | TSym "*" :: r => match p_unary f r with Some (v, r') => p_term_tail f (js_mul acc v) r' | None => None end
      | TSym "/" :: r => match p_unary f r with Some (v, r') => p_term_tail f (js_div acc v) r' | None => None end
      | _ => Some (acc, ts)
      end
  end
with p_unary (fuel : nat) (ts : list token) : option (number * list token) :=
  match fuel with
  | O => None
  | S f =>
      match ts with
      | TSym "-" :: r => match p_unary f r with Some (v, r') => Some (js_neg v, r') | None => None end
      | TSym "+" :: r => p_unary f r
      | _ => p_power f ts
      end
  end
with p_power (fuel : nat) (ts : list token) : option (number * list token) :=
  match fuel with
  | O => None
  | S f =>
      match p_primary f ts with
      | Some (a, TSym "^" :: r) =>
          match p_unary f r with
          | Some (b, r') => match pow_fragment a b with Some v => Some (v, r') | None => None end
          | None => None
          end
      | res => res
      end
  end
with p_primary (fuel : nat) (ts : list token) : option (number * list token) :=
  match fuel with
  | O => None
  | S f =>
      match ts with
      | TNum v :: r => Some (v, r)
      | TIdent name :: r =>
          if String.eqb name "NaN" then Some (NaN, r)
          else if String.eqb name "Infinity" then Some (Infinity, r)
          else None
      | TSym "(" :: r =>
          match p_expr f r with
          | Some (v, TSym ")" :: r') => Some (v, r')
          | _ => None
          end
      | _ => None
      end
  end.

(** The fragment's [math.evaluate]: the whole text must be one
    expression.  A token opens at most six nested calls (an operator one
    tail call, a parenthesis the five calls down to [p_primary]), so the
    call depth stays below [8 * (tokens + 1)]. *)
Definition mathjs_fragment_evaluate (s : string) : option number :=
  match tokenize (S (String.length s)) s with
  | Some ts =>
      match p_expr (8 * S (length ts)) ts with
      | Some (v, []) => Some v
      | _ => None
      end
  | None => None
  end.

Definition mathjs_fragment : MathEvaluate := mathjs_fragment_evaluate.

(** ** The fragment reads back what Number::toString prints *)

Local Close Scope char_scope.

(** An exponent part as Number::toString writes it: none, or [e], a sign
    and the digits of a non-zero exponent. *)
Definition exp_text (ex : string) : Prop :=
  ex = EmptyString \/
  exists e, e <> 0 /\ ex = String "e" ((if e <? 0 then "-" else "+") ++ Z_digits (Z.abs e)).

(** A text that cannot continue a numeral: empty, or starting with a
    character that is neither a digit, nor a point, nor [e] or [E]. *)
Definition numeral_end (r : string) : bool :=
  match r with
  | EmptyString => true
  | String c _ =>
      negb (digit_char c) && negb (Ascii.eqb c ".") && negb (Ascii.eqb c "e") && negb (Ascii.eqb c "E")
  end.

(** The fuel each parsing function needs on [l] tokens: a token opens at
    most five nested calls below [p_expr] (a parenthesis: [p_expr],
    [p_term], [p_unary], [p_power], [p_primary]) and an operator one tail
    call, so [8] per token is enough; [p_expr]'s bound [8 * (l + 1)] is the
    one [mathjs_fragment_evaluate] gives. *)
Definition fuel_expr (l : nat) : nat := (8 * l + 8)%nat.
Definition fuel_tail (l : nat) : nat := (8 * l + 1)%nat.
Definition fuel_term (l : nat) : nat := (8 * l + 7)%nat.
Definition fuel_unary (l : nat) : nat := (8 * l + 6)%nat.
Definition fuel_power (l : nat) : nat := (8 * l + 5)%nat.
Definition fuel_primary (l : nat) : nat := (8 * l + 4)%nat.

Lemma read_digits_all (t : string) (acc : Z) (n : nat) :
  all_digits t = true -> read_digits t acc n = (dval t acc, (n + String.length t)%nat, EmptyString).
Proof.
  intros H. rewrite <- (string_app_empty_r t) at 1. now rewrite read_digits_app by exact H.
Qed.

Lemma read_number_unsigned (s : string) :
  String.prefix "Infinity" s = false -> option_map fst (read_number s) = read_unsigned s.
Proof.
  intros H. unfold read_number, read_unsigned. rewrite H.
  destruct (read_digits s 0 0) as [[ip ni] rest].
  destruct (match rest with String c after => _ | EmptyString => _ end) as [[m nf] rest'].
  destruct (Nat.eqb (ni + nf) 0); [reflexivity|]. unfold read_exponent.
  destruct rest' as [|c after]; [reflexivity|]. destruct (Ascii.eqb c "e" || Ascii.eqb c "E")%bool; [|reflexivity].
  destruct (match after with String c' after' => _ | EmptyString => _ end) as [sg body].
  destruct (read_digits body 0 0) as [[v n] r]. now destruct (Nat.eqb n 0).
Qed.

Lemma Z_digits_nonempty (v : Z) :
  0 < v -> all_digits (Z_digits v) = true /\ String.length (Z_digits v) <> 0%nat.
Proof.
  intros Hv. destruct (Z_digits_spec v Hv) as (Ha & Hl & _). destruct (digits10_spec v Hv).
  split; [exact Ha | rewrite Hl; lia].
Qed.

Ltac nat_eqb_nonzero :=
  match goal with |- context [Nat.eqb ?x 0] => destruct (Nat.eqb_spec x 0); [lia|] end.

Lemma numeral_end_facts (r : string) :
  numeral_end r = true ->
  no_digit_next r = true /\
  match r with
  | String c _ => Ascii.eqb c "." = false /\ (Ascii.eqb c "e" || Ascii.eqb c "E")%bool = false
  | EmptyString => True
  end.
Proof.
  destruct r as [|c r]; [split; reflexivity|]. cbn [numeral_end no_digit_next].
  intros H. repeat rewrite andb_true_iff in H. destruct H as [[[Hd Hdot] He] HE].
  apply negb_true_iff in Hdot, He, HE. rewrite Hdot, He, HE. auto.
Qed.

(** The exponent part of a numeral followed by a text that ends it. *)
Ltac read_exponent_tail e :=
  destruct (Z_digits_nonempty (Z.abs e) ltac:(lia));
  destruct (e <? 0); cbn -[read_digits Z_digits dval String.length];
  rewrite read_digits_app, read_digits_stop by assumption; nat_eqb_nonzero; reflexivity.

(** The text after a numeral without exponent: its first character is
    neither a point nor an exponent mark. *)
Ltac read_end r Hnot :=
  destruct r as [|c r']; [reflexivity|]; destruct Hnot as [Hdot Hexp];
  cbn -[read_digits Z_digits dval String.length]; rewrite ?Hdot, ?Hexp; reflexivity.

Lemma read_number_whole (a b ex : string) (frac : bool) :
  all_digits a = true -> a <> EmptyString -> all_digits b = true -> exp_text ex ->
  exists v, forall r, numeral_end r = true ->
    read_number (a ++ (if frac then String "." (b ++ ex ++ r) else ex ++ r)) = Some (v, r).
Proof.
  intros Ha Hne Hb Hex.
  assert (Hl : String.length a <> 0%nat) by (destruct a; [contradiction | simpl; lia]).
  destruct frac, Hex as [->|(e & He & ->)];
    [eexists
    | exists (decimal_value (dval b (dval a 0))
               ((if e <? 0 then -1 else 1) * dval (Z_digits (Z.abs e)) 0 - Z.of_nat (0 + String.length b)))
    | eexists
    | exists (decimal_value (dval a 0) ((if e <? 0 then -1 else 1) * dval (Z_digits (Z.abs e)) 0 - Z.of_nat 0))];
    intros r Hr;
    destruct (numeral_end_facts r Hr) as [Hnd Hnot];
    unfold read_number; rewrite read_digits_app by exact Ha.
  - rewrite read_digits_stop by reflexivity. cbn -[read_digits Z_digits dval String.length].
    rewrite read_digits_app, read_digits_stop by assumption.
    cbn -[read_digits Z_digits dval String.length]. nat_eqb_nonzero. read_end r Hnot.
  - rewrite read_digits_stop by reflexivity. cbn -[read_digits Z_digits dval String.length].
    rewrite read_digits_app, read_digits_stop by (assumption || reflexivity).
    cbn -[read_digits Z_digits dval String.length]. nat_eqb_nonzero. read_exponent_tail e.
  - cbn [append]. rewrite read_digits_stop by assumption.
    destruct r as [|c r']; [cbn -[read_digits Z_digits dval String.length]; nat_eqb_nonzero; reflexivity|].
    destruct Hnot as [Hdot Hexp]. cbn -[read_digits Z_digits dval String.length].
    rewrite Hdot. nat_eqb_nonzero. rewrite Hexp. reflexivity.
  - rewrite read_digits_stop by reflexivity.
    cbn -[read_digits Z_digits dval String.length]. nat_eqb_nonzero. read_exponent_tail e.
Qed.

Lemma start_nonempty (t : string) : starts_with_digit t = true -> t <> EmptyString.
Proof. now destruct t. Qed.

Lemma layout_shape (s n k : Z) :
  0 < s -> digits10 s = k ->
  exists a b ex (frac : bool),
    layout s n k = (a ++ (if frac then String "." (b ++ ex) else ex))%string /\
    all_digits a = true /\ a <> EmptyString /\ all_digits b = true /\ exp_text ex.
Proof.
  intros Hs Hk. destruct (ds_facts s k Hs Hk) as (Ha & Hl & _ & Hk1).
  pose proof (ds_start s k Hs Hk) as Hst. pose proof (sub_start s k Hs Hk) as Hsub.
  unfold layout. cbv zeta.
  destruct ((k <=? n) && (n <=? 21)) eqn:H1.
  { exists (Z_digits s ++ zeros (Z.to_nat (n - k)))%string, EmptyString, EmptyString, false.
    rewrite string_app_empty_r, all_digits_app, Ha, all_digits_zeros.
    repeat split; [apply start_nonempty, starts_with_digit_app, Hst | now left]. }
  destruct ((0 <? n) && (n <=? 21)) eqn:H2.
  { exists (substring 0 (Z.to_nat n) (Z_digits s)), (substring (Z.to_nat n) (Z.to_nat (k - n)) (Z_digits s)),
      EmptyString, true.
    rewrite string_app_empty_r, !all_digits_substring by exact Ha.
    apply andb_true_iff in H2 as [H2 _]. apply Z.ltb_lt in H2.
    repeat split; [apply start_nonempty, Hsub; lia | now left]. }
  destruct ((-6 <? n) && (n <=? 0)) eqn:H3.
  { exists "0"%string, (zeros (Z.to_nat (- n)) ++ Z_digits s)%string, EmptyString, true.
    rewrite string_app_empty_r, all_digits_app, Ha, all_digits_zeros.
    repeat split; [discriminate | now left]. }
  assert (He : n - 1 <> 0).
  { intros He. replace n with 1 in H2 by lia. discriminate. }
  destruct (k =? 1).
  - exists (Z_digits s), EmptyString, (String "e" ((if n - 1 <? 0 then "-" else "+") ++ Z_digits (Z.abs (n - 1)))), false.
    repeat split; [exact Ha | apply start_nonempty, Hst | right; now exists (n - 1)].
  - exists (substring 0 1 (Z_digits s)), (substring 1 (Z.to_nat (k - 1)) (Z_digits s)),
      (String "e" ((if n - 1 <? 0 then "-" else "+") ++ Z_digits (Z.abs (n - 1)))), true.
    rewrite !all_digits_substring by exact Ha.
    repeat split; [apply start_nonempty, Hsub; lia | right; now exists (n - 1)].
Qed.

Lemma prefix_infinity_start (t : string) : starts_with_digit t = true -> String.prefix "Infinity" t = false.
Proof. destruct t as [|c t]; [discriminate|]. apply prefix_infinity_digit. Qed.

(** The fragment reads a layout of Number::toString as one number token,
    leaving any text after it that cannot continue a numeral. *)
Lemma read_number_layout (s n k : Z) (r : string) :
  0 < s -> digits10 s = k -> numeral_end r = true ->
  read_number (layout s n k ++ r) = Some (decimal_value s (n - k), r).
Proof.
  intros Hs Hk Hr. destruct (layout_shape s n k Hs Hk) as (a & b & ex & frac & Heq & Ha & Hne & Hb & Hex).
  destruct (read_number_whole a b ex frac Ha Hne Hb Hex) as [v Hv].
  assert (Happ : forall r, (layout s n k ++ r = a ++ (if frac then String "." (b ++ ex ++ r) else ex ++ r))%string).
  { intros r'. rewrite Heq, string_app_assoc. destruct frac; [cbn; now rewrite string_app_assoc | reflexivity]. }
  pose proof (Hv EmptyString eq_refl) as H0. rewrite <- Happ, string_app_empty_r in H0.
  pose proof (read_number_unsigned (layout s n k) (prefix_infinity_start _ (layout_starts s n k Hs Hk))) as Hu.
  rewrite H0, layout_read in Hu by assumption. simpl in Hu. injection Hu as ->.
  rewrite Happ. exact (Hv r Hr).
Qed.

Lemma tokenize_numeral (t : string) (v : number) (fuel : nat) :
  starts_with_digit t = true -> read_number t = Some (v, EmptyString) ->
  tokenize (S (S fuel)) t = Some [TNum v].
Proof.
  destruct t as [|c t]; [discriminate|]. intros Hc Hr. change (digit_char c = true) in Hc.
  destruct (digit_char_facts c Hc) as (Hws & _ & _ & Hdot & _).
  cbn [tokenize]. rewrite Hws. unfold is_digit. unfold digit_char in Hc. rewrite Hc. simpl orb.
  now rewrite Hr.
Qed.

(** The fragment evaluates the text Number::toString prints to the
    Number itself, except that both zeros come back as [+0]. *)
Lemma mathjs_fragment_toString (x : number) :
  digits_found x = true ->
  mathjs_fragment_evaluate (Number_toString x) = Some (match x with S754_zero _ => S754_zero false | _ => x end).
Proof.
  intros Hd. destruct x as [[]|[]| |sg m e]; [vm_compute; reflexivity .. |].
  destruct (toString_finite_layout sg m e Hd) as (s & n & k & Hpos & Hdig & -> & Hv).
  pose proof (read_number_layout s n k EmptyString Hpos Hdig eq_refl) as Hr.
  rewrite string_app_empty_r, Hv in Hr.
  pose proof (layout_starts s n k Hpos Hdig) as Hst.
  assert (Hlen : exists l, String.length (layout s n k) = S l)
    by (destruct (layout s n k); [discriminate | now eexists]).
  destruct Hlen as [l Hl]. unfold mathjs_fragment_evaluate. destruct sg.
  - change ("-" ++ layout s n k)%string with (String "-" (layout s n k)).
    cbn [String.length]. rewrite Hl.
    change (tokenize (S (S (S l))) (String "-" (layout s n k)))
      with (option_map (cons (TSym "-")) (tokenize (S (S l)) (layout s n k))).
    rewrite (tokenize_numeral _ _ l Hst Hr). reflexivity.
  - change ("" ++ layout s n k)%string with (layout s n k).
    rewrite Hl, (tokenize_numeral _ _ l Hst Hr). reflexivity.
Qed.

(** ** The fuel is enough

    [tokenize] consumes a character per token and the parser a token per
    nested call (up to the constant factor of [fuel_expr]): with the fuel
    [mathjs_fragment_evaluate] gives, more fuel changes nothing, so the
    fragment fails only on text outside its grammar. *)

Local Open Scope nat_scope.

(** Each parsing function returns a suffix of its tokens; the functions
    that read a primary consume at least one token. *)
Lemma parse_rest (n : nat) :
  (forall ts v r, p_expr n ts = Some (v, r) -> length r < length ts) /\
  (forall acc ts v r, p_expr_tail n acc ts = Some (v, r) -> length r <= length ts) /\
  (forall ts v r, p_term n ts = Some (v, r) -> length r < length ts) /\
  (forall acc ts v r, p_term_tail n acc ts = Some (v, r) -> length r <= length ts) /\
  (forall ts v r, p_unary n ts = Some (v, r) -> length r < length ts) /\
  (forall ts v r, p_power n ts = Some (v, r) -> length r < length ts) /\
  (forall ts v r, p_primary n ts = Some (v, r) -> length r < length ts).
Proof.
  induction n as [|f IH]; [repeat split; discriminate|].
  destruct IH as (He & Het & Ht & Htt & Hu & Hp & Hpr).
  repeat split; intros *; cbn [p_expr p_expr_tail p_term p_term_tail p_unary p_power p_primary]; intros H;
    repeat match type of H with context [match ?x with _ => _ end] => destruct x eqn:? end;
    repeat match goal with
           | E : p_expr f _ = Some (_, _) |- _ => apply He in E
           | E : p_expr_tail f _ _ = Some (_, _) |- _ => apply Het in E
           | E : p_term f _ = Some (_, _) |- _ => apply Ht in E
           | E : p_term_tail f _ _ = Some (_, _) |- _ => apply Htt in E
           | E : p_unary f _ = Some (_, _) |- _ => apply Hu in E
           | E : p_power f _ = Some (_, _) |- _ => apply Hp in E
           | E : p_primary f _ = Some (_, _) |- _ => apply Hpr in E
           end;
    try discriminate;
    repeat match goal with E : Some _ = Some _ |- _ => injection E; clear E; intros; subst end;
    simpl in *; lia.
Qed.

Lemma parse_stable (n : nat) :
  (forall ts, fuel_expr (length ts) <= n -> p_expr n ts = p_expr (S n) ts) /\
  (forall acc ts, fuel_tail (length ts) <= n -> p_expr_tail n acc ts = p_expr_tail (S n) acc ts) /\
  (forall ts, fuel_term (length ts) <= n -> p_term n ts = p_term (S n) ts) /\
  (forall acc ts, fuel_tail (length ts) <= n -> p_term_tail n acc ts = p_term_tail (S n) acc ts) /\
  (forall ts, fuel_unary (length ts) <= n -> p_unary n ts = p_unary (S n) ts) /\
  (forall ts, fuel_power (length ts) <= n -> p_power n ts = p_power (S n) ts) /\
  (forall ts, fuel_primary (length ts) <= n -> p_primary n ts = p_primary (S n) ts).
Proof.
  unfold fuel_expr, fuel_tail, fuel_term, fuel_unary, fuel_power, fuel_primary.
  induction n as [|f IH]; [repeat split; intros; lia|].
  destruct IH as (He & Het & Ht & Htt & Hu & Hp & Hpr).
  destruct (parse_rest (S f)) as (Re & Ret & Rt & Rtt & Ru & Rp & Rpr).
  repeat split; intros * Hn;
    match goal with |- ?l = ?r =>
      let l' := eval cbn [p_expr p_expr_tail p_term p_term_tail p_unary p_power p_primary] in l in
      change (l' = r) end;
    remember (S f) as g eqn:Hg;
    cbn [p_expr p_expr_tail p_term p_term_tail p_unary p_power p_primary]; subst g;
    repeat (cbv beta iota; first
      [ match goal with |- context [match ?x with _ => _ end] => is_var x; destruct x end
      | match goal with |- context [p_expr f ?a] => rewrite (He a) by (simpl in *; lia) end
      | match goal with |- context [p_expr_tail f ?c ?a] => rewrite (Het c a) by (simpl in *; lia) end
      | match goal with |- context [p_term f ?a] => rewrite (Ht a) by (simpl in *; lia) end
      | match goal with |- context [p_term_tail f ?c ?a] => rewrite (Htt c a) by (simpl in *; lia) end
      | match goal with |- context [p_unary f ?a] => rewrite (Hu a) by (simpl in *; lia) end
      | match goal with |- context [p_power f ?a] => rewrite (Hp a) by (simpl in *; lia) end
      | match goal with |- context [p_primary f ?a] => rewrite (Hpr a) by (simpl in *; lia) end
      | match goal with |- context [match p_expr (S f) ?a with _ => _ end] =>
          destruct (p_expr (S f) a) as [[? ?]|] eqn:E; [apply Re in E|] end
      | match goal with |- context [match p_term (S f) ?a with _ => _ end] =>
          destruct (p_term (S f) a) as [[? ?]|] eqn:E; [apply Rt in E|] end
      | match goal with |- context [match p_unary (S f) ?a with _ => _ end] =>
          destruct (p_unary (S f) a) as [[? ?]|] eqn:E; [apply Ru in E|] end
      | match goal with |- context [match p_primary (S f) ?a with _ => _ end] =>
          destruct (p_primary (S f) a) as [[? ?]|] eqn:E; [apply Rpr in E|] end ]);
    try reflexivity.
Qed.

Lemma p_expr_enough (ts : list token) (k : nat) :
  p_expr (8 * S (length ts) + k) ts = p_expr (8 * S (length ts)) ts.
Proof.
  induction k as [|k IH]; [now rewrite Nat.add_0_r|].
  rewrite Nat.add_succ_r, <- IH. symmetry. apply (parse_stable _). unfold fuel_expr. lia.
Qed.

Lemma read_digits_length (s : string) (acc : Z) (n : nat) :
  let '(_, m, r) := read_digits s acc n in (String.length r + m = String.length s + n)%nat.
Proof.
  revert acc n. induction s as [|c s IH]; intros acc n; simpl; [reflexivity|].
  destruct (digit_value c); simpl; [|reflexivity].
  specialize (IH (10 * acc + z)%Z (S n)). destruct (read_digits s _ _) as [[? ?] ?]. lia.
Qed.

Lemma read_number_length (s : string) (v : number) (r : string) :
  read_number s = Some (v, r) -> (String.length r < String.length s)%nat.
Proof.
  unfold read_number. pose proof (read_digits_length s 0 0) as H1.
  destruct (read_digits s 0 0) as [[ip ni] rest].
  assert (H2 : forall m nf rest', (match rest with
      | String c after => if Ascii.eqb c "." then read_digits after ip 0 else (ip, 0%nat, rest)
      | EmptyString => (ip, 0%nat, rest) end) = (m, nf, rest') ->
      (String.length rest' + nf <= String.length rest)%nat).
  { intros m nf rest' E. destruct rest as [|c after]; [injection E; intros; subst; simpl; lia|].
    destruct (Ascii.eqb c "."); [|injection E; intros; subst; simpl; lia].
    pose proof (read_digits_length after ip 0) as H. rewrite E in H. simpl. lia. }
  destruct (match rest with String c after => _ | EmptyString => _ end) as [[m nf] rest'] eqn:E.
  specialize (H2 _ _ _ eq_refl).
  destruct (Nat.eqb_spec (ni + nf) 0); [discriminate|].
  match goal with |- (let '(_, _) := ?x in _) = _ -> _ => destruct x as [ex rest''] eqn:E' end.
  intros H. injection H as <- <-.
  assert (String.length rest'' <= String.length rest')%nat; [|lia].
  destruct rest' as [|c after]; [injection E' as _ <-; reflexivity|].
  destruct (Ascii.eqb c "e" || Ascii.eqb c "E")%bool; [|injection E' as _ <-; reflexivity].
  match type of E' with (let '(_, _) := ?x in _) = _ => destruct x as [sg body] eqn:Eb end.
  pose proof (read_digits_length body 0 0) as H3.
  destruct (read_digits body 0 0) as [[w nd] r].
  assert (String.length body <= String.length (String c after))%nat.
  { destruct after as [|c' after']; [injection Eb as _ <-; simpl; lia|].
    destruct (Ascii.eqb c' "+"); [injection Eb as _ <-; simpl; lia|].
    destruct (Ascii.eqb c' "-"); injection Eb as _ <-; simpl; lia. }
  destruct (Nat.eqb nd 0); injection E' as _ <-; simpl in *; lia.
Qed.


Lemma read_ident_length (s acc : string) :
  (String.length (snd (read_ident s acc)) <= String.length s)%nat.
Proof.
  revert acc. induction s as [|c s IH]; intros acc; simpl; [lia|].
  destruct (is_letter c); simpl; [specialize (IH (acc ++ String c EmptyString)%string); lia | lia].
Qed.

Lemma tokenize_stable (n : nat) (s : string) :
  (S (String.length s) <= n)%nat -> tokenize n s = tokenize (S n) s.
Proof.
  revert s. induction n as [|f IH]; intros s Hn; [lia|].
  destruct s as [|c t]; [reflexivity|]. simpl in Hn.
  match goal with |- ?l = ?r => let l' := eval cbn [tokenize] in l in change (l' = r) end.
  remember (S f) as g eqn:Hg. cbn [tokenize]. subst g. rewrite <- (IH t) by lia.
  destruct (is_ws c); [reflexivity|].
  destruct (is_digit c || Ascii.eqb c ".")%bool.
  - destruct (read_number (String c t)) as [[v r]|] eqn:E; [|reflexivity].
    apply read_number_length in E. simpl in E. now rewrite <- (IH r) by lia.
  - destruct (is_letter c) eqn:El; [|reflexivity].
    pose proof (read_ident_length t (EmptyString ++ String c EmptyString)) as Hl.
    cbn [read_ident]. rewrite El. destruct (read_ident t _) as [name r]. simpl in Hl.
    now rewrite <- (IH r) by lia.
Qed.

Lemma tokenize_enough (s : string) (k : nat) :
  tokenize (S (String.length s) + k) s = tokenize (S (String.length s)) s.
Proof.
  induction k as [|k IH]; [now rewrite Nat.add_0_r|].
  rewrite Nat.add_succ_r, <- IH. symmetry. apply tokenize_stable. lia.
Qed.

(** ** A printed negative Number inside a formula

    [eq.replace(/x/g, x)] writes a negative [x] as ["-"] followed by a
    layout: the fragment reads a [TSym "-"] and then the magnitude as one
    number token, whatever text follows that cannot continue a numeral. *)

Lemma tokenize_number_then (t r : string) (v : number) (fuel : nat) :
  starts_with_digit t = true -> read_number (t ++ r) = Some (v, r) ->
  tokenize (S fuel) (t ++ r) = option_map (cons (TNum v)) (tokenize fuel r).
Proof.
  destruct t as [|c t]; [discriminate|]. intros Hc Hr. change (digit_char c = true) in Hc.
  destruct (digit_char_facts c Hc) as (Hws & _ & _ & Hdot & _).
  cbn [tokenize append]. rewrite Hws. unfold is_digit. unfold digit_char in Hc. rewrite Hc. simpl orb.
  change (String c (t ++ r)) with ((String c t) ++ r)%string. now rewrite Hr.
Qed.

Lemma tokenize_negative_layout (s n k : Z) (r : string) (fuel : nat) :
  (0 < s)%Z -> digits10 s = k -> numeral_end r = true ->
  String.length r <= fuel ->
  tokenize (S (S (String.length (layout s n k)) + fuel)) ("-" ++ layout s n k ++ r)%string =
  option_map (fun ts => TSym "-" :: TNum (decimal_value s (n - k)%Z) :: ts) (tokenize (S (String.length r)) r).
Proof.
  intros Hs Hk Hr Hf.
  assert (Hl : String.length (layout s n k) <> 0)
    by (pose proof (layout_starts s n k Hs Hk); destruct (layout s n k); [discriminate | simpl; lia]).
  change (tokenize _ ("-" ++ _)%string) with
    (option_map (cons (TSym "-")) (tokenize (S (String.length (layout s n k)) + fuel) (layout s n k ++ r)%string)).
  cbn [Nat.add]. rewrite (tokenize_number_then _ r (decimal_value s (n - k)))
    by (apply layout_starts || apply read_number_layout; assumption).
  replace (String.length (layout s n k) + fuel) with (S (String.length r) + (String.length (layout s n k) + fuel - S (String.length r))) by lia.
  rewrite tokenize_enough. now destruct (tokenize (S (String.length r)) r).
Qed.
