(* ===== verification/Newton.v ===== *)
(** * Root finding: [newtonRaphson] (src/index.js, lines 63-88)

<<
    function newtonRaphson(eq, x0, maxIter = 10, tol = 1e-6) {
      let x = x0;  ...
      for (let i = 0; i < maxIter; i++) {
        let fVal = evaluateFunction(eq, x);
        let fPrimeVal = derivative(eq, x);
        ... Iteration i+1, Current x, f(x), f'(x) ...
        if (Math.abs(fVal) < tol) { ... Root found at x ...; return }
        let newX = x - fVal / fPrimeVal;
        ... New x ...;  x = newX;
      }
      ... Approximate root after maxIter iterations: x ...
    }
>>
    The loop is modelled over any [Arith] carrier and any function [f]
    (the program's instance is [f = evaluateFunction eq] on [Binary64]).
    The HTML string is modelled by the sequence of the lines the code
    appends to it, each with the values it prints ([nr_line]); rendering
    the values with [toFixed] is not modelled here.

    The abstract specification is the sequence of Newton iterates
    [nr_iterate j x0] and the first index [k < maxIter] where
    [|f(x_k)| < tol] ([nr_first_converged]); [nr_spec_trace] is the trace
    it predicts, and [newtonRaphson_refines] proves the loop produces
    exactly that trace. *)

From Stdlib Require Import ZArith String List Lia Bool SpecFloat.
From S2P Require Import Prelude Binary64 Evaluate.
Import ListNotations.

(** The lines [newtonRaphson] appends to [detailedSteps]. *)
Inductive nr_line (N : Type) : Type :=
  (** [<strong>Newton-Raphson Method Steps:</strong>] *)
  | NRHeader
  (** [Iteration k], [Current x], [f(x) = ...], [f'(x) = ...] *)
  | NRIteration (k : nat) (x fx fpx : N)
  (** [Root found at x = ...] *)
  | NRRootFound (x : N)
  (** [New x = x - f(x)/f'(x) = ...] *)
  | NRNewX (x : N)
  (** [Approximate root after maxIter iterations: x] *)
  | NRApprox (maxIter : nat) (x : N).
Arguments NRHeader {N}.
Arguments NRIteration {N} k x fx fpx.
Arguments NRRootFound {N} x.
Arguments NRNewX {N} x.
Arguments NRApprox {N} maxIter x.

(** How a run ended, as the last line of the trace says. *)
Inductive nr_result (N : Type) : Type :=
  | Converged (x : N)
  | Approximate (x : N).
Arguments Converged {N} x.
Arguments Approximate {N} x.

Section NewtonRaphson.
Context {N : Type} `{Arith N}.
Local Open Scope nm_scope.

(** [evaluateFunction(eq, ·)] *)
Variable f : N -> N.
Variable maxIter : nat.
Variable tol : N.

(** [derivative(eq, x)] *)
Definition nr_fprime (x : N) : N := central_difference f x derivative_step.

(** The [for] loop at iteration [i] (with [fuel = maxIter - i] iterations
    left) and current estimate [x]. *)
Fixpoint nr_loop (fuel i : nat) (x : N) : list (nr_line N) :=
  match fuel with
  | O => [NRApprox maxIter x]
  | S fuel' =>
      let fVal := f x in
      let fPrimeVal := nr_fprime x in
      NRIteration (S i) x fVal fPrimeVal ::
      if n_abs fVal <? tol then [NRRootFound x]
      else
        let newX := x - fVal / fPrimeVal in
        NRNewX newX :: nr_loop fuel' (S i) newX
  end.

Definition newtonRaphson_core (x0 : N) : list (nr_line N) :=
  NRHeader :: nr_loop maxIter 0 x0.

(** ** Abstract specification *)

(** One Newton step. *)
Definition nr_next (x : N) : N := x - f x / nr_fprime x.

(** The [j]-th Newton iterate from [x0]. *)
Definition nr_iterate (j : nat) (x0 : N) : N := Nat.iter j nr_next x0.

(** The convergence test [Math.abs(fVal) < tol]. *)
Definition nr_converged (x : N) : bool := n_abs (f x) <? tol.

(** The first iteration index below [maxIter] whose iterate passes the
    test. *)
Definition nr_first_converged (x0 : N) : option nat :=
  find (fun j => nr_converged (nr_iterate j x0)) (seq 0 maxIter).

(** The lines of iteration [i + j] (counting from the estimate [x] of
    iteration [i]) when it does not stop the loop. *)
Definition nr_block (i : nat) (x : N) (j : nat) : list (nr_line N) :=
  let xj := nr_iterate j x in
  [NRIteration (S (i + j)) xj (f xj) (nr_fprime xj); NRNewX (nr_iterate (S j) x)].

(** The last lines when iteration [i + k] finds the root. *)
Definition nr_stop (i : nat) (x : N) (k : nat) : list (nr_line N) :=
  let xk := nr_iterate k x in
  [NRIteration (S (i + k)) xk (f xk) (nr_fprime xk); NRRootFound xk].

(** The trace the specification predicts from iteration [i], estimate
    [x], with [fuel] iterations left. *)
Definition nr_spec_from (fuel i : nat) (x : N) : list (nr_line N) :=
  match find (fun j => nr_converged (nr_iterate j x)) (seq 0 fuel) with
  | Some k => flat_map (nr_block i x) (seq 0 k) ++ nr_stop i x k
  | None => flat_map (nr_block i x) (seq 0 fuel) ++ [NRApprox maxIter (nr_iterate fuel x)]
  end.

Definition nr_spec_trace (x0 : N) : list (nr_line N) :=
  NRHeader :: nr_spec_from maxIter 0 x0.

(** ** The loop refines the specification *)

Lemma nr_iterate_S (j : nat) (x : N) : nr_iterate (S j) x = nr_iterate j (nr_next x).
Proof. apply iter_S_r. Qed.

Lemma nr_block_S (i j : nat) (x : N) : nr_block i x (S j) = nr_block (S i) (nr_next x) j.
Proof. unfold nr_block. now rewrite !(nr_iterate_S _ x), Nat.add_succ_r. Qed.

Lemma nr_stop_S (i k : nat) (x : N) : nr_stop i x (S k) = nr_stop (S i) (nr_next x) k.
Proof. unfold nr_stop. now rewrite nr_iterate_S, Nat.add_succ_r. Qed.

(** One iteration of the specification: the first index is tested,
    and the rest is the specification from the next estimate. *)
Lemma nr_spec_from_S (fuel i : nat) (x : N) :
  nr_spec_from (S fuel) i x =
  if nr_converged x then nr_stop i x 0
  else nr_block i x 0 ++ nr_spec_from fuel (S i) (nr_next x).
Proof.
  unfold nr_spec_from. cbn [seq find]. change (nr_iterate 0 x) with x.
  destruct (nr_converged x); [reflexivity|].
  rewrite find_seq_shift, (find_ext _ (fun j => nr_converged (nr_iterate j (nr_next x))))
    by (intros j; now rewrite nr_iterate_S).
  destruct (find _ (seq 0 fuel)) as [k|]; simpl option_map; cbv iota; cbn [seq flat_map];
    rewrite flat_map_seq_shift, (flat_map_ext _ _ (fun j => nr_block_S i j x)),
      ?nr_stop_S, ?nr_iterate_S, <- app_assoc; reflexivity.
Qed.

Lemma nr_loop_spec (fuel i : nat) (x : N) : nr_loop fuel i x = nr_spec_from fuel i x.
Proof.
  revert i x. induction fuel as [|fuel IH]; intros i x; [reflexivity|].
  rewrite nr_spec_from_S. simpl nr_loop. unfold nr_converged, nr_stop, nr_block.
  cbn [nr_iterate Nat.iter]. rewrite Nat.add_0_r.
  destruct (n_abs (f x) <? tol); [reflexivity|]. now rewrite IH.
Qed.

(** ** Observations of a trace *)

(** How the run ended: the line [Root found at x] or the line
    [Approximate root after maxIter iterations: x]. *)
Definition nr_final (tr : list (nr_line N)) : option (nr_result N) :=
  match last tr NRHeader with
  | NRRootFound x => Some (Converged x)
  | NRApprox _ x => Some (Approximate x)
  | _ => None
  end.

(** The numbers [k] of the [Iteration k] lines, in order. *)
Definition nr_iterations (tr : list (nr_line N)) : list nat :=
  flat_map (fun l => match l with NRIteration k _ _ _ => [k] | _ => [] end) tr.

(** The number of iterations the specification predicts. *)
Definition nr_count (x0 : N) : nat :=
  match nr_first_converged x0 with Some k => S k | None => maxIter end.

Lemma nr_iterations_blocks (k : nat) (x0 : N) :
  nr_iterations (flat_map (nr_block 0 x0) (seq 0 k)) = seq 1 k.
Proof.
  induction k as [|k IH]; [reflexivity|].
  unfold nr_iterations in *. rewrite flat_map_seq_S, flat_map_app, IH, (seq_S k 1). reflexivity.
Qed.

Lemma nr_first_converged_bound (x0 : N) (k : nat) :
  nr_first_converged x0 = Some k ->
  k < maxIter /\ nr_converged (nr_iterate k x0) = true /\
  forall j, j < k -> nr_converged (nr_iterate j x0) = false.
Proof.
  intros Hk. destruct (find_seq_Some _ _ _ _ Hk) as (Hb & Hc & Hbefore).
  repeat split; auto; try lia. intros j Hj. apply Hbefore. lia.
Qed.

(** ** Properties *)

(** The trace of the loop is the one the specification predicts. *)
Lemma newtonRaphson_core_spec (x0 : N) : newtonRaphson_core x0 = nr_spec_trace x0.
Proof. unfold newtonRaphson_core, nr_spec_trace. now rewrite nr_loop_spec. Qed.

(** The last line of a run. *)
Lemma nr_final_spec (x0 : N) :
  nr_final (newtonRaphson_core x0) =
  match nr_first_converged x0 with
  | Some k => Some (Converged (nr_iterate k x0))
  | None => Some (Approximate (nr_iterate maxIter x0))
  end.
Proof.
  rewrite newtonRaphson_core_spec. unfold nr_final, nr_spec_trace, nr_spec_from.
  fold (nr_first_converged x0).
  destruct (nr_first_converged x0); [| now rewrite last_cons_snoc].
  unfold nr_stop. now rewrite last_cons_snoc2.
Qed.

(** C1: refinement.  The trace [newtonRaphson] builds is exactly the one
    the specification predicts: iterations [1 .. k] each print the
    Newton iterate [x_j] with [f(x_j)] and [f'(x_j)] and the next
    iterate, and the run stops with [Root found] at the first [x_k]
    with [|f(x_k)| < tol], or prints the [maxIter]-th iterate when no
    iterate below [maxIter] passes the test. *)
Theorem newtonRaphson_refines (x0 : N) : newtonRaphson_core x0 = nr_spec_trace x0.
Proof. exact (newtonRaphson_core_spec x0). Qed.

(** C2: the outcome.  The run reports [Root found at x_k] for the first
    [k < maxIter] with [|f(x_k)| < tol], and otherwise reports the
    [maxIter]-th iterate as approximate root. *)
Theorem newtonRaphson_outcome (x0 : N) :
  nr_final (newtonRaphson_core x0) =
  match nr_first_converged x0 with
  | Some k => Some (Converged (nr_iterate k x0))
  | None => Some (Approximate (nr_iterate maxIter x0))
  end.
Proof. exact (nr_final_spec x0). Qed.

(** C4: bounds.  The [Iteration k] lines are numbered [1, 2, ..., n]
    without gaps, and there are at most [maxIter] of them. *)
Theorem newtonRaphson_iterations (x0 : N) :
  nr_iterations (newtonRaphson_core x0) = seq 1 (nr_count x0) /\ nr_count x0 <= maxIter.
Proof.
  rewrite newtonRaphson_core_spec. unfold nr_spec_trace, nr_spec_from, nr_count, nr_iterations.
  fold (nr_first_converged x0).
  destruct (nr_first_converged x0) as [k|] eqn:Hk; cbn [flat_map app]; rewrite flat_map_app.
  - fold (nr_iterations (flat_map (nr_block 0 x0) (seq 0 k))). rewrite nr_iterations_blocks.
    split; [symmetry; apply (seq_S k 1) | apply nr_first_converged_bound in Hk; lia].
  - fold (nr_iterations (flat_map (nr_block 0 x0) (seq 0 maxIter))). rewrite nr_iterations_blocks.
    split; [apply app_nil_r | lia].
Qed.

(** C3: soundness of [Root found].  When the run reports a root [x], then
    [|f(x)| < tol], [x] is the [k]-th Newton iterate for some
    [k < maxIter], and no earlier iterate passed the test. *)
Theorem newtonRaphson_root_sound (x0 x : N) :
  nr_final (newtonRaphson_core x0) = Some (Converged x) ->
  nr_converged x = true /\
  exists k, k < maxIter /\ x = nr_iterate k x0 /\
            forall j, j < k -> nr_converged (nr_iterate j x0) = false.
Proof.
  rewrite nr_final_spec.
  destruct (nr_first_converged x0) as [k|] eqn:Hk; intros Hf; [|discriminate].
  injection Hf as <-. apply nr_first_converged_bound in Hk as (Hb & Hc & Hbefore). split; eauto.
Qed.

(** Exhaustion.  When the run reports an approximate root [x], no
    iterate [x_0 .. x_(maxIter-1)] passed the test and [x] is the
    [maxIter]-th iterate, which the loop never tested. *)
Theorem newtonRaphson_exhausted (x0 x : N) :
  nr_final (newtonRaphson_core x0) = Some (Approximate x) ->
  x = nr_iterate maxIter x0 /\ forall j, j < maxIter -> nr_converged (nr_iterate j x0) = false.
Proof.
  rewrite nr_final_spec.
  destruct (nr_first_converged x0) as [k|] eqn:Hk; intros Hf; [discriminate|].
  injection Hf as <-. split; [reflexivity|].
  intros j Hj. apply (find_seq_None _ _ _ Hk). lia.
Qed.
End NewtonRaphson.

(** The program's [newtonRaphson(eq, x0, maxIter, tol)]: the loop on
    [f = evaluateFunction eq] over JavaScript numbers.  The page calls it
    with the defaults [maxIter = 10] and [tol = 1e-6]. *)
Definition newtonRaphson `{MathEvaluate} `{NumberToString}
    (eq : string) (x0 : number) (maxIter : nat) (tol : number) : list (nr_line number) :=
  newtonRaphson_core (evaluateFunction eq) maxIter tol x0.

(** ** Newton-Raphson on JavaScript numbers *)

Section NewtonBinary64.
Variable f : number -> number.

Lemma nr_next_nan : nr_next f NaN = NaN.
Proof. reflexivity. Qed.

Lemma nr_iterate_nan (j : nat) : nr_iterate f j NaN = NaN.
Proof.
  induction j as [|j IH]; [reflexivity|].
  change (nr_next f (nr_iterate f j NaN) = NaN). now rewrite IH.
Qed.

Lemma nr_iterate_add (i j : nat) (x : number) :
  nr_iterate f (i + j) x = nr_iterate f i (nr_iterate f j x).
Proof. apply Nat.iter_add. Qed.

Lemma nr_converged_nan (tol : number) : f NaN = NaN -> nr_converged f tol NaN = false.
Proof. intros Hf. unfold nr_converged. now rewrite Hf. Qed.

(** C9: undefined propagation.  When the expression is undefined at NaN
    (as math.js is on the text [NaN]) and the [j]-th iterate is NaN
    (with no earlier iterate passing the test), every later iterate is
    NaN, no [Root found] line is printed, and the run ends with
    [Approximate root after maxIter iterations: NaN]: the same line as
    a numeric non-converged run. *)
Theorem newtonRaphson_nan_propagates (maxIter : nat) (tol x0 : number) (j : nat) :
  f NaN = NaN -> nr_iterate f j x0 = NaN -> j <= maxIter ->
  (forall i, i < j -> nr_converged f tol (nr_iterate f i x0) = false) ->
  nr_final (newtonRaphson_core f maxIter tol x0) = Some (Approximate NaN) /\
  (forall i, j <= i -> nr_iterate f i x0 = NaN).
Proof.
  intros Hf Hj Hle Hbefore.
  assert (Hafter : forall i, j <= i -> nr_iterate f i x0 = NaN).
  { intros i Hi. replace i with ((i - j) + j) by lia.
    now rewrite nr_iterate_add, Hj, nr_iterate_nan. }
  split; [|exact Hafter].
  rewrite nr_final_spec.
  replace (nr_first_converged f maxIter tol x0) with (@None nat).
  - now rewrite Hafter.
  - symmetry. apply find_seq_all_false. intros i Hi.
    destruct (Nat.lt_ge_cases i j) as [Hij|Hij]; [now apply Hbefore|].
    rewrite Hafter by exact Hij. now apply nr_converged_nan.
Qed.

(** C10: a flat tangent does not give the undefined value.  When [x] and
    [f(x)] are finite, [f(x) <> 0] and the central difference is a zero,
    the next estimate [x - f(x)/f'(x)] is an infinity, not NaN (the
    design says the step becomes the undefined sentinel). *)
Theorem nr_next_flat_tangent (x : number) :
  is_finite x = true -> is_finite (f x) = true -> is_zero (f x) = false ->
  is_zero (nr_fprime f x) = true -> is_infinity (nr_next f x) = true.
Proof.
  intros Hx Hfx Hnz Hz. unfold nr_next. apply sub_infinity; [exact Hx|].
  now apply div_by_zero.
Qed.
End NewtonBinary64.

(** ** The design's test cases, on the functions themselves *)

Local Open Scope nm_scope.

(** [f(x) = x^2 - 2] and [f(x) = x^2 + 1] as the double computations
    [x*x - 2] and [x*x + 1]. *)
Definition x2_minus_2 (x : number) : number := x * x - n_lit 2 0.
Definition x2_plus_1 (x : number) : number := x * x + n_lit 1 0.

Definition tol_1e6 : number := n_lit 1 (-6).
Definition one : number := n_lit 1 0.

(** On [x^2 - 2] from [x0 = 1] with the page's defaults, the run stops
    at iteration 5 with [Root found] at the double
    [6369051672532955 * 2^-52] (= 1.4142135623746899), within [1e-8] of
    [1.41421356]. *)
Theorem newton_sqrt2_example :
  nr_final (newtonRaphson_core x2_minus_2 10 tol_1e6 one)
    = Some (Converged (S754_finite false 6369051672532955 (-52))) /\
  nr_count x2_minus_2 10 tol_1e6 one = 5%nat /\
  js_lt (js_abs (S754_finite false 6369051672532955 (-52) - n_lit 141421356 (-8))) (n_lit 1 (-8)) = true.
Proof. vm_compute. repeat split. Qed.

(** On [x^2 + 1] (no real root) from [x0 = 1], no iterate passes the
    test, the second estimate is [-Infinity] (the central difference at
    the first estimate rounds to [0]), and the run ends with
    [Approximate root after 10 iterations: NaN]. *)
Theorem newton_no_root_example :
  nr_first_converged x2_plus_1 10 tol_1e6 one = None /\
  nr_iterate x2_plus_1 2 one = S754_infinity true /\
  nr_final (newtonRaphson_core x2_plus_1 10 tol_1e6 one) = Some (Approximate NaN).
Proof. vm_compute. repeat split. Qed.

(** Witnesses of the properties with hypotheses. *)

Lemma newtonRaphson_root_sound_witness :
  nr_final (newtonRaphson_core x2_minus_2 10 tol_1e6 one)
    = Some (Converged (nr_iterate x2_minus_2 4 one)) /\
  nr_converged x2_minus_2 tol_1e6 (nr_iterate x2_minus_2 4 one) = true.
Proof.
  assert (H : nr_final (newtonRaphson_core x2_minus_2 10 tol_1e6 one)
              = Some (Converged (nr_iterate x2_minus_2 4 one))) by (vm_compute; reflexivity).
  split; [exact H | apply (newtonRaphson_root_sound x2_minus_2 10 tol_1e6 one _ H)].
Defined.

Lemma newtonRaphson_exhausted_witness :
  nr_final (newtonRaphson_core x2_plus_1 10 tol_1e6 one) = Some (Approximate NaN) /\
  NaN = nr_iterate x2_plus_1 10 one.
Proof.
  assert (H : nr_final (newtonRaphson_core x2_plus_1 10 tol_1e6 one) = Some (Approximate NaN))
    by (vm_compute; reflexivity).
  split; [exact H | apply (newtonRaphson_exhausted x2_plus_1 10 tol_1e6 one _ H)].
Defined.

Lemma newtonRaphson_nan_propagates_witness :
  nr_final (newtonRaphson_core x2_plus_1 10 tol_1e6 one) = Some (Approximate NaN).
Proof.
  apply (newtonRaphson_nan_propagates x2_plus_1 10 tol_1e6 one 3);
    [reflexivity | vm_compute; reflexivity | lia |].
  intros i Hi. destruct i as [|[|[|i]]]; [vm_compute; reflexivity .. | lia].
Defined.

Lemma nr_next_flat_tangent_witness :
  is_infinity (nr_next x2_plus_1 (nr_iterate x2_plus_1 1 one)) = true.
Proof. apply nr_next_flat_tangent; vm_compute; reflexivity. Defined.
