(* ===== verification/FixedStep.v ===== *)
(** * What the two integrators share

    [eulerMethod] and [rungeKuttaMethod] run the same loop: from
    [x = x0], [y = f(x0)], each of [steps] passes computes an increment of
    [y] from the current [x] (Euler: [h * f(x)]; RK4: the weighted mean of
    four slope samples) and then executes
<<
        y = y + increment;
        x = x + h;
>>
    (src/index.js, lines 101-102 and 128-129).  This file models that
    common step, [fs_step], over any [Arith] carrier and any increment
    function, and proves once the facts both integrators inherit: the
    states after [j] steps compose, the abscissas are [x0 + h + ... + h]
    whatever the slope function, and a NaN value of [y] is never left. *)

From Stdlib Require Import ZArith List Lia.
From S2P Require Import Prelude Binary64.

Section FixedStep.
Context {N : Type} `{Arith N}.
Local Open Scope nm_scope.

Variable h : N.
(** The change of [y] one pass computes at the abscissa [x]. *)
Variable increment : N -> N.

(** [y = y + increment; x = x + h;] on the state [(x, y)]. *)
Definition fs_step (s : N * N) : N * N := (fst s + h, snd s + increment (fst s)).

(** The state after [j] passes. *)
Definition fs_state (j : nat) (s0 : N * N) : N * N := Nat.iter j fs_step s0.

Lemma fs_state_S (j : nat) (s0 : N * N) : fs_state (S j) s0 = fs_step (fs_state j s0).
Proof. reflexivity. Qed.

Lemma fs_state_add (i j : nat) (s0 : N * N) : fs_state (i + j) s0 = fs_state i (fs_state j s0).
Proof. apply Nat.iter_add. Qed.

(** The abscissa after [j] passes is [x0] with [h] added [j] times, left
    to right; it does not depend on [y] or on the increment. *)
Lemma fs_state_x (j : nat) (s0 : N * N) : fst (fs_state j s0) = Nat.iter j (fun x => x + h) (fst s0).
Proof. induction j as [|j IH]; [reflexivity|]. simpl. now rewrite <- IH. Qed.
End FixedStep.

Section FixedStepBinary64.
Lemma fs_iter_nan_y (h : number) (increment : number -> number) (n : nat) (s : number * number) :
  snd s = NaN -> snd (fs_state h increment n s) = NaN.
Proof.
  intros Hs. induction n as [|n IH]; [exact Hs|].
  change (snd (fs_step h increment (fs_state h increment n s)) = NaN).
  destruct (fs_state h increment n s) as [x y]. simpl in IH. subst y. reflexivity.
Qed.

(** An increment that is NaN at the abscissa of pass [j] makes every
    value from pass [j + 1] on NaN. *)
Lemma fs_nan_increment (h : number) (increment : number -> number)
    (s0 : number * number) (j k : nat) :
  increment (fst (fs_state h increment j s0)) = NaN -> j < k ->
  snd (fs_state h increment k s0) = NaN.
Proof.
  intros Hi Hlt. replace k with ((k - S j) + S j)%nat by lia.
  rewrite fs_state_add. apply fs_iter_nan_y. rewrite fs_state_S.
  destruct (fs_state h increment j s0) as [x y]. simpl in *. rewrite Hi. apply add_nan_r.
Qed.

(** Undefined propagation, for both integrators.  Once the running
    value [y] is NaN it stays NaN at every later pass, whatever the
    increments. *)
Theorem fixed_step_nan_sticky (h : number) (increment : number -> number)
    (s0 : number * number) (j k : nat) :
  snd (fs_state h increment j s0) = NaN -> j <= k -> snd (fs_state h increment k s0) = NaN.
Proof.
  intros Hj Hle. replace k with ((k - j) + j)%nat by lia.
  rewrite fs_state_add. now apply fs_iter_nan_y.
Qed.
End FixedStepBinary64.
