(* ===== verification/Euler.v ===== *)
(** * Euler's method: [eulerMethod] (src/index.js, lines 91-107)

<<
    function eulerMethod(eq, x0, h = 0.1, steps = 10) {
      let x = x0;
      let y = evaluateFunction(eq, x);
      ... Initial value: y(x) = y ...
      for (let i = 1; i <= steps; i++) {
        let slope = evaluateFunction(eq, x);
        ... Step i: Slope at x = x is f(x) = slope ...
        y = y + h * slope;
        x = x + h;
        ... y(x) = y + h*f(x) = y ...
      }
    }
>>
    The loop is a [for_loop] over the state [(x, y)]; its body appends the
    two lines of a step.  The specification is the iterated step map
    [euler_step]; [eulerMethod_refines] proves the trace is the one it
    predicts, [eulerMethod_chained] the invariants of the design
    ([x_after = x_before + h], the next step starts where this one ends,
    exactly [steps] steps numbered from 1). *)

From Stdlib Require Import ZArith String List Lia SpecFloat.
From S2P Require Import Prelude Binary64 Evaluate FixedStep.
Import ListNotations.

(** The lines [eulerMethod] appends to [detailedSteps]. *)
Inductive euler_line (N : Type) : Type :=
  (** [<strong>Euler's Method Steps:</strong>] *)
  | EHeader
  (** [Initial value: y(x) = y] *)
  | EInitial (x y : N)
  (** [Step i:] and [Slope at x = x is f(x) = slope] *)
  | EStep (i : nat) (x slope : N)
  (** [y(x) = y + h*f(x) = y] *)
  | EValue (x y : N).
Arguments EHeader {N}.
Arguments EInitial {N} x y.
Arguments EStep {N} i x slope.
Arguments EValue {N} x y.

Section Euler.
Context {N : Type} `{Arith N}.
Local Open Scope nm_scope.

(** [evaluateFunction(eq, ·)] *)
Variable f : N -> N.
Variable h : N.
Variable steps : nat.

(** One pass of the loop body at counter [i] on the state [(x, y)]. *)
Definition euler_body (i : nat) (s : N * N) : list (euler_line N) * (N * N) :=
  let '(x, y) := s in
  let slope := f x in
  let y' := y + h * slope in
  let x' := x + h in
  ([EStep i x slope; EValue x' y'], (x', y')).

Definition eulerMethod_core (x0 : N) : list (euler_line N) :=
  let y0 := f x0 in
  EHeader :: EInitial x0 y0 :: for_loop euler_body steps 1 (x0, y0).

(** ** Specification: the iterated Euler step *)

(** The increment of a pass: [h * slope] with [slope = f(x)]. *)
Definition euler_increment (x : N) : N := h * f x.

Definition euler_step : N * N -> N * N := fs_step h euler_increment.

(** The state [(x_j, y_j)] after [j] steps from [(x0, f(x0))]. *)
Definition euler_state (j : nat) (x0 : N) : N * N := fs_state h euler_increment j (x0, f x0).

(** The lines of step [j + 1]. *)
Definition euler_block (x0 : N) (j : nat) : list (euler_line N) :=
  let s := euler_state j x0 in
  let s' := euler_state (S j) x0 in
  [EStep (S j) (fst s) (f (fst s)); EValue (fst s') (snd s')].

(** The trace invariant of the design, as a relation: from counter [i]
    and state [(x, y)], each step prints [i], [x] and the slope [f(x)],
    then the value at [x + h], which is [y + h * f(x)]; the next step
    starts from there. *)
Inductive euler_chain : nat -> N -> N -> list (euler_line N) -> Prop :=
  | euler_chain_end i x y : euler_chain i x y []
  | euler_chain_step i x y rest :
      euler_chain (S i) (x + h) (y + h * f x) rest ->
      euler_chain i x y (EStep i x (f x) :: EValue (x + h) (y + h * f x) :: rest).

Lemma euler_body_eq (i : nat) (s : N * N) :
  euler_body i s = ([EStep i (fst s) (f (fst s)); EValue (fst (euler_step s)) (snd (euler_step s))],
                    euler_step s).
Proof. now destruct s. Qed.

Lemma euler_loop_chain (n i : nat) (x y : N) :
  euler_chain i x y (for_loop euler_body n i (x, y)) /\
  length (for_loop euler_body n i (x, y)) = (2 * n)%nat.
Proof.
  revert i x y. induction n as [|n IH]; intros i x y; [split; [constructor | reflexivity]|].
  cbn [for_loop euler_body]. destruct (IH (S i) (x + h) (y + h * f x)) as [Hc Hl].
  split; [now constructor | simpl; lia].
Qed.

(** ** Properties *)

(** The trace of the loop, step by step. *)
Lemma eulerMethod_core_spec (x0 : N) :
  eulerMethod_core x0 = EHeader :: EInitial x0 (f x0) :: flat_map (euler_block x0) (seq 0 steps).
Proof.
  unfold eulerMethod_core. do 2 f_equal.
  rewrite (for_loop_spec _ euler_step _ euler_body_eq). apply flat_map_ext. intros j.
  reflexivity.
Qed.

(** C26: refinement.  The trace of [eulerMethod] is the header, the
    initial value [y(x0) = f(x0)], then for [j = 0 .. steps-1] the lines
    of step [j+1] computed from the [j]-th iterate of the Euler step
    [(x, y) -> (x + h, y + h * f(x))]. *)
Theorem eulerMethod_refines (x0 : N) :
  eulerMethod_core x0 = EHeader :: EInitial x0 (f x0) :: flat_map (euler_block x0) (seq 0 steps).
Proof. exact (eulerMethod_core_spec x0). Qed.

(** C27: the trace invariant.  After the header and the initial value
    [y(x0) = f(x0)], the trace has exactly [steps] steps, numbered
    [1 .. steps]; each ends at [x_before + h] with [y_before + h * slope],
    where the slope is [f(x_before)], and the next step starts from that
    point. *)
Theorem eulerMethod_chained (x0 : N) :
  exists rest, eulerMethod_core x0 = EHeader :: EInitial x0 (f x0) :: rest /\
               euler_chain 1 x0 (f x0) rest /\ length rest = (2 * steps)%nat.
Proof. eexists. split; [reflexivity | apply euler_loop_chain]. Qed.
End Euler.

(** The program's [eulerMethod(eq, x0, h, steps)]; the page passes the
    parsed step size for [h] and the default [steps = 10]. *)
Definition eulerMethod `{MathEvaluate} `{NumberToString}
    (eq : string) (x0 h : number) (steps : nat) : list (euler_line number) :=
  eulerMethod_core (evaluateFunction eq) h steps x0.

(** ** Euler's method on JavaScript numbers *)

Section EulerBinary64.
Variable f : number -> number.
Local Open Scope nm_scope.

(** A NaN step size (what the page passes when the step-size field
    is empty: [parseFloat("")] is NaN, and an explicit argument disables
    the default [h = 0.1]) makes every printed value [y(x) = ...] NaN,
    at a NaN abscissa. *)
Theorem eulerMethod_nan_step_size (steps : nat) (x0 : number) :
  Forall (fun l => match l with EValue x y => x = NaN /\ y = NaN | _ => True end)
         (eulerMethod_core f NaN steps x0).
Proof.
  rewrite eulerMethod_core_spec. repeat constructor.
  apply Forall_flat_map, Forall_forall. intros j _.
  unfold euler_block. repeat constructor; simpl; autorewrite with nm_rw; reflexivity.
Qed.

(** C31: undefined propagation in Euler's method.  When the slope [f(x_j)]
    sampled at step [j + 1] is NaN, every later value [y_k] ([k > j]) is
    NaN: by [eulerMethod_core_spec] these are the values the lines
    [y(x) = y + h*f(x) = ...] of steps [j + 1 .. steps] print. *)
Theorem eulerMethod_nan_propagates (h x0 : number) (j k : nat) :
  f (fst (euler_state f h j x0)) = NaN -> j < k -> snd (euler_state f h k x0) = NaN.
Proof.
  intros Hf Hlt. apply (fs_nan_increment _ _ _ j); [|exact Hlt].
  change (euler_increment f h (fst (euler_state f h j x0)) = NaN).
  unfold euler_increment at 1. rewrite Hf. apply n_mul_nan_r.
Qed.
End EulerBinary64.

(** The identity slope [f(x) = x], as math.js evaluates the text [x]. *)
Definition slope_x (x : number) : number := x.

(** The design's test: Euler on [y' = x] from [x0 = 0] with [h = 0.1]
    and 10 steps ends near [0.45] (within [1e-12]), below the exact value
    [0.5]; the abscissa reached is the double [0.9999999999999999], not
    [1.0], because [0.1] is not a binary fraction. *)
Theorem euler_linear_example :
  let s := euler_state slope_x (n_lit 1 (-1)) 10 (n_lit 0 0) in
  js_lt (js_abs (snd s - n_lit 45 (-2))%nm) (n_lit 1 (-12)) = true /\
  js_lt (snd s) (n_lit 5 (-1)) = true /\
  fst s = n_lit 9999999999999999 (-16).
Proof. vm_compute. repeat split. Qed.

Lemma fixed_step_nan_sticky_witness :
  snd (euler_state slope_x NaN 1 (n_lit 0 0)) = NaN /\
  snd (euler_state slope_x NaN 5 (n_lit 0 0)) = NaN.
Proof.
  split; [reflexivity|].
  apply (fixed_step_nan_sticky NaN (euler_increment slope_x NaN) (n_lit 0 0, slope_x (n_lit 0 0)) 1 5);
    [reflexivity | lia].
Defined.

(** The slope [0 / x], NaN at [x = 0] only. *)
Definition zero_over (x : number) : number := js_div (n_lit 0 0) x.

Lemma eulerMethod_nan_propagates_witness :
  zero_over (fst (euler_state zero_over (n_lit 1 (-1)) 2 (n_lit (-2) (-1)))) = NaN /\ 2 < 5 /\
  snd (euler_state zero_over (n_lit 1 (-1)) 5 (n_lit (-2) (-1))) = NaN.
Proof.
  split; [vm_compute; reflexivity|]. split; [lia|].
  apply (eulerMethod_nan_propagates zero_over (n_lit 1 (-1)) (n_lit (-2) (-1)) 2 5);
    [vm_compute; reflexivity | lia].
Defined.
