(* ===== verification/RungeKutta.v ===== *)
(** * Fourth-order Runge-Kutta: [rungeKuttaMethod] (src/index.js, lines 110-135)

<<
    function rungeKuttaMethod(eq, x0, h = 0.1, steps = 10) {
      let x = x0;
      let y = evaluateFunction(eq, x);
      ... Initial value: y(x) = y ...
      for (let i = 1; i <= steps; i++) {
        let k1 = h * evaluateFunction(eq, x);
        let k2 = h * evaluateFunction(eq, x + 0.5 * h);
        let k3 = h * evaluateFunction(eq, x + 0.5 * h);
        let k4 = h * evaluateFunction(eq, x + h);
        ... Step i: k1, k2, k3, k4 ...
        y = y + (k1 + 2 * k2 + 2 * k3 + k4) / 6;
        x = x + h;
        ... y(x) = y ...
      }
    }
>>
    Same shape as [Euler]: a [for_loop] over [(x, y)] whose state update
    is [FixedStep.fs_step] with the RK4 increment.  The slope function
    depends on [x] only, so [k2] and [k3] are computed from the same
    argument and are always equal (the design's open question). *)

From Stdlib Require Import ZArith String List Lia SpecFloat.
From S2P Require Import Prelude Binary64 Evaluate FixedStep Euler.
Import ListNotations.

(** The lines [rungeKuttaMethod] appends to [detailedSteps]. *)
Inductive rk_line (N : Type) : Type :=
  (** [<strong>Runge-Kutta 4th Order Method Steps:</strong>] *)
  | RHeader
  (** [Initial value: y(x) = y] *)
  | RInitial (x y : N)
  (** [Step i:] and the four lines [k1 = h*f(x) = ...] to [k4 = h*f(x + h) = ...] *)
  | RStep (i : nat) (k1 k2 k3 k4 : N)
  (** [y(x) = y] *)
  | RValue (x y : N).
Arguments RHeader {N}.
Arguments RInitial {N} x y.
Arguments RStep {N} i k1 k2 k3 k4.
Arguments RValue {N} x y.

Section RungeKutta.
Context {N : Type} `{Arith N}.
Local Open Scope nm_scope.

(** [evaluateFunction(eq, ·)] *)
Variable f : N -> N.
Variable h : N.
Variable steps : nat.

(** The four slope samples at [x]. *)
Definition rk_k1 (x : N) : N := h * f x.
Definition rk_k2 (x : N) : N := h * f (x + n_lit 5 (-1) * h).
Definition rk_k3 (x : N) : N := h * f (x + n_lit 5 (-1) * h).
Definition rk_k4 (x : N) : N := h * f (x + h).

(** [(k1 + 2 * k2 + 2 * k3 + k4) / 6], left to right as JavaScript
    evaluates it. *)
Definition rk_combine (k1 k2 k3 k4 : N) : N :=
  (k1 + n_lit 2 0 * k2 + n_lit 2 0 * k3 + k4) / n_lit 6 0.

(** One pass of the loop body at counter [i] on the state [(x, y)]. *)
Definition rk_body (i : nat) (s : N * N) : list (rk_line N) * (N * N) :=
  let '(x, y) := s in
  let k1 := rk_k1 x in
  let k2 := rk_k2 x in
  let k3 := rk_k3 x in
  let k4 := rk_k4 x in
  let y' := y + rk_combine k1 k2 k3 k4 in
  let x' := x + h in
  ([RStep i k1 k2 k3 k4; RValue x' y'], (x', y')).

Definition rungeKuttaMethod_core (x0 : N) : list (rk_line N) :=
  let y0 := f x0 in
  RHeader :: RInitial x0 y0 :: for_loop rk_body steps 1 (x0, y0).

(** ** Specification: the iterated RK4 step *)

Definition rk_increment (x : N) : N := rk_combine (rk_k1 x) (rk_k2 x) (rk_k3 x) (rk_k4 x).

Definition rk_state (j : nat) (x0 : N) : N * N := fs_state h rk_increment j (x0, f x0).

Definition rk_block (x0 : N) (j : nat) : list (rk_line N) :=
  let x := fst (rk_state j x0) in
  let s' := rk_state (S j) x0 in
  [RStep (S j) (rk_k1 x) (rk_k2 x) (rk_k3 x) (rk_k4 x); RValue (fst s') (snd s')].

(** The trace invariant: each step prints its counter and the four
    samples at the current [x] (with [k2 = k3]), then the value at
    [x + h]; the next step starts there. *)
Inductive rk_chain : nat -> N -> N -> list (rk_line N) -> Prop :=
  | rk_chain_end i x y : rk_chain i x y []
  | rk_chain_step i x y k1 k2 k4 rest :
      k1 = h * f x -> k2 = h * f (x + n_lit 5 (-1) * h) -> k4 = h * f (x + h) ->
      rk_chain (S i) (x + h) (y + rk_combine k1 k2 k2 k4) rest ->
      rk_chain i x y (RStep i k1 k2 k2 k4 :: RValue (x + h) (y + rk_combine k1 k2 k2 k4) :: rest).

Lemma rk_body_eq (i : nat) (s : N * N) :
  rk_body i s =
  (let x := fst s in
   [RStep i (rk_k1 x) (rk_k2 x) (rk_k3 x) (rk_k4 x);
    RValue (fst (fs_step h rk_increment s)) (snd (fs_step h rk_increment s))],
   fs_step h rk_increment s).
Proof. now destruct s. Qed.

Lemma rk_loop_chain (n i : nat) (x y : N) :
  rk_chain i x y (for_loop rk_body n i (x, y)) /\
  length (for_loop rk_body n i (x, y)) = (2 * n)%nat.
Proof.
  revert i x y. induction n as [|n IH]; intros i x y; [split; [constructor | reflexivity]|].
  cbn [for_loop rk_body].
  destruct (IH (S i) (x + h) (y + rk_combine (rk_k1 x) (rk_k2 x) (rk_k3 x) (rk_k4 x))) as [Hc Hl].
  split; [change (rk_k3 x) with (rk_k2 x); apply rk_chain_step; [reflexivity .. | exact Hc]
         | simpl; lia].
Qed.

(** ** Properties *)

(** The trace of the loop, step by step. *)
Lemma rungeKuttaMethod_core_spec (x0 : N) :
  rungeKuttaMethod_core x0 = RHeader :: RInitial x0 (f x0) :: flat_map (rk_block x0) (seq 0 steps).
Proof.
  unfold rungeKuttaMethod_core. do 2 f_equal.
  rewrite (for_loop_spec _ (fs_step h rk_increment) _ rk_body_eq). apply flat_map_ext. intros j.
  reflexivity.
Qed.

(** C28: refinement.  The trace of [rungeKuttaMethod] is the header, the
    initial value [y(x0) = f(x0)], then for [j = 0 .. steps-1] the four
    samples at [x_j] and the value of the [(j+1)]-th iterate of the RK4
    step [(x, y) -> (x + h, y + (k1 + 2 k2 + 2 k3 + k4) / 6)]. *)
Theorem rungeKuttaMethod_refines (x0 : N) :
  rungeKuttaMethod_core x0 = RHeader :: RInitial x0 (f x0) :: flat_map (rk_block x0) (seq 0 steps).
Proof. exact (rungeKuttaMethod_core_spec x0). Qed.

(** C29: the trace invariant.  After the header and the initial value,
    the trace has exactly [steps] steps numbered [1 .. steps]; each
    prints [k1 = h f(x)], [k2 = k3 = h f(x + 0.5 h)], [k4 = h f(x + h)]
    at its starting [x], ends at [x + h] with
    [y + (k1 + 2 k2 + 2 k3 + k4) / 6], and the next step starts there. *)
Theorem rungeKuttaMethod_chained (x0 : N) :
  exists rest, rungeKuttaMethod_core x0 = RHeader :: RInitial x0 (f x0) :: rest /\
               rk_chain 1 x0 (f x0) rest /\ length rest = (2 * steps)%nat.
Proof. eexists. split; [reflexivity | apply rk_loop_chain]. Qed.
End RungeKutta.

(** The program's [rungeKuttaMethod(eq, x0, h, steps)]; the page passes the
    parsed step size for [h] and the default [steps = 10]. *)
Definition rungeKuttaMethod `{MathEvaluate} `{NumberToString}
    (eq : string) (x0 h : number) (steps : nat) : list (rk_line number) :=
  rungeKuttaMethod_core (evaluateFunction eq) h steps x0.

(** ** Runge-Kutta on JavaScript numbers *)

Section RungeKuttaBinary64.
Variable f : number -> number.
Local Open Scope nm_scope.

(** A NaN step size (an empty step-size field) makes every sample
    [k1 .. k4] and every printed value [y(x) = ...] NaN, at a NaN
    abscissa. *)
Theorem rungeKuttaMethod_nan_step_size (steps : nat) (x0 : number) :
  Forall (fun l => match l with
                   | RValue x y => x = NaN /\ y = NaN
                   | RStep _ k1 k2 k3 k4 => k1 = NaN /\ k2 = NaN /\ k3 = NaN /\ k4 = NaN
                   | _ => True end)
         (rungeKuttaMethod_core f NaN steps x0).
Proof.
  rewrite rungeKuttaMethod_core_spec. repeat constructor.
  apply Forall_flat_map, Forall_forall. intros j _.
  unfold rk_block. repeat constructor; simpl; autorewrite with nm_rw; reflexivity.
Qed.

(** C32: undefined propagation in RK4.  When one of the three slope samples
    of step [j + 1] ([f] at [x_j], [x_j + 0.5 h] or [x_j + h]) is NaN,
    every later value [y_k] ([k > j]) is NaN. *)
Theorem rungeKuttaMethod_nan_propagates (h x0 : number) (j k : nat) :
  let x := fst (rk_state f h j x0) in
  f x = NaN \/ f (x + n_lit 5 (-1) * h) = NaN \/ f (x + h) = NaN ->
  j < k -> snd (rk_state f h k x0) = NaN.
Proof.
  intros x Hf Hlt. apply (fs_nan_increment _ _ _ j); [|exact Hlt].
  change (rk_increment f h x = NaN).
  unfold rk_increment at 1. unfold rk_combine, rk_k1, rk_k2, rk_k3, rk_k4.
  destruct Hf as [Hf | [Hf | Hf]]; rewrite Hf; autorewrite with nm_rw; reflexivity.
Qed.
End RungeKuttaBinary64.

(** The identity slope [f(x) = x]. *)
Definition rk_slope_x (x : number) : number := x.

(** The design's test: RK4 on [y' = x] from [x0 = 0] with [h = 0.1]
    and 10 steps ends within [1e-10] of the exact value [0.5] (the
    abscissa reached is again the double [0.9999999999999999]). *)
Theorem rk4_linear_example :
  let s := rk_state rk_slope_x (n_lit 1 (-1)) 10 (n_lit 0 0) in
  js_lt (js_abs (snd s - n_lit 5 (-1))%nm) (n_lit 1 (-10)) = true /\
  fst s = n_lit 9999999999999999 (-16).
Proof. vm_compute. split; reflexivity. Qed.

Lemma rungeKuttaMethod_nan_propagates_witness :
  zero_over (fst (rk_state zero_over (n_lit 1 (-1)) 0 (n_lit (-1) (-1))) + n_lit 1 (-1))%nm = NaN /\
  snd (rk_state zero_over (n_lit 1 (-1)) 3 (n_lit (-1) (-1))) = NaN.
Proof.
  split; [vm_compute; reflexivity|].
  apply (rungeKuttaMethod_nan_propagates zero_over (n_lit 1 (-1)) (n_lit (-1) (-1)) 0 3);
    [right; right; vm_compute; reflexivity | lia].
Defined.
