(* ===== verification/Page.v ===== *)
(** * The page: method selection and the Solve handler (src/index.js, lines 1-60)

    The script keeps one piece of mutable state, [let method =
    'newtonRaphson'] (line 10), and writes its results into the [output]
    element.  Three click handlers set [method] and show a message
    (lines 16-27, through [displayMessage], lines 30-32); the Solve
    handler (lines 35-60) reads the three input fields, checks
    [!equation || isNaN(initialValue)], dispatches on [method] and writes
    the method's result.

    The page is modelled as a state ([page]: the value of [method] and
    what the output element shows) and a deterministic step function on
    the user's events ([page_step]); [reachable] is the set of states the
    page can be in.  What the output element shows is kept structured
    ([Message] for [displayMessage], the traces of the three methods);
    turning traces into HTML text is the formatter's concern.  The footer
    year (line 13) is I/O and is not modelled. *)

From Stdlib Require Import ZArith String List Bool SpecFloat.
From S2P Require Import Prelude Binary64 NumberString Evaluate Newton Euler RungeKutta.
Import ListNotations.
Local Open Scope string_scope.

(** What the [output] element shows. *)
Inductive output : Type :=
  (** The initial content of the element (from the HTML page, not the script) *)
  | Initial
  (** [displayMessage(message)]: [<p>message</p>] *)
  | Message (message : string)
  | NewtonResult (trace : list (nr_line number))
  | EulerResult (trace : list (euler_line number))
  | RungeKuttaResult (trace : list (rk_line number))
  (** The [default] branch of the [switch]: a bare string *)
  | Text (s : string).

Record page : Type := mkPage {
  method : string;
  shown : output
}.

(** The user's actions; [ClickSolve] carries the three input fields'
    values at the time of the click. *)
Inductive event : Type :=
  | ClickNewtonRaphson
  | ClickEuler
  | ClickRungeKutta
  | ClickSolve (equation initialValue stepSize : string).

(** [let method = 'newtonRaphson'] *)
Definition initial_page : page := mkPage "newtonRaphson" Initial.

Definition displayMessage (message : string) (p : page) : page :=
  mkPage (method p) (Message message).

(** The three method buttons (lines 16-27). *)
Definition select_method (m message : string) (p : page) : page :=
  displayMessage message (mkPage m (shown p)).

Section Solve.
Context `{MathEvaluate} `{NumberToString}.

(** The Solve handler (lines 35-60). *)
Definition solve (equation initialValueText stepSizeText : string) (p : page) : page :=
    let initialValue := parseFloat initialValueText in
    let stepSize := parseFloat stepSizeText in
    if String.eqb equation "" || isNaN initialValue then
      displayMessage "Please enter valid equation and initial value." p
    else
      let result :=
        if String.eqb (method p) "newtonRaphson" then
          NewtonResult (newtonRaphson equation initialValue 10 (n_lit 1 (-6)))
        else if String.eqb (method p) "euler" then
          EulerResult (eulerMethod equation initialValue stepSize 10)
        else if String.eqb (method p) "rungeKutta" then
          RungeKuttaResult (rungeKuttaMethod equation initialValue stepSize 10)
        else Text "Please select a method." in
      mkPage (method p) result.

Definition page_step (p : page) (e : event) : page :=
    match e with
    | ClickNewtonRaphson => select_method "newtonRaphson" "Newton-Raphson method selected." p
    | ClickEuler => select_method "euler" "Euler's method selected." p
    | ClickRungeKutta => select_method "rungeKutta" "Runge-Kutta method selected." p
    | ClickSolve equation initialValue stepSize => solve equation initialValue stepSize p
    end.

(** The states the page reaches from its initial state. *)
Inductive reachable : page -> Prop :=
    | reachable_initial : reachable initial_page
    | reachable_step p e : reachable p -> reachable (page_step p e).

(** The page after a sequence of events. *)
Definition run (events : list event) : page := fold_left page_step events initial_page.
End Solve.

(** The three values [method] is compared with. *)
Definition known_method (m : string) : bool :=
  String.eqb m "newtonRaphson" || String.eqb m "euler" || String.eqb m "rungeKutta".

(** The method named by the most recent method button in a sequence of
    events, ["newtonRaphson"] when there is none. *)
Definition last_selected_step (m : string) (e : event) : string :=
  match e with
  | ClickNewtonRaphson => "newtonRaphson"
  | ClickEuler => "euler"
  | ClickRungeKutta => "rungeKutta"
  | ClickSolve _ _ _ => m
  end.

Definition last_selected (events : list event) : string :=
  fold_left last_selected_step events "newtonRaphson".

Section PageProperties.
Context `{MathEvaluate} `{NumberToString}.

Lemma solve_method (equation a s : string) (p : page) : method (solve equation a s p) = method p.
Proof. unfold solve. repeat case_if; reflexivity. Qed.

Lemma page_step_method (p : page) (e : event) :
  method (page_step p e) =
  match e with
  | ClickNewtonRaphson => "newtonRaphson"
  | ClickEuler => "euler"
  | ClickRungeKutta => "rungeKutta"
  | ClickSolve _ _ _ => method p
  end.
Proof. destruct e; [reflexivity .. | apply solve_method]. Qed.

Lemma solve_method_only (equation a s : string) (p q : page) :
  method p = method q -> solve equation a s p = solve equation a s q.
Proof. intros Hm. unfold solve, displayMessage. now rewrite Hm. Qed.

Lemma reachable_method (p : page) : reachable p -> known_method (method p) = true.
Proof.
  induction 1 as [|p e _ IH]; [reflexivity|].
  rewrite page_step_method. destruct e; [reflexivity .. | exact IH].
Qed.

(** C20: the page's invariant.  In every reachable state the variable
    [method] holds one of the three names the Solve handler dispatches
    on. *)
Theorem reachable_known_method (p : page) : reachable p -> known_method (method p) = true.
Proof. exact (reachable_method p). Qed.

Lemma run_method_last (events : list event) : method (run events) = last_selected events.
Proof.
  induction events as [|e events IH] using rev_ind; [reflexivity|].
  unfold run, last_selected in *. rewrite !fold_left_app. simpl.
  rewrite page_step_method, IH. now destruct e.
Qed.

(** C21: the variable [method] always holds the method of the most recent
    method button ([newtonRaphson] before any click): Solve clicks do not
    change it. *)
Theorem run_method (events : list event) : method (run events) = last_selected events.
Proof. exact (run_method_last events). Qed.

Lemma run_snoc (events : list event) (e : event) : run (events ++ [e]) = page_step (run events) e.
Proof. unfold run. now rewrite fold_left_app. Qed.

Lemma reachable_run (events : list event) : reachable (run events).
Proof.
  induction events as [|e events IH] using rev_ind; [constructor|].
  rewrite run_snoc. now constructor.
Qed.

(** Idempotence of Solve.  The page keeps no state between two
    Solve clicks but [method]: clicking Solve again with the same inputs
    shows exactly what the first click showed. *)
Theorem solve_idempotent (p : page) (equation a s : string) :
  page_step (page_step p (ClickSolve equation a s)) (ClickSolve equation a s)
  = page_step p (ClickSolve equation a s).
Proof. simpl. apply solve_method_only, solve_method. Qed.

(** C22: input validation.  A Solve click with an empty equation, or an
    initial value that [parseFloat] reads as NaN, only shows the message
    [Please enter valid equation and initial value.]; the selected method
    is kept and no method runs. *)
Theorem solve_rejects_invalid (p : page) (equation a s : string) :
  equation = "" \/ isNaN (parseFloat a) = true ->
  page_step p (ClickSolve equation a s)
  = mkPage (method p) (Message "Please enter valid equation and initial value.").
Proof.
  intros Hbad. simpl. unfold solve.
  replace (String.eqb equation "" || isNaN (parseFloat a))%bool with true; [reflexivity|].
  destruct Hbad as [-> | ->]; [reflexivity | symmetry; apply orb_true_r].
Qed.

(** C23: the validation reads the initial value with [parseFloat], which
    takes the longest numeric prefix: an initial value [1abc] passes the
    check and the page shows exactly what it shows for [1]. *)
Theorem solve_accepts_numeric_prefix (p : page) (equation s : string) :
  page_step p (ClickSolve equation "1abc" s) = page_step p (ClickSolve equation "1" s).
Proof.
  simpl. unfold solve.
  replace (parseFloat "1abc") with (parseFloat "1") by (vm_compute; reflexivity). reflexivity.
Qed.

(** C24: the default branch of the [switch] is dead.  In every reachable
    state a Solve click never shows the text [Please select a method.]
    (nor any bare text): the page shows a message or a method's trace. *)
Theorem solve_never_default (p : page) (equation a s : string) (t : string) :
  reachable p -> shown (page_step p (ClickSolve equation a s)) <> Text t.
Proof.
  intros Hr. pose proof (reachable_method p Hr) as Hk. unfold known_method in Hk.
  simpl. unfold solve. revert Hk.
  destruct (String.eqb equation "" || isNaN (parseFloat a))%bool; [discriminate|].
  destruct (String.eqb (method p) "newtonRaphson"); [discriminate|].
  destruct (String.eqb (method p) "euler"); [discriminate|].
  destruct (String.eqb (method p) "rungeKutta"); discriminate.
Qed.

(** Every value [y] a result prints is NaN, at a NaN abscissa, and so is
    every sample [k1 .. k4] of a Runge-Kutta result. *)
Definition all_values_nan (o : output) : Prop :=
  match o with
  | EulerResult tr => Forall (fun l => match l with EValue x y => x = NaN /\ y = NaN | _ => True end) tr
  | RungeKuttaResult tr =>
      Forall (fun l => match l with
                       | RValue x y => x = NaN /\ y = NaN
                       | RStep _ k1 k2 k3 k4 => k1 = NaN /\ k2 = NaN /\ k3 = NaN /\ k4 = NaN
                       | _ => True end) tr
  | _ => False
  end.

(** C25: an empty step-size field.  When the last method selected is Euler
    or Runge-Kutta and the equation and initial value are accepted, a
    Solve click with the step-size field empty runs the method with
    [h = parseFloat("") = NaN] (the default [h = 0.1] does not apply to
    an explicit argument): every step it prints has a NaN abscissa and a
    NaN value, and every Runge-Kutta sample is NaN; only the initial
    value [y(x0) = f(x0)], printed before the first step, is a Number. *)
Theorem solve_empty_step_size (events : list event) (equation a : string) :
  last_selected events <> "newtonRaphson" -> equation <> "" -> isNaN (parseFloat a) = false ->
  all_values_nan (shown (run (events ++ [ClickSolve equation a ""]))).
Proof.
  intros Hm He Ha. rewrite run_snoc. simpl. unfold solve.
  rewrite (proj2 (String.eqb_neq equation "") He), Ha. simpl.
  pose proof (reachable_method _ (reachable_run events)) as Hk.
  rewrite run_method_last in *. unfold known_method in Hk.
  rewrite (proj2 (String.eqb_neq _ _) Hm) in *. simpl in Hk |- *.
  destruct (String.eqb (last_selected events) "euler"); [apply eulerMethod_nan_step_size|].
  simpl in Hk. rewrite Hk. apply rungeKuttaMethod_nan_step_size.
Qed.
End PageProperties.

(** ** Witnesses, with a math.js stand-in that throws on every text *)

Definition throwing_math : MathEvaluate := fun _ => None.
Definition empty_text : NumberToString := fun _ => EmptyString.

Lemma reachable_known_method_witness :
  @reachable throwing_math empty_text (@page_step throwing_math empty_text initial_page ClickEuler) /\
  known_method (method (@page_step throwing_math empty_text initial_page ClickEuler)) = true.
Proof.
  assert (Hr : @reachable throwing_math empty_text (@page_step throwing_math empty_text initial_page ClickEuler))
    by (constructor; constructor).
  split; [exact Hr | exact (@reachable_known_method throwing_math empty_text _ Hr)].
Defined.

Lemma solve_rejects_invalid_witness :
  isNaN (parseFloat "abc") = true /\
  @page_step throwing_math empty_text initial_page (ClickSolve "x^2-2" "abc" "0.1")
  = mkPage "newtonRaphson" (Message "Please enter valid equation and initial value.").
Proof.
  split; [vm_compute; reflexivity|].
  apply (@solve_rejects_invalid throwing_math empty_text initial_page "x^2-2" "abc" "0.1").
  right; vm_compute; reflexivity.
Defined.

Lemma solve_never_default_witness :
  @reachable throwing_math empty_text initial_page /\
  shown (@page_step throwing_math empty_text initial_page (ClickSolve "x" "1" "0.1"))
  <> Text "Please select a method.".
Proof.
  split; [constructor|].
  apply (@solve_never_default throwing_math empty_text); constructor.
Defined.

Lemma solve_empty_step_size_witness :
  last_selected [ClickEuler] <> "newtonRaphson" /\ "x" <> "" /\ isNaN (parseFloat "0") = false /\
  @all_values_nan (shown (@run throwing_math empty_text ([ClickEuler] ++ [ClickSolve "x" "0" ""]))).
Proof.
  split; [discriminate|]. split; [discriminate|]. split; [vm_compute; reflexivity|].
  apply (@solve_empty_step_size throwing_math empty_text [ClickEuler] "x" "0");
    [discriminate | discriminate | vm_compute; reflexivity].
Defined.
