(* ===== verification/Render.v ===== *)
(** * The HTML text the page shows

    The three methods build their result as a string, [detailedSteps],
    appending template strings in which numbers are printed with
    [toFixed(6)] (values) and [toFixed(2)] (abscissas of the integrators),
    counters with Number::toString, and the final approximate root with
    Number::toString ([${x}]); [displayMessage] wraps its text in
    [<p>...</p>].  The traces of [Newton], [Euler] and [RungeKutta] record
    the appended lines; this file renders each line to the exact text the
    source appends, and the page's output element to its [innerHTML]. *)

From Stdlib Require Import ZArith String List SpecFloat.
From S2P Require Import Prelude Binary64 NumberString NumberRoundTrip Evaluate Newton Euler RungeKutta Page.
Import ListNotations.
Local Open Scope string_scope.

(** A loop counter or [maxIter], printed by Number::toString. *)
Definition counter (n : nat) : string := Z_digits (Z.of_nat n).

(** Lines 65 and 71-86. *)
Definition render_nr_line (l : nr_line number) : string :=
  match l with
  | NRHeader => "<strong>Newton-Raphson Method Steps:</strong><br>"
  | NRIteration k x fx fpx =>
      "Iteration " ++ counter k ++ ":<br>" ++
      "&nbsp;&nbsp;Current x: " ++ toFixed x 6 ++ "<br>" ++
      "&nbsp;&nbsp;f(x) = " ++ toFixed fx 6 ++ "<br>" ++
      "&nbsp;&nbsp;f'(x) = " ++ toFixed fpx 6 ++ "<br>"
  | NRRootFound x => "&nbsp;&nbsp;Root found at x = " ++ toFixed x 6 ++ "<br>"
  | NRNewX x => "&nbsp;&nbsp;New x = x - f(x)/f'(x) = " ++ toFixed x 6 ++ "<br><br>"
  | NRApprox n x => "Approximate root after " ++ counter n ++ " iterations: " ++ Number_toString x
  end.

(** Lines 94-95 and 99-103. *)
Definition render_euler_line (l : euler_line number) : string :=
  match l with
  | EHeader => "<strong>Euler's Method Steps:</strong><br>"
  | EInitial x y => "Initial value: y(" ++ toFixed x 2 ++ ") = " ++ toFixed y 6 ++ "<br><br>"
  | EStep i x slope =>
      "Step " ++ counter i ++ ":<br>" ++
      "&nbsp;&nbsp;Slope at x = " ++ toFixed x 2 ++ " is f(" ++ toFixed x 2 ++ ") = " ++ toFixed slope 6 ++ "<br>"
  | EValue x y => "&nbsp;&nbsp;y(" ++ toFixed x 2 ++ ") = y + h*f(x) = " ++ toFixed y 6 ++ "<br><br>"
  end.

(** Lines 113-114, 122-126 and 131. *)
Definition render_rk_line (l : rk_line number) : string :=
  match l with
  | RHeader => "<strong>Runge-Kutta 4th Order Method Steps:</strong><br>"
  | RInitial x y => "Initial value: y(" ++ toFixed x 2 ++ ") = " ++ toFixed y 6 ++ "<br><br>"
  | RStep i k1 k2 k3 k4 =>
      "Step " ++ counter i ++ ":<br>" ++
      "&nbsp;&nbsp;k1 = h*f(x) = " ++ toFixed k1 6 ++ "<br>" ++
      "&nbsp;&nbsp;k2 = h*f(x + 0.5*h) = " ++ toFixed k2 6 ++ "<br>" ++
      "&nbsp;&nbsp;k3 = h*f(x + 0.5*h) = " ++ toFixed k3 6 ++ "<br>" ++
      "&nbsp;&nbsp;k4 = h*f(x + h) = " ++ toFixed k4 6 ++ "<br>"
  | RValue x y => "&nbsp;&nbsp;y(" ++ toFixed x 2 ++ ") = " ++ toFixed y 6 ++ "<br><br>"
  end.

Definition render {L : Type} (line : L -> string) (tr : list L) : string :=
  fold_left (fun acc l => acc ++ line l) tr EmptyString.

(** [outputDiv.innerHTML] for what the element shows; the initial content
    comes from the HTML page and is left empty here. *)
Definition innerHTML (o : output) : string :=
  match o with
  | Initial => EmptyString
  | Message m => "<p>" ++ m ++ "</p>"
  | NewtonResult tr => render render_nr_line tr
  | EulerResult tr => render render_euler_line tr
  | RungeKuttaResult tr => render render_rk_line tr
  | Text s => s
  end.

(** Whether [s] ends with [suf]. *)
Definition ends_with (suf s : string) : bool :=
  String.eqb (substring (String.length s - String.length suf) (String.length suf) s) suf.

(** ** Rendering is a homomorphism from traces to text *)

Lemma render_from {L : Type} (line : L -> string) (tr : list L) (acc : string) :
  fold_left (fun acc l => acc ++ line l) tr acc = acc ++ render line tr.
Proof.
  revert acc. induction tr as [|l tr IH]; intros acc; simpl; [now rewrite string_app_empty_r|].
  unfold render in *. simpl. rewrite IH, (IH (line l)). apply string_app_assoc.
Qed.

Lemma render_cons {L : Type} (line : L -> string) (l : L) (tr : list L) :
  render line (l :: tr) = line l ++ render line tr.
Proof. unfold render at 1. simpl. apply render_from. Qed.

Lemma render_app {L : Type} (line : L -> string) (tr1 tr2 : list L) :
  render line (tr1 ++ tr2) = render line tr1 ++ render line tr2.
Proof. unfold render at 1. rewrite fold_left_app. apply render_from. Qed.

#[export] Hint Rewrite @render_cons @render_app : nm_rw.

(** ** Properties *)

(** C7: the text of a Newton-Raphson run.  Whatever the function, the
    HTML [newtonRaphson] returns starts with its title and ends with
    [Root found at x = ] and the first iterate [x_k] (k below [maxIter])
    with [|f(x_k)| < tol] printed with [toFixed(6)], or, when there is
    none, with [Approximate root after maxIter iterations: ] and the
    [maxIter]-th iterate printed in full by Number::toString. *)
Theorem newtonRaphson_html (f : number -> number) (maxIter : nat) (tol x0 : number) :
  exists body,
    render render_nr_line (newtonRaphson_core f maxIter tol x0) =
    "<strong>Newton-Raphson Method Steps:</strong><br>" ++ body ++
    match nr_first_converged f maxIter tol x0 with
    | Some k => "&nbsp;&nbsp;Root found at x = " ++ toFixed (nr_iterate f k x0) 6 ++ "<br>"
    | None => "Approximate root after " ++ counter maxIter ++ " iterations: "
              ++ Number_toString (nr_iterate f maxIter x0)
    end.
Proof.
  rewrite newtonRaphson_core_spec. unfold nr_spec_trace, nr_spec_from.
  fold (nr_first_converged f maxIter tol x0).
  destruct (nr_first_converged f maxIter tol x0) as [k|]; unfold nr_stop;
    autorewrite with nm_rw; change (render render_nr_line []) with EmptyString;
    rewrite string_app_empty_r.
  - eexists. f_equal. rewrite <- string_app_assoc. reflexivity.
  - eexists. reflexivity.
Qed.

(** C8: the approximate root is printed exactly.  When no iterate below
    [maxIter] passes the tolerance test, the HTML [newtonRaphson] returns
    ends with [Approximate root after maxIter iterations: ] and a text
    that parseFloat reads back as the [maxIter]-th iterate itself, bit for
    bit: Number::toString ([${x}]) loses nothing, unlike the [toFixed(6)]
    of the other lines.  The exceptions are [-0], printed [0], and a
    Number whose digits the 1-to-17-digit search would not find. *)
Theorem newtonRaphson_approx_roundtrip (f : number -> number) (maxIter : nat) (tol x0 : number) :
  nr_first_converged f maxIter tol x0 = None ->
  nr_iterate f maxIter x0 <> S754_zero true ->
  digits_found (nr_iterate f maxIter x0) = true ->
  exists body t,
    render render_nr_line (newtonRaphson_core f maxIter tol x0) =
      "<strong>Newton-Raphson Method Steps:</strong><br>" ++ body ++
      ("Approximate root after " ++ counter maxIter ++ " iterations: " ++ t) /\
    parseFloat t = nr_iterate f maxIter x0.
Proof.
  intros Hc Hz Hd. rewrite newtonRaphson_core_spec. unfold nr_spec_trace, nr_spec_from.
  fold (nr_first_converged f maxIter tol x0). rewrite Hc.
  autorewrite with nm_rw. change (render render_nr_line []) with EmptyString.
  rewrite string_app_empty_r. do 2 eexists. split; [reflexivity|].
  now apply Number_toString_roundtrip.
Qed.

(** The text of an Euler run with at least one step: its title, the
    initial value, the steps, and the line of the final state. *)
Lemma eulerMethod_html_spec (f : number -> number) (h : number) (n : nat) (x0 : number) :
  exists body,
    render render_euler_line (eulerMethod_core f h (S n) x0) =
    "<strong>Euler's Method Steps:</strong><br>" ++
    ("Initial value: y(" ++ toFixed x0 2 ++ ") = " ++ toFixed (f x0) 6 ++ "<br><br>") ++ body ++
    ("&nbsp;&nbsp;y(" ++ toFixed (fst (euler_state f h (S n) x0)) 2 ++ ") = y + h*f(x) = "
     ++ toFixed (snd (euler_state f h (S n) x0)) 6 ++ "<br><br>").
Proof.
  rewrite eulerMethod_core_spec. autorewrite with nm_rw. unfold euler_block at 2.
  autorewrite with nm_rw. change (render render_euler_line []) with EmptyString.
  rewrite string_app_empty_r. eexists. do 2 f_equal. rewrite <- string_app_assoc. reflexivity.
Qed.

(** The same for a Runge-Kutta run. *)
Lemma rungeKuttaMethod_html_spec (f : number -> number) (h : number) (n : nat) (x0 : number) :
  exists body,
    render render_rk_line (rungeKuttaMethod_core f h (S n) x0) =
    "<strong>Runge-Kutta 4th Order Method Steps:</strong><br>" ++
    ("Initial value: y(" ++ toFixed x0 2 ++ ") = " ++ toFixed (f x0) 6 ++ "<br><br>") ++ body ++
    ("&nbsp;&nbsp;y(" ++ toFixed (fst (rk_state f h (S n) x0)) 2 ++ ") = "
     ++ toFixed (snd (rk_state f h (S n) x0)) 6 ++ "<br><br>").
Proof.
  rewrite rungeKuttaMethod_core_spec. autorewrite with nm_rw. unfold rk_block at 2.
  autorewrite with nm_rw. change (render render_rk_line []) with EmptyString.
  rewrite string_app_empty_r. eexists. do 2 f_equal. rewrite <- string_app_assoc. reflexivity.
Qed.

(** C30: the text of an integrator run.  With at least one step, the
    HTML [eulerMethod] and [rungeKuttaMethod] return starts with the
    method's title and the initial value [y(x0) = f(x0)] ([toFixed(2)]
    and [toFixed(6)]), and ends with the line of the last step printing
    the final state [(x_steps, y_steps)] of the method's iterated step. *)
Theorem integrators_html (f : number -> number) (h : number) (steps : nat) (x0 : number) :
  0 < steps ->
  (exists body,
    render render_euler_line (eulerMethod_core f h steps x0) =
    "<strong>Euler's Method Steps:</strong><br>" ++
    ("Initial value: y(" ++ toFixed x0 2 ++ ") = " ++ toFixed (f x0) 6 ++ "<br><br>") ++ body ++
    ("&nbsp;&nbsp;y(" ++ toFixed (fst (euler_state f h steps x0)) 2 ++ ") = y + h*f(x) = "
     ++ toFixed (snd (euler_state f h steps x0)) 6 ++ "<br><br>")) /\
  (exists body,
    render render_rk_line (rungeKuttaMethod_core f h steps x0) =
    "<strong>Runge-Kutta 4th Order Method Steps:</strong><br>" ++
    ("Initial value: y(" ++ toFixed x0 2 ++ ") = " ++ toFixed (f x0) 6 ++ "<br><br>") ++ body ++
    ("&nbsp;&nbsp;y(" ++ toFixed (fst (rk_state f h steps x0)) 2 ++ ") = "
     ++ toFixed (snd (rk_state f h steps x0)) 6 ++ "<br><br>")).
Proof.
  destruct steps as [|n]; [intros Hlt; inversion Hlt|intros _].
  split; [apply eulerMethod_html_spec | apply rungeKuttaMethod_html_spec].
Qed.

Lemma integrators_html_witness :
  0 < 1 /\
  exists body,
    render render_rk_line (rungeKuttaMethod_core id (n_lit 1 (-1)) 1 (n_lit 0 0)) =
    "<strong>Runge-Kutta 4th Order Method Steps:</strong><br>" ++
    ("Initial value: y(" ++ toFixed (n_lit 0 0) 2 ++ ") = " ++ toFixed (id (n_lit 0 0)) 6 ++ "<br><br>") ++ body ++
    ("&nbsp;&nbsp;y(" ++ toFixed (fst (rk_state id (n_lit 1 (-1)) 1 (n_lit 0 0))) 2 ++ ") = "
     ++ toFixed (snd (rk_state id (n_lit 1 (-1)) 1 (n_lit 0 0))) 6 ++ "<br><br>").
Proof.
  split; [apply Nat.lt_0_1 | apply (integrators_html id (n_lit 1 (-1)) 1 (n_lit 0 0)); apply Nat.lt_0_1].
Defined.

Lemma newtonRaphson_approx_roundtrip_witness :
  exists body t,
    render render_nr_line (newtonRaphson_core x2_minus_2 2 tol_1e6 one) =
      "<strong>Newton-Raphson Method Steps:</strong><br>" ++ body ++
      ("Approximate root after " ++ counter 2 ++ " iterations: " ++ t) /\
    parseFloat t = nr_iterate x2_minus_2 2 one.
Proof.
  apply newtonRaphson_approx_roundtrip; vm_compute; [reflexivity | discriminate | reflexivity].
Defined.
