(* ===== verification/Dom.v ===== *)
(** * The document and the script's effects (src/index.js, lines 1-60)

    [Page] models the handlers as a pure step function on [method] and
    what the output element shows.  This file models the script as the
    browser runs it: the document is a list of elements in document
    order; the script's top level (lines 2-27, 35) looks the elements up
    with [document.getElementById], sets [method], writes the footer year
    and registers the click listeners; the listeners read the input
    fields' values and write the output element.  Every DOM access on a
    [null] handle throws a [TypeError], which stops the code that runs
    (the top level, or one listener) and leaves the changes made before
    it in place; the browser reports it on the console.

    Effects are a small state-and-exception monad [js] over the
    [world].  [dom_refines_page] shows that on a document with all the
    elements the script uses, the browser-level run is the run of
    [Page.page_step] on the events the clicks produce. *)

From Stdlib Require Import ZArith String List Bool SpecFloat.
From S2P Require Import Prelude Binary64 NumberString Evaluate Newton Euler RungeKutta Page Render.
Import ListNotations.
Local Open Scope string_scope.

(** ** The document *)

(** An element: its [id], the [value] of an input field, and its content
    ([innerHTML] / [textContent]). *)
Record element : Type := mkElement {
  el_id : string;
  el_value : string;
  el_content : string
}.

Definition document : Type := list element.

Definition has_id (id : string) (e : element) : bool := String.eqb (el_id e) id.

(** [document.getElementById(id)]: the first element with that [id] in
    document order, [null] when there is none.  A handle is the [id] of
    the element found: the script never adds or removes elements, so the
    first element with a given [id] stays the same one. *)
Definition getElementById (d : document) (id : string) : option string :=
  match find (has_id id) d with Some e => Some (el_id e) | None => None end.

(** Change the first element with the given [id]. *)
Fixpoint update_first (id : string) (g : element -> element) (d : document) : document :=
  match d with
  | [] => []
  | e :: d' => if has_id id e then g e :: d' else e :: update_first id g d'
  end.

Definition value_of (d : document) (id : string) : string :=
  match find (has_id id) d with Some e => el_value e | None => EmptyString end.

Definition content_of (d : document) (id : string) : string :=
  match find (has_id id) d with Some e => el_content e | None => EmptyString end.

Definition set_value (v : string) (e : element) : element := mkElement (el_id e) v (el_content e).
Definition set_content_of (c : string) (e : element) : element := mkElement (el_id e) (el_value e) c.

(** ** The script's state *)

(** The four click listeners the script registers (lines 16, 20, 24, 35). *)
Inductive listener : Type := OnNewtonRaphson | OnEuler | OnRungeKutta | OnSolve.

Inductive exn : Type := TypeError (message : string).

(** The constants of lines 2-9. *)
Record handles : Type := mkHandles {
  newtonRaphsonBtn : option string;
  eulerBtn : option string;
  rungeKuttaBtn : option string;
  solveBtn : option string;
  equationInput : option string;
  initialValueInput : option string;
  stepSizeInput : option string;
  outputDiv : option string
}.

Definition no_handles : handles := mkHandles None None None None None None None None.

Record world : Type := mkWorld {
  doc : document;
  consts : handles;
  method_var : string;
  listeners : list (string * listener);
  console : list exn
}.

Definition with_doc (d : document) (w : world) : world :=
  mkWorld d (consts w) (method_var w) (listeners w) (console w).
Definition with_consts (c : handles) (w : world) : world :=
  mkWorld (doc w) c (method_var w) (listeners w) (console w).
Definition with_method (m : string) (w : world) : world :=
  mkWorld (doc w) (consts w) m (listeners w) (console w).
Definition with_listeners (ls : list (string * listener)) (w : world) : world :=
  mkWorld (doc w) (consts w) (method_var w) ls (console w).
Definition with_console (c : list exn) (w : world) : world :=
  mkWorld (doc w) (consts w) (method_var w) (listeners w) c.

(** ** The monad of JavaScript statements *)

Inductive outcome (A : Type) : Type :=
  | Normal (a : A)
  | Thrown (e : exn).
Arguments Normal {A} a.
Arguments Thrown {A} e.

Definition js (A : Type) : Type := world -> outcome A * world.

Definition ret {A : Type} (a : A) : js A := fun w => (Normal a, w).

Definition bind {A B : Type} (m : js A) (k : A -> js B) : js B :=
  fun w => match m w with
           | (Normal a, w') => k a w'
           | (Thrown e, w') => (Thrown e, w')
           end.

Definition throw {A : Type} (e : exn) : js A := fun w => (Thrown e, w).

Declare Scope js_scope.
Delimit Scope js_scope with js.
Notation "x <- c1 ;; c2" := (bind c1 (fun x => c2))
  (at level 100, c1 at next level, right associativity) : js_scope.
Notation "c1 ;; c2" := (bind c1 (fun _ : unit => c2))
  (at level 100, right associativity) : js_scope.
Local Open Scope js_scope.

Definition modify (f : world -> world) : js unit := fun w => (Normal tt, f w).
Definition gets {A : Type} (f : world -> A) : js A := fun w => (Normal (f w), w).

(** ** The DOM operations the script performs *)

Definition lookup (id : string) : js (option string) := gets (fun w => getElementById (doc w) id).

(** [h.prop = s] for [prop] in [innerHTML], [textContent]. *)
Definition set_property (prop : string) (h : option string) (s : string) : js unit :=
  match h with
  | Some id => modify (fun w => with_doc (update_first id (set_content_of s) (doc w)) w)
  | None => throw (TypeError ("Cannot set properties of null (setting '" ++ prop ++ "')"))
  end.

(** [h.value] *)
Definition read_value (h : option string) : js string :=
  match h with
  | Some id => gets (fun w => value_of (doc w) id)
  | None => throw (TypeError "Cannot read properties of null (reading 'value')")
  end.

(** [h.addEventListener('click', l)] *)
Definition addEventListener (h : option string) (l : listener) : js unit :=
  match h with
  | Some id => modify (fun w => with_listeners (listeners w ++ [(id, l)]) w)
  | None => throw (TypeError "Cannot read properties of null (reading 'addEventListener')")
  end.

Definition set_method (m : string) : js unit := modify (with_method m).

(** ** The script *)

(** The top level, lines 2-27 and 35: the lookups, [let method], the
    footer year (line 13, [new Date().getFullYear()] is the argument
    [year], converted by Number::toString when assigned to
    [textContent]), and the four listeners, in this order. *)
Definition script (year : number) : js unit :=
  nr <- lookup "newtonRaphsonBtn" ;;
  eu <- lookup "eulerBtn" ;;
  rk <- lookup "rungeKuttaBtn" ;;
  sv <- lookup "solveBtn" ;;
  eqn <- lookup "equation" ;;
  iv <- lookup "initialValue" ;;
  ss <- lookup "stepSize" ;;
  out <- lookup "output" ;;
  modify (with_consts (mkHandles nr eu rk sv eqn iv ss out)) ;;
  set_method "newtonRaphson" ;;
  footer <- lookup "currentYear" ;;
  set_property "textContent" footer (Number_toString year) ;;
  addEventListener nr OnNewtonRaphson ;;
  addEventListener eu OnEuler ;;
  addEventListener rk OnRungeKutta ;;
  addEventListener sv OnSolve.

(** [displayMessage(message)], lines 30-32. *)
Definition displayMessage_js (message : string) : js unit :=
  c <- gets consts ;;
  set_property "innerHTML" (outputDiv c) ("<p>" ++ message ++ "</p>").

(** The three method buttons, lines 16-27: the assignment, then the
    message. *)
Definition on_select (m message : string) : js unit :=
  set_method m ;;
  displayMessage_js message.

Section Handlers.
Context `{MathEvaluate}.

(** The Solve button, lines 35-60: the three reads in order, then the
    handler's logic ([Page.solve] on the current [method]), whose result
    (the validation message of [displayMessage], or [result]) is written
    to the output element. *)
Definition on_solve : js unit :=
  c <- gets consts ;;
  equation <- read_value (equationInput c) ;;
  initialValue <- read_value (initialValueInput c) ;;
  stepSize <- read_value (stepSizeInput c) ;;
  m <- gets method_var ;;
  set_property "innerHTML" (outputDiv c)
    (innerHTML (shown (solve equation initialValue stepSize (mkPage m Initial)))).

Definition run_listener (l : listener) : js unit :=
  match l with
  | OnNewtonRaphson => on_select "newtonRaphson" "Newton-Raphson method selected."
  | OnEuler => on_select "euler" "Euler's method selected."
  | OnRungeKutta => on_select "rungeKutta" "Runge-Kutta method selected."
  | OnSolve => on_solve
  end.

(** Running code from the event loop: an exception it throws is
    reported on the console; the changes made before it stay. *)
Definition report (m : js unit) (w : world) : world :=
  match m w with
  | (Normal _, w') => w'
  | (Thrown e, w') => with_console (console w' ++ [e]) w'
  end.

(** What the user does: type a text into an input field, or click an
    element. *)
Inductive dom_event : Type :=
  | UserInput (id text : string)
  | UserClick (id : string).

(** A click runs the listeners registered on the element, in the order
    of registration. *)
Definition dispatch_click (id : string) (w : world) : world :=
  fold_left (fun w' (reg : string * listener) =>
               if String.eqb (fst reg) id then report (run_listener (snd reg)) w' else w')
            (listeners w) w.

Definition dom_step (w : world) (e : dom_event) : world :=
  match e with
  | UserInput id text => with_doc (update_first id (set_value text) (doc w)) w
  | UserClick id => dispatch_click id w
  end.

Definition initial_world (d : document) : world := mkWorld d no_handles EmptyString [] [].

(** Loading the page runs the script once. *)
Definition load (d : document) (year : number) : world := report (script year) (initial_world d).

Definition dom_run (d : document) (year : number) (events : list dom_event) : world :=
  fold_left dom_step events (load d year).
End Handlers.

(** ** The document the script expects *)

(** The [id]s the script looks up. *)
Definition required_ids : list string :=
  ["newtonRaphsonBtn"; "eulerBtn"; "rungeKuttaBtn"; "solveBtn";
   "equation"; "initialValue"; "stepSize"; "output"; "currentYear"].

Definition complete (d : document) : bool :=
  forallb (fun id => match getElementById d id with Some _ => true | None => false end) required_ids.

Definition ids_of (d : document) : list string := map el_id d.

(** The handles and listeners the script leaves on a complete document. *)
Definition full_handles : handles :=
  mkHandles (Some "newtonRaphsonBtn") (Some "eulerBtn") (Some "rungeKuttaBtn") (Some "solveBtn")
            (Some "equation") (Some "initialValue") (Some "stepSize") (Some "output").

Definition standard_listeners : list (string * listener) :=
  [("newtonRaphsonBtn", OnNewtonRaphson); ("eulerBtn", OnEuler);
   ("rungeKuttaBtn", OnRungeKutta); ("solveBtn", OnSolve)].

(** What the output element shows for a page output: the document's own
    content before any handler wrote it. *)
Definition shown_html (d0 : document) (o : output) : string :=
  match o with Initial => content_of d0 "output" | _ => innerHTML o end.

Section Abstraction.
Context `{MathEvaluate}.

(** The page-level events a browser event produces in a world: clicks on
    the four buttons, with the input fields' values at the time of the
    click for Solve. *)
Definition page_events (w : world) (e : dom_event) : list event :=
  match e with
  | UserInput _ _ => []
  | UserClick id =>
      if String.eqb "newtonRaphsonBtn" id then [ClickNewtonRaphson]
      else if String.eqb "eulerBtn" id then [ClickEuler]
      else if String.eqb "rungeKuttaBtn" id then [ClickRungeKutta]
      else if String.eqb "solveBtn" id then
        [ClickSolve (value_of (doc w) "equation") (value_of (doc w) "initialValue")
                    (value_of (doc w) "stepSize")]
      else []
  end.

Fixpoint trace_events (w : world) (events : list dom_event) : list event :=
  match events with
  | [] => []
  | e :: rest => page_events w e ++ trace_events (dom_step w e) rest
  end.

(** The abstraction relation: the browser's world [w] on the document
    loaded from [d0] is the page state [p]. *)
Definition dom_abstracts (d0 : document) (w : world) (p : page) : Prop :=
  consts w = full_handles /\ listeners w = standard_listeners /\ console w = [] /\
  ids_of (doc w) = ids_of d0 /\ method_var w = method p /\
  content_of (doc w) "output" = shown_html d0 (shown p).
End Abstraction.

(** ** Auxiliary definitions of the proofs *)

(** [m] keeps the property [I] of the world, whether it returns or
    throws. *)
Definition preserves {A : Type} (I : world -> Prop) (m : js A) : Prop :=
  forall w, I w -> I (snd (m w)).

(** The constants the script finds in a document. *)
Definition handles_of (d : document) : handles :=
  mkHandles (getElementById d "newtonRaphsonBtn") (getElementById d "eulerBtn")
            (getElementById d "rungeKuttaBtn") (getElementById d "solveBtn")
            (getElementById d "equation") (getElementById d "initialValue")
            (getElementById d "stepSize") (getElementById d "output").

(** The document keeps its elements, the constants are what the lookups
    found, [method] holds a method name, and every listener is on an
    element of the document. *)
Definition dom_wf (d0 : document) (w : world) : Prop :=
  ids_of (doc w) = ids_of d0 /\ consts w = handles_of d0 /\ known_method (method_var w) = true /\
  Forall (fun reg => getElementById d0 (fst reg) = Some (fst reg)) (listeners w).

(** The world after the script's lookups and [let method]. *)
Definition after_lookups (d : document) : world := mkWorld d (handles_of d) "newtonRaphson" [] [].

(** Lines 16-35: the four registrations, with the constants found. *)
Definition register_listeners (d : document) : js unit :=
  addEventListener (getElementById d "newtonRaphsonBtn") OnNewtonRaphson ;;
  addEventListener (getElementById d "eulerBtn") OnEuler ;;
  addEventListener (getElementById d "rungeKuttaBtn") OnRungeKutta ;;
  addEventListener (getElementById d "solveBtn") OnSolve.

(** The script from line 13 on, with the constants found. *)
Definition script_rest (d : document) (year : number) : js unit :=
  footer <- lookup "currentYear" ;;
  set_property "textContent" footer (Number_toString year) ;;
  register_listeners d.

Definition footer_error : exn := TypeError "Cannot set properties of null (setting 'textContent')".
Definition output_error : exn := TypeError "Cannot set properties of null (setting 'innerHTML')".

(** A page with every element the script uses, empty. *)
Definition blank (id : string) : element := mkElement id EmptyString EmptyString.
Definition sample_document : document := map blank required_ids.
Definition sample_without (id : string) : document :=
  map blank (filter (fun id' => negb (String.eqb id' id)) required_ids).
Definition year_2026 : number := n_lit 2026 0.


(** ** Lemmas on documents *)

Section Documents.
Variable g : element -> element.
Hypothesis g_id : forall e, el_id (g e) = el_id e.

Lemma has_id_g (id : string) (e : element) : has_id id (g e) = has_id id e.
Proof. unfold has_id. now rewrite g_id. Qed.

Lemma find_update_first_same (id : string) (d : document) :
  find (has_id id) (update_first id g d) = option_map g (find (has_id id) d).
Proof.
  induction d as [|e d IH]; [reflexivity|]. simpl.
  destruct (has_id id e) eqn:He; simpl; [now rewrite has_id_g, He | now rewrite He].
Qed.

Lemma find_update_first_other (id id' : string) (d : document) :
  id <> id' -> find (has_id id') (update_first id g d) = find (has_id id') d.
Proof.
  intros Hne. induction d as [|e d IH]; [reflexivity|]. simpl.
  destruct (has_id id e) eqn:He; simpl; [|now rewrite IH].
  rewrite has_id_g. unfold has_id in *.
  apply String.eqb_eq in He. destruct (String.eqb_spec (el_id e) id'); congruence.
Qed.

Lemma ids_update_first (id : string) (d : document) : ids_of (update_first id g d) = ids_of d.
Proof.
  induction d as [|e d IH]; [reflexivity|]. simpl.
  destruct (has_id id e); simpl; [now rewrite g_id | now rewrite IH].
Qed.
End Documents.

Lemma getElementById_ids (d d' : document) (id : string) :
  ids_of d = ids_of d' -> getElementById d id = getElementById d' id.
Proof.
  revert d'. induction d as [|e d IH]; intros [|e' d'] Hids; try discriminate; [reflexivity|].
  injection Hids as He Hd. unfold getElementById in *. simpl. unfold has_id. rewrite He.
  destruct (String.eqb (el_id e') id); [now rewrite He | apply IH, Hd].
Qed.

Lemma getElementById_update_first (g : element -> element) (d : document) (id id' : string) :
  (forall e, el_id (g e) = el_id e) -> getElementById (update_first id g d) id' = getElementById d id'.
Proof. intros Hg. apply getElementById_ids, ids_update_first, Hg. Qed.

Lemma getElementById_Some (d : document) (id x : string) : getElementById d id = Some x -> x = id.
Proof.
  unfold getElementById. destruct (find (has_id id) d) as [e|] eqn:Hf; [|discriminate].
  intros Hx. injection Hx as <-. apply find_some in Hf as [_ Hid]. now apply String.eqb_eq.
Qed.

Lemma complete_lookup (d : document) (id : string) :
  complete d = true -> In id required_ids -> getElementById d id = Some id.
Proof.
  intros Hc Hin. unfold complete in Hc. rewrite forallb_forall in Hc. specialize (Hc id Hin).
  destruct (getElementById d id) as [x|] eqn:Hx; [|discriminate].
  now rewrite (getElementById_Some _ _ _ Hx).
Qed.

Lemma complete_ids (d d' : document) : ids_of d = ids_of d' -> complete d = complete d'.
Proof.
  intros Hids. unfold complete. induction required_ids as [|id ids IH]; [reflexivity|].
  simpl. now rewrite (getElementById_ids _ _ id Hids), IH.
Qed.

Lemma set_value_id (v : string) (e : element) : el_id (set_value v e) = el_id e.
Proof. reflexivity. Qed.

Lemma set_content_id (c : string) (e : element) : el_id (set_content_of c e) = el_id e.
Proof. reflexivity. Qed.

(** Typing into a field changes no content; writing a content changes no
    value; each changes the element it addresses. *)
Lemma content_of_set_value (d : document) (id id' v : string) :
  content_of (update_first id (set_value v) d) id' = content_of d id'.
Proof.
  unfold content_of. destruct (String.eqb_spec id id') as [<-|Hne].
  - rewrite (find_update_first_same _ (set_value_id v)). now destruct (find _ d).
  - now rewrite (find_update_first_other _ (set_value_id v) _ _ _ Hne).
Qed.

Lemma value_of_set_content (d : document) (id id' c : string) :
  value_of (update_first id (set_content_of c) d) id' = value_of d id'.
Proof.
  unfold value_of. destruct (String.eqb_spec id id') as [<-|Hne].
  - rewrite (find_update_first_same _ (set_content_id c)). now destruct (find _ d).
  - now rewrite (find_update_first_other _ (set_content_id c) _ _ _ Hne).
Qed.

Lemma content_of_set_content_other (d : document) (id id' c : string) :
  id <> id' -> content_of (update_first id (set_content_of c) d) id' = content_of d id'.
Proof. intros Hne. unfold content_of. now rewrite (find_update_first_other _ (set_content_id c) _ _ _ Hne). Qed.

Lemma value_of_set_value_other (d : document) (id id' v : string) :
  id <> id' -> value_of (update_first id (set_value v) d) id' = value_of d id'.
Proof. intros Hne. unfold value_of. now rewrite (find_update_first_other _ (set_value_id v) _ _ _ Hne). Qed.

(** On an element that exists, the write is read back. *)
Lemma content_of_set_content_same (d : document) (id c : string) :
  getElementById d id <> None -> content_of (update_first id (set_content_of c) d) id = c.
Proof.
  unfold getElementById, content_of. rewrite (find_update_first_same _ (set_content_id c)).
  destruct (find _ d); [reflexivity | now intros []].
Qed.

Lemma value_of_set_value_same (d : document) (id v : string) :
  getElementById d id <> None -> value_of (update_first id (set_value v) d) id = v.
Proof.
  unfold getElementById, value_of. rewrite (find_update_first_same _ (set_value_id v)).
  destruct (find _ d); [reflexivity | now intros []].
Qed.

(** ** Loading a complete document *)

Lemma load_complete (d : document) (year : number) :
  complete d = true ->
  load d year = mkWorld (update_first "currentYear" (set_content_of (Number_toString year)) d)
                        full_handles "newtonRaphson" standard_listeners [].
Proof.
  intros Hc. unfold load, report, script, bind, lookup, gets, modify, set_method, set_property,
    addEventListener, initial_world. simpl.
  rewrite !(complete_lookup d _ Hc) by (simpl; tauto). reflexivity.
Qed.

(** ** The listeners on a loaded complete document *)

Section Listeners.
Context `{MathEvaluate}.

Lemma report_select (w : world) (m message : string) :
  consts w = full_handles ->
  report (on_select m message) w
  = with_doc (update_first "output" (set_content_of ("<p>" ++ message ++ "</p>")) (doc w)) (with_method m w).
Proof. destruct w as [d c mv ls con]. simpl. intros ->. reflexivity. Qed.

Lemma report_solve (w : world) :
  consts w = full_handles ->
  report on_solve w
  = with_doc (update_first "output"
                (set_content_of (innerHTML (shown (solve (value_of (doc w) "equation")
                                                         (value_of (doc w) "initialValue")
                                                         (value_of (doc w) "stepSize")
                                                         (mkPage (method_var w) Initial)))))
                (doc w)) w.
Proof. destruct w as [d c mv ls con]. simpl. intros ->. reflexivity. Qed.

(** A click runs the listener of the button clicked, if any. *)
Lemma dispatch_standard (id : string) (w : world) :
  listeners w = standard_listeners ->
  dispatch_click id w =
  if String.eqb "newtonRaphsonBtn" id then report (run_listener OnNewtonRaphson) w
  else if String.eqb "eulerBtn" id then report (run_listener OnEuler) w
  else if String.eqb "rungeKuttaBtn" id then report (run_listener OnRungeKutta) w
  else if String.eqb "solveBtn" id then report (run_listener OnSolve) w
  else w.
Proof.
  intros Hl. unfold dispatch_click. rewrite Hl. unfold standard_listeners. cbn [fold_left fst snd].
  repeat match goal with
         | |- context [String.eqb ?a id] => destruct (String.eqb_spec a id) as [<-|?]
         end; reflexivity.
Qed.
End Listeners.

Lemma solve_shown_not_initial `{MathEvaluate} `{NumberToString} (equation a s : string) (p : page) :
  shown (solve equation a s p) <> Initial.
Proof. unfold solve. repeat case_if; discriminate. Qed.

(** ** Refinement: the browser runs the page *)

Section Refinement.
Context `{MathEvaluate}.
Variable d0 : document.
Hypothesis d0_complete : complete d0 = true.

Lemma abstracts_present (w : world) (id : string) :
  ids_of (doc w) = ids_of d0 -> In id required_ids -> getElementById (doc w) id <> None.
Proof.
  intros Hids Hin. rewrite (getElementById_ids _ _ _ Hids), (complete_lookup _ _ d0_complete Hin).
  discriminate.
Qed.

Lemma load_abstracts (year : number) : dom_abstracts d0 (load d0 year) initial_page.
Proof.
  rewrite (load_complete _ _ d0_complete). unfold dom_abstracts; simpl.
  rewrite ids_update_first by apply set_content_id.
  rewrite content_of_set_content_other by discriminate. repeat split.
Qed.

Lemma dom_step_abstracts (w : world) (p : page) (e : dom_event) :
  dom_abstracts d0 w p -> dom_abstracts d0 (dom_step w e) (fold_left page_step (page_events w e) p).
Proof.
  intros (Hc & Hl & Hcon & Hids & Hm & Hout). destruct e as [id text | id]; cbn [dom_step page_events].
  - unfold dom_abstracts; simpl. rewrite ids_update_first, content_of_set_value by apply set_value_id.
    repeat split; assumption.
  - rewrite (dispatch_standard _ _ Hl).
    assert (Hout_ex : getElementById (doc w) "output" <> None)
      by (apply abstracts_present; [exact Hids | simpl; tauto]).
    repeat match goal with
           | |- context [String.eqb ?a id] => destruct (String.eqb_spec a id) as [<-|?]
           end; simpl; [rewrite (report_select _ _ _ Hc) .. | rewrite (report_solve _ Hc) |];
      unfold dom_abstracts; simpl;
      rewrite ?ids_update_first by apply set_content_id;
      rewrite ?content_of_set_content_same by exact Hout_ex.
    1-3: repeat split; first [assumption | reflexivity].
    + rewrite solve_method, <- Hm. repeat split; try assumption.
      rewrite (solve_method_only _ _ _ p (mkPage (method_var w) Initial)) by (simpl; congruence).
      unfold shown_html. destruct (shown (solve _ _ _ _)) eqn:Hs; [|reflexivity ..].
      exfalso. exact (solve_shown_not_initial _ _ _ _ Hs).
    + repeat split; assumption.
Qed.

Lemma fold_dom_abstracts (events : list dom_event) (w : world) (p : page) :
  dom_abstracts d0 w p ->
  dom_abstracts d0 (fold_left dom_step events w) (fold_left page_step (trace_events w events) p).
Proof.
  revert w p. induction events as [|e events IH]; intros w p Hr; [exact Hr|].
  simpl. rewrite fold_left_app. apply IH, dom_step_abstracts, Hr.
Qed.
End Refinement.

(** ** Properties *)

Section DomProperties.
Context `{MathEvaluate}.

(** C11: refinement.  On a document with every element the script uses,
    the browser's run of the script and of any sequence of user actions
    is the run of [Page.page_step] on the page events the clicks produce
    (a Solve click carrying the input fields' values at that moment): the
    script's constants are all found, the four listeners are registered,
    nothing is thrown, the document keeps its elements, [method] is the
    page's, and the output element shows the page's output. *)
Theorem dom_refines_page (d : document) (year : number) (events : list dom_event) :
  complete d = true ->
  dom_abstracts d (dom_run d year events) (run (trace_events (load d year) events)).
Proof. intros Hc. apply (fold_dom_abstracts d Hc), (load_abstracts d Hc). Qed.

Lemma user_input_doc (w : world) (id text : string) :
  doc (dom_step w (UserInput id text)) = update_first id (set_value text) (doc w).
Proof. reflexivity. Qed.

(** C12: liveness.  On a complete document, whatever happened before,
    typing an equation and an initial value that pass the validation and
    a step size, then clicking the Euler button and Solve, makes the
    output element show the text of [eulerMethod] on these inputs. *)
Theorem dom_euler_eventually_shown (d : document) (year : number) (events : list dom_event)
    (equation a s : string) :
  complete d = true -> equation <> "" -> isNaN (parseFloat a) = false ->
  content_of (doc (dom_run d year (events ++ [UserInput "equation" equation; UserInput "initialValue" a;
                                           UserInput "stepSize" s; UserClick "eulerBtn"; UserClick "solveBtn"])))
             "output"
  = innerHTML (EulerResult (eulerMethod equation (parseFloat a) (parseFloat s) 10)).
Proof.
  intros Hc He Ha. unfold dom_run. rewrite fold_left_app.
  destruct (fold_dom_abstracts d Hc events _ _ (load_abstracts d Hc year)) as (Hcs & Hl & _ & Hids & _).
  set (w := fold_left dom_step events (load d year)) in *.
  set (w3 := dom_step (dom_step (dom_step w (UserInput "equation" equation)) (UserInput "initialValue" a))
                      (UserInput "stepSize" s)).
  assert (Hids3 : ids_of (doc w3) = ids_of d)
    by (unfold w3; rewrite !user_input_doc, !ids_update_first by apply set_value_id; exact Hids).
  assert (Hl3 : listeners w3 = standard_listeners) by exact Hl.
  assert (Hcs3 : consts w3 = full_handles) by exact Hcs.
  change (content_of (doc (dom_step (dom_step w3 (UserClick "eulerBtn")) (UserClick "solveBtn"))) "output"
          = innerHTML (EulerResult (eulerMethod equation (parseFloat a) (parseFloat s) 10))).
  cbn [dom_step]. rewrite (dispatch_standard _ _ Hl3). simpl. rewrite (report_select _ _ _ Hcs3).
  rewrite dispatch_standard by exact Hl3. simpl. rewrite report_solve by exact Hcs3. simpl.
  rewrite !value_of_set_content.
  rewrite content_of_set_content_same.
  2: { rewrite <- (getElementById_ids _ _ _ (eq_sym (ids_update_first _ (set_content_id _) _ _))).
       apply (abstracts_present d Hc w3); [exact Hids3 | simpl; tauto]. }
  unfold w3.
  rewrite (value_of_set_value_other _ "stepSize" "equation") by discriminate.
  rewrite (value_of_set_value_other _ "initialValue" "equation") by discriminate.
  rewrite (value_of_set_value_other _ "stepSize" "initialValue") by discriminate.
  rewrite !value_of_set_value_same.
  1: { unfold solve. simpl. rewrite (proj2 (String.eqb_neq _ _) He), Ha. reflexivity. }
  all: rewrite ?getElementById_update_first by apply set_value_id;
    apply (abstracts_present d Hc w); [exact Hids | simpl; tauto].
Qed.
End DomProperties.

(** ** Invariants of computations *)

Create HintDb dom discriminated.

Section Preserves.
Variable I : world -> Prop.

Lemma preserves_bind {A B : Type} (m : js A) (k : A -> js B) :
  preserves I m -> (forall a, preserves I (k a)) -> preserves I (bind m k).
Proof.
  intros Hm Hk w Hw. unfold bind. specialize (Hm w Hw).
  destruct (m w) as [[a|e] w']; simpl in *; [apply Hk|]; assumption.
Qed.

Lemma preserves_gets {A : Type} (f : world -> A) : preserves I (gets f).
Proof. intros w Hw. exact Hw. Qed.

Lemma preserves_throw {A : Type} (e : exn) : preserves I (@throw A e).
Proof. intros w Hw. exact Hw. Qed.

Lemma preserves_modify (f : world -> world) : (forall w, I w -> I (f w)) -> preserves I (modify f).
Proof. intros Hf w Hw. now apply Hf. Qed.

Lemma preserves_read_value (h : option string) : preserves I (read_value h).
Proof. destruct h; [apply preserves_gets | apply preserves_throw]. Qed.

Lemma preserves_lookup (id : string) : preserves I (lookup id).
Proof. apply preserves_gets. Qed.

(** The event loop's reporting keeps what ignores the console. *)
Lemma report_preserves (m : js unit) (w : world) :
  (forall c w', I w' -> I (with_console c w')) -> preserves I m -> I w -> I (report m w).
Proof.
  intros Hc Hm Hw. unfold report. specialize (Hm w Hw).
  destruct (m w) as [[[]|e] w']; simpl in *; [exact Hm | now apply Hc].
Qed.
End Preserves.

#[export] Hint Resolve preserves_gets preserves_throw preserves_read_value preserves_lookup : dom.

(** Repeatedly split a computation at its binds. *)
Ltac preserves_steps :=
  repeat (apply preserves_bind; intros).

(** ** Well-formedness of the browser state, for any document *)

Lemma load_after_lookups (d : document) (year : number) :
  load d year = report (script_rest d year) (after_lookups d).
Proof. reflexivity. Qed.

Section WellFormed.
Variable d0 : document.

Lemma wf_console (c : list exn) (w : world) : dom_wf d0 w -> dom_wf d0 (with_console c w).
Proof. exact (fun H => H). Qed.

Lemma wf_set_property (prop : string) (h : option string) (s : string) :
  preserves (dom_wf d0) (set_property prop h s).
Proof.
  destruct h as [id|]; [|apply preserves_throw]. apply preserves_modify.
  intros w (Hids & Hrest). split; [|exact Hrest]. simpl. now rewrite ids_update_first.
Qed.

Lemma wf_set_method (m : string) : known_method m = true -> preserves (dom_wf d0) (set_method m).
Proof. intros Hm. apply preserves_modify. intros w (? & ? & _ & ?). now repeat split. Qed.

Lemma wf_addEventListener (id : string) (l : listener) :
  preserves (dom_wf d0) (addEventListener (getElementById d0 id) l).
Proof.
  destruct (getElementById d0 id) as [x|] eqn:Hx; [|apply preserves_throw]. apply preserves_modify.
  intros w (? & ? & ? & Hls). repeat split; try assumption. simpl. apply Forall_app. split; [exact Hls|].
  constructor; [|constructor]. simpl. rewrite (getElementById_Some _ _ _ Hx) in Hx |- *. exact Hx.
Qed.

Lemma wf_displayMessage (message : string) : preserves (dom_wf d0) (displayMessage_js message).
Proof. unfold displayMessage_js. preserves_steps; auto with dom. apply wf_set_property. Qed.

Lemma wf_run_listener `{MathEvaluate} (l : listener) : preserves (dom_wf d0) (run_listener l).
Proof.
  destruct l; simpl; unfold on_select, on_solve; preserves_steps;
    first [apply wf_set_method; reflexivity | apply wf_displayMessage | apply wf_set_property
          | auto with dom].
Qed.
End WellFormed.

#[export] Hint Resolve wf_set_property wf_displayMessage wf_addEventListener wf_run_listener : dom.

Section WellFormedRun.
Context `{MathEvaluate}.
Variable d0 : document.

Lemma load_wf (year : number) : dom_wf d0 (load d0 year).
Proof.
  rewrite load_after_lookups. apply report_preserves; [apply wf_console | preserves_steps; auto with dom |].
  repeat split; constructor.
Qed.

Lemma dispatch_wf (id : string) (w : world) : dom_wf d0 w -> dom_wf d0 (dispatch_click id w).
Proof.
  unfold dispatch_click. generalize (listeners w). intros ls. revert w.
  induction ls as [|[lid l] ls IH]; intros w Hw; [exact Hw|]. simpl. apply IH.
  destruct (String.eqb lid id); [|exact Hw].
  apply report_preserves; [apply wf_console | auto with dom | exact Hw].
Qed.

Lemma dom_step_wf (w : world) (e : dom_event) : dom_wf d0 w -> dom_wf d0 (dom_step w e).
Proof.
  destruct e as [id text | id]; [|apply dispatch_wf].
  intros (Hids & Hrest). split; [|exact Hrest]. simpl. now rewrite ids_update_first.
Qed.

(** C13: well-formedness of the browser state.  For every document, even
    one missing elements the script uses, after loading and any sequence
    of user actions: the document has the same elements in the same
    order, the script's constants are what [getElementById] found at
    load time, [method] holds one of the three method names, and every
    click listener is registered on an element of the document. *)
Theorem dom_wf_run (year : number) (events : list dom_event) : dom_wf d0 (dom_run d0 year events).
Proof.
  unfold dom_run. generalize (load_wf year). generalize (load d0 year).
  induction events as [|e events IH]; intros w Hw; [exact Hw|]. simpl. apply IH, dom_step_wf, Hw.
Qed.
End WellFormedRun.

(** ** The footer *)

Lemma script_rest_footer (d : document) (year : number) :
  getElementById d "currentYear" = Some "currentYear" ->
  script_rest d year (after_lookups d) =
  register_listeners d (with_doc (update_first "currentYear" (set_content_of (Number_toString year)) d)
                                 (after_lookups d)).
Proof. intros Hf. unfold script_rest, bind at 1 2, lookup, gets. cbn [after_lookups doc]. now rewrite Hf. Qed.

Lemma register_listeners_doc (d D : document) : preserves (fun w => doc w = D) (register_listeners d).
Proof.
  unfold register_listeners. preserves_steps;
    match goal with
    | |- preserves _ (addEventListener ?h _) =>
        destruct h; [apply preserves_modify; intros w Hw; exact Hw | apply preserves_throw]
    end.
Qed.

(** The footer (line 13).  When the document has an element
    [currentYear], loading the page writes the year, converted by
    Number::toString, into it, whether or not the buttons the script
    registers listeners on exist. *)
Theorem load_footer (d : document) (year : number) :
  getElementById d "currentYear" <> None ->
  content_of (doc (load d year)) "currentYear" = Number_toString year.
Proof.
  intros Hf. destruct (getElementById d "currentYear") as [x|] eqn:Hx; [|contradiction].
  rewrite (getElementById_Some _ _ _ Hx) in Hx.
  assert (Hdoc : doc (load d year) = update_first "currentYear" (set_content_of (Number_toString year)) d).
  { rewrite load_after_lookups. unfold report. rewrite (script_rest_footer d year Hx).
    set (W := with_doc _ (after_lookups d)).
    pose proof (register_listeners_doc d (doc W) W eq_refl) as Hw.
    destruct (register_listeners d W) as [[[]|e] w']; exact Hw. }
  rewrite Hdoc. apply content_of_set_content_same. now rewrite Hx.
Qed.

(** ** Documents without the elements the script writes *)

Lemma load_no_footer (d : document) (year : number) :
  getElementById d "currentYear" = None -> load d year = with_console [footer_error] (after_lookups d).
Proof. intros Hf. rewrite load_after_lookups. unfold report, script_rest, bind, lookup, gets. simpl. now rewrite Hf. Qed.

(** A world without listeners only records what is typed. *)
Lemma fold_no_listeners `{MathEvaluate} (events : list dom_event) (w : world) :
  listeners w = [] ->
  let w' := fold_left dom_step events w in
  listeners w' = [] /\ method_var w' = method_var w /\ console w' = console w /\
  (forall id, content_of (doc w') id = content_of (doc w) id).
Proof.
  revert w. induction events as [|[id text | id] events IH]; intros w Hl; [now repeat split| |].
  - simpl. destruct (IH (with_doc (update_first id (set_value text) (doc w)) w) Hl) as (H1 & H2 & H3 & H4).
    repeat split; try assumption. intros id'. rewrite H4. apply content_of_set_value.
  - simpl. replace (dispatch_click id w) with w by (unfold dispatch_click; now rewrite Hl). apply IH, Hl.
Qed.

Section MissingElements.
Context `{MathEvaluate}.

(** C15: a document without the footer element.  Line 13 throws a
    [TypeError] before any listener is registered (lines 16-35 are
    never reached): loading reports that one error, and afterwards no
    click has any effect: [method] stays [newtonRaphson] and every
    element keeps the content the document gave it. *)
Theorem dom_no_footer_dead (d : document) (year : number) (events : list dom_event) :
  getElementById d "currentYear" = None ->
  let w := dom_run d year events in
  listeners w = [] /\ console w = [footer_error] /\ method_var w = "newtonRaphson" /\
  (forall id, content_of (doc w) id = content_of d id).
Proof.
  intros Hf. unfold dom_run. rewrite (load_no_footer d year Hf).
  destruct (fold_no_listeners events (with_console [footer_error] (after_lookups d)) eq_refl)
    as (H1 & H2 & H3 & H4).
  repeat split; assumption.
Qed.
End MissingElements.

Section NoOutput.
Context `{MathEvaluate}.
Variable d : document.
Hypothesis no_output : getElementById d "output" = None.
Hypothesis others : forall id, In id required_ids -> id <> "output" -> getElementById d id = Some id.

Lemma others_lookup (id : string) : In id required_ids -> id <> "output" -> getElementById d id = Some id.
Proof. apply others. Qed.

Lemma load_no_output (year : number) :
  load d year = mkWorld (update_first "currentYear" (set_content_of (Number_toString year)) d)
                        (handles_of d) "newtonRaphson" standard_listeners [].
Proof.
  rewrite load_after_lookups. unfold report, script_rest, register_listeners, bind, lookup, gets,
    set_property, addEventListener, modify. simpl.
  rewrite !others_lookup by (simpl; first [tauto | discriminate]). reflexivity.
Qed.

(** Each button click throws at the write of the output element, after
    the assignment of [method] for the method buttons. *)
Lemma dom_step_no_output (w : world) (e : dom_event) :
  consts w = handles_of d -> listeners w = standard_listeners ->
  let w' := dom_step w e in
  consts w' = handles_of d /\ listeners w' = standard_listeners /\
  method_var w' = fold_left last_selected_step (page_events w e) (method_var w) /\
  console w' = (console w ++ repeat output_error (length (page_events w e)))%list.
Proof.
  intros Hc Hl. destruct e as [id text | id]; cbn [dom_step page_events].
  - simpl. rewrite app_nil_r. now repeat split.
  - rewrite (dispatch_standard _ _ Hl).
    repeat match goal with
           | |- context [String.eqb ?a id] => destruct (String.eqb_spec a id) as [<-|?]
           end;
    destruct w as [dw cw mw lw conw]; cbn [consts listeners] in Hc, Hl; subst cw lw;
      unfold report, run_listener, on_select, on_solve, displayMessage_js, set_method,
             set_property, read_value, bind, gets, modify, handles_of; simpl;
      rewrite ?no_output, ?others_lookup by (simpl; first [tauto | discriminate]);
      simpl; rewrite ?app_nil_r; now repeat split.
Qed.

(** C14: a document without the output element, whose other elements
    (equation, initial value, step size, the four buttons, the footer)
    are all present.  Every button click
    throws a [TypeError] when it writes the output element; the method
    buttons have assigned [method] before (line 17 before 18), so
    [method] still follows the last method button, while the page never
    shows a message or a result: the console holds one error per button
    click. *)
Theorem dom_no_output (year : number) (events : list dom_event) :
  let w := dom_run d year events in
  method_var w = last_selected (trace_events (load d year) events) /\
  console w = repeat output_error (length (trace_events (load d year) events)).
Proof.
  unfold dom_run, last_selected.
  assert (Hinv : forall w, consts w = handles_of d -> listeners w = standard_listeners ->
    method_var (fold_left dom_step events w)
      = fold_left last_selected_step (trace_events w events) (method_var w) /\
    console (fold_left dom_step events w)
      = (console w ++ repeat output_error (length (trace_events w events)))%list).
  { induction events as [|e events IH]; intros w Hc Hl; [simpl; now rewrite app_nil_r|].
    destruct (dom_step_no_output w e Hc Hl) as (Hc' & Hl' & Hm' & Hcon').
    destruct (IH _ Hc' Hl') as [Hm Hcon]. simpl. rewrite fold_left_app, Hm, Hcon, Hm', Hcon'.
    rewrite length_app, repeat_app, app_assoc. split; reflexivity. }
  rewrite load_no_output. destruct (Hinv (load d year)) as [Hm Hcon];
    [now rewrite load_no_output .. |]. rewrite load_no_output in Hm, Hcon. split; assumption.
Qed.
End NoOutput.

(** ** Witnesses *)

Lemma dom_refines_page_witness :
  complete sample_document = true /\
  dom_abstracts sample_document
    (@dom_run throwing_math sample_document year_2026 [UserClick "eulerBtn"; UserClick "solveBtn"])
    (@run throwing_math js_number_to_string
       (@trace_events throwing_math (load sample_document year_2026) [UserClick "eulerBtn"; UserClick "solveBtn"])).
Proof.
  split; [vm_compute; reflexivity|].
  apply (@dom_refines_page throwing_math). vm_compute. reflexivity.
Defined.

Lemma dom_euler_eventually_shown_witness :
  complete sample_document = true /\ "x" <> "" /\ isNaN (parseFloat "0") = false /\
  content_of (doc (@dom_run throwing_math sample_document year_2026
                     ([] ++ [UserInput "equation" "x"; UserInput "initialValue" "0";
                             UserInput "stepSize" "0.1"; UserClick "eulerBtn"; UserClick "solveBtn"])))
             "output"
  = innerHTML (EulerResult (@eulerMethod throwing_math js_number_to_string "x" (parseFloat "0") (parseFloat "0.1") 10)).
Proof.
  split; [vm_compute; reflexivity|]. split; [discriminate|]. split; [vm_compute; reflexivity|].
  apply (@dom_euler_eventually_shown throwing_math); [vm_compute; reflexivity | discriminate | vm_compute; reflexivity].
Defined.

Lemma load_footer_witness :
  getElementById sample_document "currentYear" <> None /\
  content_of (doc (load sample_document year_2026)) "currentYear" = Number_toString year_2026 /\
  Number_toString year_2026 = "2026".
Proof.
  split; [vm_compute; discriminate|]. split; [|vm_compute; reflexivity].
  apply load_footer. vm_compute. discriminate.
Defined.

Lemma dom_no_footer_dead_witness :
  getElementById (sample_without "currentYear") "currentYear" = None /\
  method_var (@dom_run throwing_math (sample_without "currentYear") year_2026 [UserClick "eulerBtn"])
  = "newtonRaphson".
Proof.
  split; [vm_compute; reflexivity|].
  apply (@dom_no_footer_dead throwing_math (sample_without "currentYear") year_2026 [UserClick "eulerBtn"]).
  vm_compute. reflexivity.
Defined.

Lemma dom_no_output_witness :
  getElementById (sample_without "output") "output" = None /\
  method_var (@dom_run throwing_math (sample_without "output") year_2026 [UserClick "eulerBtn"]) = "euler" /\
  console (@dom_run throwing_math (sample_without "output") year_2026 [UserClick "eulerBtn"]) = [output_error].
Proof.
  assert (Hn : getElementById (sample_without "output") "output" = None) by (vm_compute; reflexivity).
  assert (Ho : forall id, In id required_ids -> id <> "output" ->
                          getElementById (sample_without "output") id = Some id).
  { intros id Hin Hne. simpl in Hin.
    repeat destruct Hin as [<- | Hin]; try contradiction; vm_compute; reflexivity. }
  destruct (@dom_no_output throwing_math (sample_without "output") Hn Ho year_2026 [UserClick "eulerBtn"])
    as [Hm Hc].
  split; [exact Hn|]. rewrite Hm, Hc. split; vm_compute; reflexivity.
Defined.
