(* ===== verification/JsValues.v ===== *)
(** * Results of [math.evaluate] that are not Numbers

    [evaluateFunction(eq, x)] (src/index.js, lines 138-144) returns
    whatever [math.evaluate] returns.  The rest of the development reads
    that result as a Number; this file models what the program does
    with the other results math.js produces for a text: [undefined] (a
    blank text), and values without a [toFixed] method (booleans of a
    comparison such as [x > 1], strings, Complex numbers of
    [sqrt(-1)], units, matrices, functions).  Such a value flows into
    two kinds of use:
    - arithmetic ([f1 - f2] in [derivative], [h * evaluateFunction(...)]
      in [rungeKuttaMethod], [Math.abs]), which converts it with
      ToNumber: [to_number] below, part of the value;
    - a template [${v.toFixed(6)}] ([fVal] at line 73, [y] at lines 95
      and 114, [slope] at line 100), which throws a [TypeError] when [v]
      is not a Number.
    The exception leaves the method and the Solve listener (lines 35-60
    have no [try]), so [outputDiv.innerHTML = result] is never executed
    and the browser reports the error on the console.

    [newtonRaphson_v_core], [eulerMethod_v_core] and
    [rungeKuttaMethod_v_core] are the three methods over [mvalue] results,
    with their exceptions as [Dom.outcome] values; [solve_v],
    [on_solve_v] and [dom_run_v] are the Solve handler and the page on
    top of them.  The theorems characterise exactly when each method
    throws (the first evaluated point whose value is not a Number) and
    show that otherwise it returns the trace of the Number model, with
    the values ToNumber gives; an evaluator that returns only Numbers
    makes the page the page of [Dom].  Values that have a [toFixed] of
    their own (math.js BigNumber and Fraction, produced only by the
    functions [bignumber] and [fraction]) are not modelled. *)

From Stdlib Require Import ZArith String Ascii List Bool Lia SpecFloat.
From S2P Require Import Prelude Binary64 NumberString Evaluate MathJs Newton FixedStep Euler RungeKutta Page Render Dom.
Import ListNotations.
Local Open Scope string_scope.

(** ** Values *)

(** A result of [math.evaluate]: a Number, [undefined], [null], or
    another value without a [toFixed] method, given with its ToNumber. *)
Inductive mvalue : Type :=
  | MNumber (v : number)
  | MUndefined
  | MNull
  | MObject (to_num : number).

(** ToNumber, which the arithmetic operators apply. *)
Definition to_number (v : mvalue) : number :=
  match v with MNumber n => n | MUndefined => NaN | MNull => S754_zero false | MObject n => n end.

Definition is_number (v : mvalue) : bool := match v with MNumber _ => true | _ => false end.

(** [math.evaluate] with its results as values; [None] is an exception. *)
Class MathEvaluateV := math_evaluate_v : string -> option mvalue.

(** The evaluator as the arithmetic sees it. *)
Definition coerced_evaluate (ev : MathEvaluateV) : MathEvaluate := fun s => option_map to_number (ev s).

(** The function of [x] the arithmetic sees. *)
Definition numeric_view (fv : number -> mvalue) (x : number) : number := to_number (fv x).

(** The exception of [name.toFixed(...)] when [name] holds [v]. *)
Definition toFixed_error (name : string) (v : mvalue) : exn :=
  match v with
  | MUndefined => TypeError "Cannot read properties of undefined (reading 'toFixed')"
  | MNull => TypeError "Cannot read properties of null (reading 'toFixed')"
  | _ => TypeError (name ++ ".toFixed is not a function")
  end.

(** The receiver of [name.toFixed(...)]: the Number it prints, or the
    exception the call throws. *)
Definition toFixed_receiver (name : string) (v : mvalue) : outcome number :=
  match v with MNumber n => Normal n | _ => Thrown (toFixed_error name v) end.

(** ** Code that may throw *)

Definition obind {A B : Type} (o : outcome A) (k : A -> outcome B) : outcome B :=
  match o with Normal a => k a | Thrown e => Thrown e end.

Definition omap {A B : Type} (g : A -> B) (o : outcome A) : outcome B :=
  obind o (fun a => Normal (g a)).

(** A counted loop whose body may throw: the first exception ends it. *)
Fixpoint for_loop_v {St L : Type} (body : nat -> St -> outcome (list L * St)) (fuel i : nat) (s : St)
  : outcome (list L) :=
  match fuel with
  | O => Normal []
  | S fuel' => obind (body i s) (fun r => omap (app (fst r)) (for_loop_v body fuel' (S i) (snd r)))
  end.

(** ** [evaluateFunction] over values (lines 138-144) *)

Section Adapter.
Context `{MathEvaluateV} `{NumberToString}.

Definition evaluateFunction_v (eq : string) (x : number) : mvalue :=
  match math_evaluate_v (replace_x eq (number_to_string x)) with
  | Some v => v
  | None => MNumber NaN
  end.
End Adapter.

(** ** The three methods over values *)

Section MethodsV.
Local Open Scope nm_scope.
Variable fv : number -> mvalue.

(** [newtonRaphson] (lines 63-88): [fVal] is printed with [toFixed(6)]
    (line 73) before it is tested; [fPrimeVal] is the arithmetic of
    [derivative] on the coerced samples. *)
Section Newton.
Variable maxIter : nat.
Variable tol : number.

Fixpoint nr_loop_v (fuel i : nat) (x : number) : outcome (list (nr_line number)) :=
  match fuel with
  | O => Normal [NRApprox maxIter x]
  | S fuel' =>
      let fPrimeVal := nr_fprime (numeric_view fv) x in
      obind (toFixed_receiver "fVal" (fv x)) (fun fVal =>
        omap (cons (NRIteration (S i) x fVal fPrimeVal))
          (if n_abs fVal <? tol then Normal [NRRootFound x]
           else
             let newX := x - fVal / fPrimeVal in
             omap (cons (NRNewX newX)) (nr_loop_v fuel' (S i) newX)))
  end.

Definition newtonRaphson_v_core (x0 : number) : outcome (list (nr_line number)) :=
  omap (cons NRHeader) (nr_loop_v maxIter 0 x0).

(** The number of iterates a loop of [fuel] iterations from [x]
    evaluates: up to the first converged one. *)
Definition nr_evaluated (fuel : nat) (x : number) : nat :=
  match find (fun j => nr_converged (numeric_view fv) tol (nr_iterate (numeric_view fv) j x)) (seq 0 fuel) with
  | Some k => S k
  | None => fuel
  end.

(** The first evaluated iterate whose value is not a Number. *)
Definition nr_first_non_number (fuel : nat) (x : number) : option nat :=
  find (fun j => negb (is_number (fv (nr_iterate (numeric_view fv) j x)))) (seq 0 (nr_evaluated fuel x)).
End Newton.

Variable h : number.
Variable steps : nat.

(** [eulerMethod] (lines 91-107): [y] is printed at line 95 and [slope]
    at line 100, both with [toFixed(6)]. *)
Definition euler_body_v (i : nat) (s : number * number)
  : outcome (list (euler_line number) * (number * number)) :=
  let '(x, y) := s in
  obind (toFixed_receiver "slope" (fv x)) (fun slope =>
    let y' := y + h * slope in
    let x' := x + h in
    Normal ([EStep i x slope; EValue x' y'], (x', y'))).

Definition eulerMethod_v_core (x0 : number) : outcome (list (euler_line number)) :=
  obind (toFixed_receiver "y" (fv x0)) (fun y0 =>
    omap (fun tr => EHeader :: EInitial x0 y0 :: tr) (for_loop_v euler_body_v steps 1 (x0, y0))).

(** [rungeKuttaMethod] (lines 110-135): [y] is printed at line 114; in
    the loop every result is an operand of [h * ...] (lines 117-120),
    which applies ToNumber, and every [toFixed] receiver is a Number. *)
Definition rk_body_v (i : nat) (s : number * number)
  : outcome (list (rk_line number) * (number * number)) :=
  Normal (rk_body (numeric_view fv) h i s).

Definition rungeKuttaMethod_v_core (x0 : number) : outcome (list (rk_line number)) :=
  obind (toFixed_receiver "y" (fv x0)) (fun y0 =>
    omap (fun tr => RHeader :: RInitial x0 y0 :: tr) (for_loop_v rk_body_v steps 1 (x0, y0))).
End MethodsV.

(** ** The Solve handler and the page over values *)

Section PageV.
Context `{MathEvaluateV} `{NumberToString}.

Definition newtonRaphson_v (eq : string) (x0 : number) (maxIter : nat) (tol : number)
  : outcome (list (nr_line number)) :=
  newtonRaphson_v_core (evaluateFunction_v eq) maxIter tol x0.

Definition eulerMethod_v (eq : string) (x0 h : number) (steps : nat) : outcome (list (euler_line number)) :=
  eulerMethod_v_core (evaluateFunction_v eq) h steps x0.

Definition rungeKuttaMethod_v (eq : string) (x0 h : number) (steps : nat) : outcome (list (rk_line number)) :=
  rungeKuttaMethod_v_core (evaluateFunction_v eq) h steps x0.

(** Lines 36-59: the validation, then the [switch], whose branch may
    throw. *)
Definition solve_v (equation initialValueText stepSizeText : string) (p : page) : outcome page :=
  let initialValue := parseFloat initialValueText in
  let stepSize := parseFloat stepSizeText in
  if String.eqb equation "" || isNaN initialValue then
    Normal (displayMessage "Please enter valid equation and initial value." p)
  else
    omap (mkPage (method p))
      (if String.eqb (method p) "newtonRaphson" then
         omap NewtonResult (newtonRaphson_v equation initialValue 10 (n_lit 1 (-6)))
       else if String.eqb (method p) "euler" then
         omap EulerResult (eulerMethod_v equation initialValue stepSize 10)
       else if String.eqb (method p) "rungeKutta" then
         omap RungeKuttaResult (rungeKuttaMethod_v equation initialValue stepSize 10)
       else Normal (Text "Please select a method.")).

Local Open Scope js_scope.

(** The Solve listener (lines 35-60): an exception of the method
    propagates out of the listener before line 59 writes the output. *)
Definition on_solve_v : js unit :=
  c <- gets consts ;;
  equation <- read_value (equationInput c) ;;
  initialValue <- read_value (initialValueInput c) ;;
  stepSize <- read_value (stepSizeInput c) ;;
  m <- gets method_var ;;
  match solve_v equation initialValue stepSize (mkPage m Initial) with
  | Normal p => set_property "innerHTML" (outputDiv c) (innerHTML (shown p))
  | Thrown e => throw e
  end.

Definition run_listener_v (l : listener) : js unit :=
  match l with
  | OnNewtonRaphson => on_select "newtonRaphson" "Newton-Raphson method selected."
  | OnEuler => on_select "euler" "Euler's method selected."
  | OnRungeKutta => on_select "rungeKutta" "Runge-Kutta method selected."
  | OnSolve => on_solve_v
  end.

Definition dispatch_click_v (id : string) (w : world) : world :=
  fold_left (fun w' (reg : string * listener) =>
               if String.eqb (fst reg) id then report (run_listener_v (snd reg)) w' else w')
            (listeners w) w.

Definition dom_step_v (w : world) (e : dom_event) : world :=
  match e with
  | UserInput id text => with_doc (update_first id (set_value text) (doc w)) w
  | UserClick id => dispatch_click_v id w
  end.

Definition dom_run_v (d : document) (year : number) (events : list dom_event) : world :=
  fold_left dom_step_v events (load d year).
End PageV.

(** ** Evaluators *)

(** An evaluator that returns only Numbers. *)
Definition numbers_only (ev : MathEvaluate) : MathEvaluateV := fun s => option_map MNumber (ev s).

(** The text before and after the first occurrence of [c]. *)
Fixpoint split_at (c : ascii) (s : string) : option (string * string) :=
  match s with
  | EmptyString => None
  | String c' rest =>
      if Ascii.eqb c c' then Some (EmptyString, rest)
      else option_map (fun '(a, b) => (String c' a, b)) (split_at c rest)
  end.

(** The math.js fragment with two more results, as math.js gives them: a
    blank text evaluates to [undefined], and [a > b] (lower precedence
    than the arithmetic) to a boolean, whose ToNumber is 1 or 0. *)
Definition mathjs_fragment_v : MathEvaluateV := fun s =>
  match tokenize (S (String.length s)) s with
  | Some [] => Some MUndefined
  | _ =>
      match split_at ">" s with
      | Some (a, b) =>
          match mathjs_fragment_evaluate a, mathjs_fragment_evaluate b with
          | Some u, Some v => Some (MObject (if (v <? u)%nm then n_lit 1 0 else n_lit 0 0))
          | _, _ => None
          end
      | None => option_map MNumber (mathjs_fragment_evaluate s)
      end
  end.

(** ** Loops that throw *)

(** A loop whose body throws on the states [bad] marks, and otherwise
    runs [body], throws at the first iterated state that is bad. *)
Lemma for_loop_v_spec {St L : Type} (body_v : nat -> St -> outcome (list L * St))
    (body : nat -> St -> list L * St) (next : St -> St) (bad : St -> bool) (err : St -> exn) :
  (forall i s, body_v i s = if bad s then Thrown (err s) else Normal (body i s)) ->
  (forall i s, snd (body i s) = next s) ->
  forall n i s, for_loop_v body_v n i s =
    match find (fun j => bad (Nat.iter j next s)) (seq 0 n) with
    | Some j => Thrown (err (Nat.iter j next s))
    | None => Normal (for_loop body n i s)
    end.
Proof.
  intros Hb Hn n. induction n as [|n IH]; intros i s; [reflexivity|].
  rewrite (find_seq_0_S (fun j => bad (Nat.iter j next s))). cbn beta. cbn [for_loop_v for_loop].
  change (Nat.iter 0 next s) with s. rewrite Hb. destruct (bad s); [reflexivity|].
  destruct (body i s) as [out s'] eqn:E. pose proof (Hn i s) as Hs. rewrite E in Hs. cbn in Hs. subst s'.
  cbn [obind fst snd]. rewrite IH.
  rewrite (find_ext (fun j => bad (Nat.iter (S j) next s)) (fun j => bad (Nat.iter j next (next s))))
    by (intros j; now rewrite iter_S_r).
  destruct (find _ (seq 0 n)) as [j|]; cbn [option_map omap obind]; [now rewrite iter_S_r | reflexivity].
Qed.

Lemma for_loop_v_normal {St L : Type} (body : nat -> St -> list L * St) (n i : nat) (s : St) :
  for_loop_v (fun i s => Normal (body i s)) n i s = Normal (for_loop body n i s).
Proof.
  revert i s. induction n as [|n IH]; intros i s; [reflexivity|]. cbn [for_loop_v for_loop].
  destruct (body i s) as [out s']. cbn [obind fst snd]. now rewrite IH.
Qed.

(** ** Newton-Raphson over values *)

Section NewtonVProofs.
Variable fv : number -> mvalue.
Variable maxIter : nat.
Variable tol : number.
Let F := numeric_view fv.

Lemma nr_first_non_number_S (fuel : nat) (x : number) :
  nr_first_non_number fv tol (S fuel) x =
  if is_number (fv x) then
    if nr_converged F tol x then None
    else option_map S (nr_first_non_number fv tol fuel (nr_next F x))
  else Some 0.
Proof.
  unfold nr_first_non_number, nr_evaluated. fold F.
  rewrite (find_seq_0_S (fun j => nr_converged F tol (nr_iterate F j x))). cbn beta.
  change (nr_iterate F 0 x) with x.
  destruct (nr_converged F tol x) eqn:Hc.
  { cbn [seq find]. change (nr_iterate F 0 x) with x. now destruct (is_number (fv x)). }
  rewrite (find_ext (fun j => nr_converged F tol (nr_iterate F (S j) x))
                    (fun j => nr_converged F tol (nr_iterate F j (nr_next F x))))
    by (intros j; now rewrite nr_iterate_S).
  set (m := match find (fun j => nr_converged F tol (nr_iterate F j (nr_next F x))) (seq 0 fuel) with
            | Some k => S k | None => fuel end).
  replace (match option_map S (find (fun j => nr_converged F tol (nr_iterate F j (nr_next F x))) (seq 0 fuel))
           with Some k => S k | None => S fuel end) with (S m) by (unfold m; now destruct find).
  rewrite (find_seq_0_S (fun j => negb (is_number (fv (nr_iterate F j x))))). cbn beta.
  change (nr_iterate F 0 x) with x. destruct (is_number (fv x)); [|reflexivity]. cbn [negb].
  f_equal. apply find_ext. intros j. now rewrite nr_iterate_S.
Qed.

Lemma nr_loop_v_spec (fuel i : nat) (x : number) :
  nr_loop_v fv maxIter tol fuel i x =
  match nr_first_non_number fv tol fuel x with
  | Some j => Thrown (toFixed_error "fVal" (fv (nr_iterate F j x)))
  | None => Normal (nr_loop F maxIter tol fuel i x)
  end.
Proof.
  revert i x. induction fuel as [|fuel IH]; intros i x; [reflexivity|].
  rewrite nr_first_non_number_S. cbn [nr_loop_v nr_loop]. unfold nr_converged.
  destruct (fv x) as [v| | |n] eqn:Hx; cbn [is_number toFixed_receiver obind];
    [| change (nr_iterate F 0 x) with x; now rewrite Hx ..].
  assert (HF : F x = v) by (unfold F, numeric_view; now rewrite Hx).
  rewrite HF. destruct (n_abs v <? tol)%nm; [reflexivity|].
  unfold nr_next. rewrite HF, IH.
  destruct (nr_first_non_number fv tol fuel _) as [j|]; [|reflexivity]. cbn [option_map omap obind].
  rewrite nr_iterate_S. unfold nr_next. now rewrite HF.
Qed.

Lemma newtonRaphson_v_numbers (x0 : number) :
  (forall x, is_number (fv x) = true) -> newtonRaphson_v_core fv maxIter tol x0 = Normal (newtonRaphson_core F maxIter tol x0).
Proof.
  intros Hall. unfold newtonRaphson_v_core. rewrite nr_loop_v_spec. unfold nr_first_non_number.
  now rewrite find_seq_all_false by (intros j _; now rewrite Hall).
Qed.

(** C16: Newton-Raphson over values.  [newtonRaphson] throws the
    [TypeError] of [fVal.toFixed] at the first iterate it evaluates
    (those up to the first converged one, at most [maxIter]) where
    [math.evaluate] does not give a Number; when every evaluated iterate
    gives a Number it returns the trace of the Number model, in which the
    derivative takes the ToNumber of its two samples, whatever they are. *)
Theorem newtonRaphson_v_refines (x0 : number) :
  newtonRaphson_v_core fv maxIter tol x0 =
  match find (fun j => negb (is_number (fv (nr_iterate F j x0)))) (seq 0 (nr_count F maxIter tol x0)) with
  | Some j => Thrown (toFixed_error "fVal" (fv (nr_iterate F j x0)))
  | None => Normal (newtonRaphson_core F maxIter tol x0)
  end.
Proof.
  unfold newtonRaphson_v_core. rewrite nr_loop_v_spec.
  change (nr_first_non_number fv tol maxIter x0) with
    (find (fun j => negb (is_number (fv (nr_iterate F j x0)))) (seq 0 (nr_count F maxIter tol x0))).
  now destruct (find _ _).
Qed.

End NewtonVProofs.

(** ** The integrators over values *)

Section IntegratorsV.
Variable fv : number -> mvalue.
Variable h : number.
Variable steps : nat.
Let F := numeric_view fv.

Lemma numeric_view_number (x v : number) : fv x = MNumber v -> F x = v.
Proof. intros Hx. unfold F, numeric_view. now rewrite Hx. Qed.

Lemma euler_body_v_eq (i : nat) (s : number * number) :
  euler_body_v fv h i s =
  if negb (is_number (fv (fst s))) then Thrown (toFixed_error "slope" (fv (fst s)))
  else Normal (euler_body F h i s).
Proof.
  destruct s as [x y]. unfold euler_body_v, euler_body. cbn [fst].
  destruct (fv x) as [u| | |m] eqn:E; cbn [toFixed_receiver obind is_number negb]; [|reflexivity ..].
  now rewrite (numeric_view_number x u E).
Qed.

(** The loop of [eulerMethod] throws at the first abscissa [x_j] whose
    value is not a Number. *)
Lemma euler_loop_v (x0 v : number) :
  fv x0 = MNumber v ->
  for_loop_v (euler_body_v fv h) steps 1 (x0, v) =
  match find (fun j => negb (is_number (fv (fst (euler_state F h j x0))))) (seq 0 steps) with
  | Some j => Thrown (toFixed_error "slope" (fv (fst (euler_state F h j x0))))
  | None => Normal (for_loop (euler_body F h) steps 1 (x0, F x0))
  end.
Proof.
  intros Hx. unfold euler_state, fs_state. rewrite (numeric_view_number x0 v Hx).
  rewrite (for_loop_v_spec _ (euler_body F h) (euler_step F h) (fun s => negb (is_number (fv (fst s))))
             (fun s => toFixed_error "slope" (fv (fst s))));
    [reflexivity | apply euler_body_v_eq | now intros i [x y]].
Qed.

(** C18: Euler's method over values.  [eulerMethod] throws at line 95 when
    [f(x0)] is not a Number, and otherwise at line 100 at the first
    abscissa [x_j] ([j < steps]) whose value is not a Number; when there is
    none it returns the trace of the Number model. *)
Theorem eulerMethod_v_refines (x0 : number) :
  eulerMethod_v_core fv h steps x0 =
  if is_number (fv x0) then
    match find (fun j => negb (is_number (fv (fst (euler_state F h j x0))))) (seq 0 steps) with
    | Some j => Thrown (toFixed_error "slope" (fv (fst (euler_state F h j x0))))
    | None => Normal (eulerMethod_core F h steps x0)
    end
  else Thrown (toFixed_error "y" (fv x0)).
Proof.
  unfold eulerMethod_v_core. destruct (fv x0) as [v| | |n] eqn:Hx; cbn [toFixed_receiver obind is_number];
    [|reflexivity ..].
  rewrite (euler_loop_v x0 v Hx). unfold eulerMethod_core.
  rewrite (numeric_view_number x0 v Hx). now destruct (find _ (seq 0 steps)).
Qed.

Lemma eulerMethod_v_numbers (x0 : number) :
  (forall x, is_number (fv x) = true) -> eulerMethod_v_core fv h steps x0 = Normal (eulerMethod_core F h steps x0).
Proof.
  intros Hall. pose proof (Hall x0) as H0. unfold eulerMethod_v_core.
  destruct (fv x0) as [v| | |n] eqn:Hx; [|discriminate ..]. cbn [toFixed_receiver obind].
  rewrite (euler_loop_v x0 v Hx), find_seq_all_false by (intros j _; now rewrite Hall).
  unfold eulerMethod_core. now rewrite (numeric_view_number x0 v Hx).
Qed.

Lemma rungeKuttaMethod_v_numbers (x0 : number) :
  (forall x, is_number (fv x) = true) ->
  rungeKuttaMethod_v_core fv h steps x0 = Normal (rungeKuttaMethod_core F h steps x0).
Proof.
  intros Hall. pose proof (Hall x0) as H0. unfold rungeKuttaMethod_v_core.
  destruct (fv x0) as [v| | |n] eqn:Hx; [|discriminate ..]. cbn [toFixed_receiver obind].
  unfold rk_body_v. rewrite for_loop_v_normal. unfold rungeKuttaMethod_core.
  now rewrite (numeric_view_number x0 v Hx).
Qed.

(** C19: Runge-Kutta over values.  [rungeKuttaMethod] throws only when
    [f(x0)] is not a Number (line 114); the values at the other sample
    points enter [h * f(...)] and are converted by ToNumber, so the run
    returns the trace of the Number model on the coerced values, unlike
    Euler's method on the same function. *)
Theorem rungeKuttaMethod_v_refines (x0 : number) :
  rungeKuttaMethod_v_core fv h steps x0 =
  if is_number (fv x0) then Normal (rungeKuttaMethod_core F h steps x0)
  else Thrown (toFixed_error "y" (fv x0)).
Proof.
  unfold rungeKuttaMethod_v_core. destruct (fv x0) as [v| | |n] eqn:Hx; cbn [toFixed_receiver obind is_number];
    [|reflexivity ..].
  unfold rk_body_v. rewrite for_loop_v_normal. unfold rungeKuttaMethod_core.
  now rewrite (numeric_view_number x0 v Hx).
Qed.
End IntegratorsV.

(** ** The Number model is the model of Number results *)

Lemma nr_loop_ext (f g : number -> number) (maxIter : nat) (tol : number) :
  (forall x, f x = g x) -> forall fuel i x, nr_loop f maxIter tol fuel i x = nr_loop g maxIter tol fuel i x.
Proof.
  intros Hfg fuel. induction fuel as [|fuel IH]; intros i x; [reflexivity|].
  cbn [nr_loop]. unfold nr_fprime, central_difference. now rewrite !Hfg, IH.
Qed.

Lemma euler_core_ext (f g : number -> number) (h : number) (steps : nat) (x0 : number) :
  (forall x, f x = g x) -> eulerMethod_core f h steps x0 = eulerMethod_core g h steps x0.
Proof.
  intros Hfg. unfold eulerMethod_core. rewrite Hfg. do 2 f_equal.
  apply for_loop_ext. intros i [x y]. unfold euler_body. now rewrite Hfg.
Qed.

Lemma rk_core_ext (f g : number -> number) (h : number) (steps : nat) (x0 : number) :
  (forall x, f x = g x) -> rungeKuttaMethod_core f h steps x0 = rungeKuttaMethod_core g h steps x0.
Proof.
  intros Hfg. unfold rungeKuttaMethod_core. rewrite Hfg. do 2 f_equal.
  apply for_loop_ext. intros i [x y]. unfold rk_body, rk_k1, rk_k2, rk_k3, rk_k4. now rewrite !Hfg.
Qed.

Lemma bind_pointwise {A B : Type} (m : js A) (k1 k2 : A -> js B) (w : world) :
  (forall a w', k1 a w' = k2 a w') -> bind m k1 w = bind m k2 w.
Proof. intros Hk. unfold bind. destruct (m w) as [[a|e] w']; [apply Hk | reflexivity]. Qed.

Section NumbersOnly.
Context `{ev : MathEvaluateV}.
Hypothesis numbers : forall s v, math_evaluate_v s = Some v -> is_number v = true.

Lemma evaluateFunction_v_number (eq : string) (x : number) : is_number (evaluateFunction_v eq x) = true.
Proof.
  unfold evaluateFunction_v. destruct (math_evaluate_v _) as [v|] eqn:E; [exact (numbers _ _ E) | reflexivity].
Qed.

Lemma evaluateFunction_v_coerced (eq : string) (x : number) :
  numeric_view (evaluateFunction_v eq) x = @evaluateFunction (coerced_evaluate ev) js_number_to_string eq x.
Proof.
  unfold numeric_view, evaluateFunction_v, evaluateFunction, coerced_evaluate, math_evaluate, math_evaluate_v.
  now destruct (ev _).
Qed.

Lemma solve_v_numbers (equation iv ss : string) (p : page) :
  solve_v equation iv ss p = Normal (@solve (coerced_evaluate ev) js_number_to_string equation iv ss p).
Proof.
  unfold solve_v, solve. destruct (String.eqb equation "" || isNaN (parseFloat iv)); [reflexivity|].
  unfold newtonRaphson_v, eulerMethod_v, rungeKuttaMethod_v, newtonRaphson, eulerMethod, rungeKuttaMethod.
  rewrite newtonRaphson_v_numbers, eulerMethod_v_numbers, rungeKuttaMethod_v_numbers
    by apply evaluateFunction_v_number.
  unfold newtonRaphson_core. rewrite (nr_loop_ext _ _ _ _ (evaluateFunction_v_coerced equation)).
  rewrite (euler_core_ext _ _ _ _ _ (evaluateFunction_v_coerced equation)),
    (rk_core_ext _ _ _ _ _ (evaluateFunction_v_coerced equation)).
  now destruct (String.eqb (method p) "newtonRaphson"), (String.eqb (method p) "euler"),
    (String.eqb (method p) "rungeKutta").
Qed.

Lemma on_solve_v_numbers (w : world) : on_solve_v w = @on_solve (coerced_evaluate ev) w.
Proof.
  unfold on_solve_v, on_solve.
  repeat (apply bind_pointwise; intros ? ?).
  now rewrite solve_v_numbers.
Qed.

Lemma dom_step_v_numbers (w : world) (e : dom_event) : dom_step_v w e = @dom_step (coerced_evaluate ev) w e.
Proof.
  destruct e as [id text|id]; [reflexivity|]. unfold dom_step_v, dom_step, dispatch_click_v, dispatch_click.
  apply fold_left_pointwise. intros w' [rid l]. cbn [fst snd].
  destruct (String.eqb rid id); [|reflexivity]. unfold report.
  destruct l; [reflexivity .. |]. cbn [run_listener_v run_listener]. now rewrite on_solve_v_numbers.
Qed.
(** Equivalence with the Number model.  When [math.evaluate] returns
    only Numbers, the page run over values (the script, then any user
    actions) is the run of [Dom], so every theorem of [Dom] and [Page]
    holds of the program with such an evaluator. *)
Theorem dom_run_v_numbers (d : document) (year : number) (events : list dom_event) :
  dom_run_v d year events = @dom_run (coerced_evaluate ev) d year events.
Proof. unfold dom_run_v, dom_run. apply fold_left_pointwise. apply dom_step_v_numbers. Qed.
End NumbersOnly.

(** ** A method that throws leaves the page as it was *)

(** C17: the Solve listener has no [try]: when the selected method throws,
    the exception leaves the listener before line 59, the output element
    keeps what it showed (the result of an earlier click, for instance),
    [method] and every element are unchanged, and the only trace of the
    click is the error the browser reports on the console. *)
Theorem on_solve_v_throw_keeps_page `{MathEvaluateV} (w : world) (ide idi ids : string) (e : exn) :
  equationInput (consts w) = Some ide -> initialValueInput (consts w) = Some idi ->
  stepSizeInput (consts w) = Some ids ->
  solve_v (value_of (doc w) ide) (value_of (doc w) idi) (value_of (doc w) ids)
    (mkPage (method_var w) Initial) = Thrown e ->
  report on_solve_v w = with_console (console w ++ [e]) w.
Proof.
  intros He Hi Hs Hsolve. unfold report, on_solve_v, bind, gets, read_value.
  rewrite He, Hi, Hs. cbv beta iota delta [gets]. now rewrite Hsolve.
Qed.

(** ** Witnesses *)

Lemma on_solve_v_throw_keeps_page_witness :
  @report (@on_solve_v mathjs_fragment_v _)
    (@dom_run_v mathjs_fragment_v _ sample_document year_2026
       [UserInput "equation" "x > 1"; UserInput "initialValue" "1"]) =
  with_console
    (console (@dom_run_v mathjs_fragment_v _ sample_document year_2026
       [UserInput "equation" "x > 1"; UserInput "initialValue" "1"]) ++
     [TypeError "fVal.toFixed is not a function"])
    (@dom_run_v mathjs_fragment_v _ sample_document year_2026
       [UserInput "equation" "x > 1"; UserInput "initialValue" "1"]).
Proof.
  apply (@on_solve_v_throw_keeps_page mathjs_fragment_v _ "equation" "initialValue" "stepSize");
    vm_compute; reflexivity.
Defined.
