(* ===== verification/EndToEnd.v ===== *)
(** * The program end to end, with the math.js fragment

    With [MathJs.mathjs_fragment] as [math.evaluate] and Number::toString
    as the conversion [eq.replace(/x/g, x)] applies, [evaluateFunction]
    (src/index.js, lines 138-144) is a function of the formula text and
    the Number alone: this file shows what the textual substitution does
    to every argument, exactly for [x] alone and with the wrong
    precedence for a negative argument under [^]. *)

From Stdlib Require Import ZArith String Ascii List SpecFloat.
From S2P Require Import Prelude Binary64 NumberString NumberRoundTrip Evaluate MathJs.
Import ListNotations.
Local Open Scope string_scope.

(** [evaluateFunction] with the math.js fragment. *)
Definition eval_mathjs (eq : string) (x : number) : number :=
  @evaluateFunction mathjs_fragment js_number_to_string eq x.

Lemma eval_mathjs_text (eq : string) (x : number) :
  eval_mathjs eq x =
  match mathjs_fragment_evaluate (replace_x eq (Number_toString x)) with Some v => v | None => NaN end.
Proof. reflexivity. Qed.

(** ** The substitution of the argument *)

(** C6: the substitution itself is exact.  [eq.replace(/x/g, x)] writes
    [x] with Number::toString, and math.js reads that text back as the
    very Number [x], for every Number whose digits the 1-to-17-digit search
    of Number::toString finds (NaN and the infinities included), with one
    exception: [-0] is written [0] and comes back as [+0].  So [x] alone
    evaluates to its argument; only the precedence of the inserted sign
    and [-0] change values. *)
Theorem evaluateFunction_substitution_exact (x : number) :
  digits_found x = true ->
  eval_mathjs "x" x = match x with S754_zero _ => S754_zero false | _ => x end.
Proof.
  intros Hd. rewrite eval_mathjs_text. cbn [replace_x Ascii.eqb Bool.eqb].
  rewrite string_app_empty_r, (mathjs_fragment_toString x Hd). reflexivity.
Qed.

(** C5: [eq.replace(/x/g, x)] inserts a negative argument as the text
    ["-"] followed by its magnitude, without parentheses, and math.js gives
    unary minus a lower precedence than [^]: for every negative finite
    Number [x = -a] (whose digits Number::toString finds), [x^2] is
    evaluated as [-(a*a)], a non-positive value, while the parenthesised
    [(x)^2] gives the square [x*x]. *)
Theorem evaluateFunction_negative_power (m : positive) (e : Z) :
  digits_found (S754_finite true m e) = true ->
  eval_mathjs "x^2" (S754_finite true m e) = js_neg (js_mul (S754_finite false m e) (S754_finite false m e)) /\
  eval_mathjs "(x)^2" (S754_finite true m e) = js_mul (S754_finite true m e) (S754_finite true m e).
Proof.
  intros Hd. destruct (toString_finite_layout true m e Hd) as (s & n & k & Hpos & Hdig & Hts & Hv).
  rewrite !eval_mathjs_text, Hts. cbn [replace_x Ascii.eqb Bool.eqb]. rewrite !string_app_assoc.
  unfold mathjs_fragment_evaluate. split.
  - replace (String.length _) with (S (String.length (layout s n k)) + 2)%nat
      by (cbn [append String.length]; rewrite string_length_app; reflexivity).
    rewrite (tokenize_negative_layout s n k "^2" 2 Hpos Hdig eq_refl (le_n 2)), Hv.
    cbn -[js_mul js_neg]. reflexivity.
  - change (String.length (String "("%char ?t)) with (S (String.length t)).
    replace (String.length _) with (S (String.length (layout s n k)) + 3)%nat
      by (cbn [append String.length]; rewrite string_length_app; reflexivity).
    change (tokenize (S (S ?f)) (String "("%char ?t)) with (option_map (cons (TSym "("%char)) (tokenize (S f) t)).
    rewrite (tokenize_negative_layout s n k ")^2" 3 Hpos Hdig eq_refl (le_n 3)), Hv.
    cbn -[js_mul]. reflexivity.
Qed.

(** ** Witnesses *)

Lemma evaluateFunction_negative_power_witness :
  digits_found (S754_finite true 6755399441055744 (-52)) = true /\
  eval_mathjs "x^2" (S754_finite true 6755399441055744 (-52)) = js_neg (js_mul (S754_finite false 6755399441055744 (-52)) (S754_finite false 6755399441055744 (-52))).
Proof.
  assert (Hd : digits_found (S754_finite true 6755399441055744 (-52)) = true) by (vm_compute; reflexivity).
  split; [exact Hd | exact (proj1 (evaluateFunction_negative_power 6755399441055744 (-52) Hd))].
Defined.

Lemma evaluateFunction_substitution_exact_witness :
  eval_mathjs "x" (parseFloat "-0.1") = parseFloat "-0.1" /\
  eval_mathjs "x" (parseFloat "-0") = parseFloat "0".
Proof.
  split.
  - rewrite (evaluateFunction_substitution_exact (parseFloat "-0.1")) by (vm_compute; reflexivity).
    vm_compute. reflexivity.
  - rewrite (evaluateFunction_substitution_exact (parseFloat "-0")) by (vm_compute; reflexivity).
    vm_compute. reflexivity.
Defined.
