(* ===== verification/Rational.v ===== *)
(** * The methods in exact arithmetic

    The numerical code of [Evaluate], [Newton], [Euler] and [RungeKutta]
    is written against the [Arith] interface.  Instantiated with binary64
    it is the program; instantiated with the rationals [Q] it is the same
    algorithm without rounding.  This file gives the [Q] instance, its
    [Proper] morphisms for [Qeq] (rationals are compared up to [Qeq], a
    coarser relation than equality, so rewriting is setoid rewriting), and
    proves what the algorithms compute when no rounding happens:
    - the central difference of a quadratic is its exact derivative;
    - Euler's method on a linear slope [a + b x] falls short of the exact
      solution by exactly [b * n * h^2 / 2] after [n] steps;
    - RK4 on a cubic slope computes the exact solution at every step. *)

From Stdlib Require Import ZArith QArith Qabs Qfield Morphisms Setoid RelationPairs Lia.
From S2P Require Import Prelude Evaluate FixedStep Euler RungeKutta.

Local Open Scope Q_scope.

(** The literal [m * 10^e] is exact in [Q]. *)
Definition q_lit (m e : Z) : Q :=
  if (0 <=? e)%Z then inject_Z (m * 10 ^ e) else inject_Z m / inject_Z (10 ^ (- e)).

#[export] Instance q_arith : Arith Q := {
  n_add := Qplus;
  n_sub := Qminus;
  n_mul := Qmult;
  n_div := Qdiv;
  n_abs := Qabs;
  n_ltb := fun a b => negb (Qle_bool b a);
  n_lit := q_lit
}.

#[export] Instance q_add_proper : Proper (Qeq ==> Qeq ==> Qeq) (@n_add Q q_arith).
Proof. exact Qplus_comp. Qed.
#[export] Instance q_sub_proper : Proper (Qeq ==> Qeq ==> Qeq) (@n_sub Q q_arith).
Proof. exact Qminus_comp. Qed.
#[export] Instance q_mul_proper : Proper (Qeq ==> Qeq ==> Qeq) (@n_mul Q q_arith).
Proof. exact Qmult_comp. Qed.
#[export] Instance q_div_proper : Proper (Qeq ==> Qeq ==> Qeq) (@n_div Q q_arith).
Proof. exact Qdiv_comp. Qed.

(** The step map of a fixed-step integrator respects [Qeq] on the state
    when its increment does. *)
#[export] Instance fs_step_proper (h : Q) (incr : Q -> Q) :
  Proper (Qeq ==> Qeq) incr ->
  Proper (RelProd Qeq Qeq ==> RelProd Qeq Qeq) (fs_step h incr).
Proof.
  intros Hincr [x y] [x' y'] [Hx Hy].
  change (x == x') in Hx. change (y == y') in Hy.
  split; unfold RelCompFun; cbn [fs_step fst snd]; now rewrite Hx, ?Hy.
Qed.

(** The state after [j] steps respects [Qeq] on the initial state. *)
#[export] Instance fs_state_proper (h : Q) (incr : Q -> Q) (j : nat) :
  Proper (Qeq ==> Qeq) incr ->
  Proper (RelProd Qeq Qeq ==> RelProd Qeq Qeq) (fs_state h incr j).
Proof.
  intros Hincr s s' Hs. induction j as [|j IH]; [exact Hs|].
  rewrite !fs_state_S. now apply fs_step_proper.
Qed.

(** ** Polynomial slopes and their antiderivatives *)

Definition cubic (a b c d : Q) (x : Q) : Q := a + b * x + c * (x * x) + d * (x * x * x).

(** [F' = cubic a b c d]. *)
Definition cubic_antiderivative (a b c d : Q) (x : Q) : Q :=
  a * x + b * (x * x) / 2 + c * (x * x * x) / 3 + d * (x * x * x * x) / 4.

Definition affine (a b : Q) (x : Q) : Q := a + b * x.

Definition affine_antiderivative (a b : Q) (x : Q) : Q := a * x + b * (x * x) / 2.

Definition quadratic (a b c : Q) (x : Q) : Q := a + b * x + c * (x * x).

(** ** One step of each method *)

(** The RK4 increment of a cubic slope is the exact change of its
    antiderivative over the step (Simpson's rule is exact on cubics). *)
Lemma rk_increment_cubic (a b c d h x : Q) :
  rk_increment (cubic a b c d) h x
  == cubic_antiderivative a b c d (x + h) - cubic_antiderivative a b c d x.
Proof.
  unfold rk_increment, rk_combine, rk_k1, rk_k2, rk_k3, rk_k4, cubic, cubic_antiderivative.
  cbn [n_add n_sub n_mul n_div n_lit q_arith].
  change (q_lit 5 (-1)) with (5 # 10); change (q_lit 2 0) with (2 # 1); change (q_lit 6 0) with (6 # 1).
  field.
Qed.

(** The Euler increment of an affine slope misses the exact change by
    [b * h^2 / 2]. *)
Lemma euler_increment_affine (a b h x : Q) :
  euler_increment (affine a b) h x
  == affine_antiderivative a b (x + h) - affine_antiderivative a b x - b * (h * h) / 2.
Proof.
  unfold euler_increment, affine, affine_antiderivative. simpl n_mul. field.
Qed.

Lemma inject_Z_succ (j : nat) : inject_Z (Z.of_nat (S j)) == inject_Z (Z.of_nat j) + 1.
Proof. now rewrite Nat2Z.inj_succ, <- Z.add_1_r, inject_Z_plus. Qed.

(** ** Properties *)

(** RK4 is exact on cubic slopes.  In exact arithmetic, after [j]
    steps of [rungeKuttaMethod]'s update on the slope
    [f(x) = a + b x + c x^2 + d x^3], the abscissa is [x0 + j h] and the
    value is [f(x0) + F(x_j) - F(x0)] with [F' = f]: the exact solution of
    [y' = f(x)], [y(x0) = f(x0)] (the true solution is a polynomial of
    degree at most 4, which RK4 integrates without error). *)
Theorem rk4_exact_cubic (a b c d h x0 : Q) (j : nat) :
  fst (rk_state (cubic a b c d) h j x0) == x0 + inject_Z (Z.of_nat j) * h /\
  snd (rk_state (cubic a b c d) h j x0)
  == cubic a b c d x0 + (cubic_antiderivative a b c d (fst (rk_state (cubic a b c d) h j x0))
                         - cubic_antiderivative a b c d x0).
Proof.
  unfold rk_state. induction j as [|j IH]; [split; simpl; ring|].
  rewrite fs_state_S. destruct (fs_state _ _ j _) as [xj yj]. destruct IH as [IHx IHy].
  cbn [fs_step fst snd] in *. split.
  - rewrite IHx, inject_Z_succ. cbn [n_add q_arith]. ring.
  - rewrite IHy, rk_increment_cubic. cbn [n_add q_arith]. ring.
Qed.

(** Euler's deficit on affine slopes.  In exact arithmetic, after [n]
    steps of [eulerMethod]'s update on [f(x) = a + b x], the value is the
    exact solution [f(x0) + F(x_n) - F(x0)] minus exactly
    [n * b * h^2 / 2]: below the exact value whenever the slope increases
    ([b > 0]). *)
Theorem euler_affine_deficit (a b h x0 : Q) (n : nat) :
  snd (euler_state (affine a b) h n x0)
  == affine a b x0 + (affine_antiderivative a b (fst (euler_state (affine a b) h n x0))
                      - affine_antiderivative a b x0)
     - inject_Z (Z.of_nat n) * (b * (h * h) / 2).
Proof.
  unfold euler_state. induction n as [|n IH]; [simpl; ring|].
  rewrite fs_state_S. destruct (fs_state _ _ n _) as [xn yn].
  cbn [fs_step fst snd] in *.
  rewrite IH, euler_increment_affine, inject_Z_succ. cbn [n_add q_arith]. ring.
Qed.

(** The central difference is exact on quadratics: for any non-zero
    step [h], [(f(x+h) - f(x-h)) / (2h)] is [f'(x) = b + 2 c x] when
    [f(x) = a + b x + c x^2]. *)
Theorem central_difference_exact_quadratic (a b c x h : Q) :
  ~ h == 0 -> central_difference (quadratic a b c) x h == b + 2 * c * x.
Proof.
  intros Hh. unfold central_difference, quadratic.
  cbn [n_add n_sub n_mul n_div n_lit q_arith]. change (q_lit 2 0) with (2 # 1).
  field. exact Hh.
Qed.

(** The design's test in exact arithmetic: Euler on [y' = x] from [0] with
    [h = 0.1] and 10 steps gives exactly [0.45]. *)
Lemma euler_affine_deficit_witness :
  snd (euler_state (affine 0 1) (1 # 10) 10 0) == 9 # 20.
Proof.
  rewrite euler_affine_deficit. unfold affine, affine_antiderivative. vm_compute. reflexivity.
Defined.

Lemma central_difference_exact_quadratic_witness :
  ~ (1 # 100000) == 0 /\
  central_difference (quadratic (-2) 0 1) 1 (1 # 100000) == 0 + 2 * 1 * 1.
Proof.
  split; [discriminate|].
  apply (central_difference_exact_quadratic (-2) 0 1 1 (1 # 100000)). discriminate.
Defined.
